(** * OpenCV-Toolkit: the workspace front end and the image pipeline it drives

    A shallow embedding of the Vue workspace (views/WorkspaceView.vue), the
    REST client (api/vision.ts), the axios service (services/http.ts) and the
    Pinia auth store (stores/auth.ts), together with models of the image
    pipeline operations that the back end implements.  The back end is not
    among the sources, so the pipeline operations are modelled from their
    specification and marked as such. *)

From Stdlib Require Import ZArith QArith Qround Lia Lra Lqa Ascii.
From stdpp Require Import gmap strings list.

(** ** JavaScript values used by the front end *)

Module Js.

(** A JavaScript [number].  Finite doubles are kept as exact rationals
    (rounding of finite results is not modelled); the three special values
    of IEEE arithmetic are explicit because comparisons treat them
    differently. *)
Inductive number : Type :=
| Fin (q : Q)
| PosInf
| NegInf
| NaN.

Definition Qltb (a b : Q) : bool := negb (Qle_bool b a).

(** [a < b]: every comparison with [NaN] is false. *)
Definition lt (a b : number) : bool :=
  match a, b with
  | NaN, _ => false
  | _, NaN => false
  | Fin p, Fin q => Qltb p q
  | Fin _, PosInf => true
  | Fin _, NegInf => false
  | NegInf, NegInf => false
  | NegInf, _ => true
  | PosInf, _ => false
  end.

(** [a > b] *)
Definition gt (a b : number) : bool := lt b a.

(** [a / b] for two finite operands; the divisor [0] is the positive zero
    that a DOMRect reports for an empty box. *)
Definition div (a b : Q) : number :=
  if Qeq_bool b 0 then
    if Qeq_bool a 0 then NaN
    else if Qltb 0 a then PosInf else NegInf
  else Fin (a / b).

(** The outcome of an awaited promise. *)
Inductive Settled (A E : Type) : Type :=
| Fulfilled (a : A)
| Rejected (e : E).
Arguments Fulfilled {A E} a.
Arguments Rejected {A E} e.

(** The outcome of evaluating a piece of synchronous code. *)
Inductive Completion (A : Type) : Type :=
| Normal (a : A)
| Throw (what : string).
Arguments Normal {A} a.
Arguments Throw {A} what.

(** [try { body } catch { handler }] *)
Definition try_catch {A} (body : Completion A) (handler : Completion A) : Completion A :=
  match body with
  | Normal a => Normal a
  | Throw _ => handler
  end.

(** [arr[i] = v] on an array whose missing slots read [undefined]: inside
    the array the slot is overwritten, past its end the array grows. *)
Definition array_set {A} (arr : list (option A)) (i : nat) (v : A) : list (option A) :=
  if decide (i < length arr)%nat then <[i := Some v]> arr
  else arr ++ replicate (i - length arr) None ++ [Some v].

(** [arr.pop()] as far as the array is concerned. *)
Definition array_pop {A} (arr : list A) : list A := removelast arr.

(** Truthiness of [string | null | undefined]. *)
Definition truthy (s : option string) : bool :=
  match s with
  | Some t => negb (String.eqb t EmptyString)
  | None => false
  end.

(** [a || b] on optional strings. *)
Definition or_else (a b : option string) : option string :=
  if truthy a then a else b.

End Js.

(** ** services/http.ts *)

Module Http.

Record ErrorData : Type := {
  detail : option string;
  message : option string
}.

Record ErrorResponse : Type := {
  status : Z;
  data : option ErrorData
}.

(** [AxiosError<{ detail?: string; message?: string }>] *)
Record AxiosError : Type := {
  response : option ErrorResponse;
  error_message : string
}.

Inductive Effect : Type :=
| ElMessage_error (text : string).

Definition fallback_message : string := "请求失败，请稍后再试".

(** The rejection handler installed by [http.interceptors.response.use]:
    it receives the error and the current [localStorage]. *)
Definition onResponseError {T : Type} (error : AxiosError) (localStorage : gmap string string)
  : gmap string string * list Effect * Js.Settled T AxiosError :=
  let status := status <$> response error in
  let localStorage' :=
    if decide (status = Some 401%Z)
    then delete "user_profile" (delete "access_token" localStorage)
    else localStorage in
  let body := response error ≫= data in
  let message :=
    Js.or_else (body ≫= detail)
      (Js.or_else (body ≫= message)
         (Js.or_else (Some (error_message error)) (Some fallback_message))) in
  (localStorage', [ElMessage_error (default fallback_message message)], Js.Rejected error).

(** The fulfilment handler: [(response) => response.data]. *)
Definition onResponse {T : Type} (response_data : T) : Js.Settled T AxiosError :=
  Js.Fulfilled response_data.

(** The part of an axios request configuration that the request
    interceptor touches. *)
Record RequestConfig : Type := {
  request_url : string;
  headers : gmap string string
}.

(** The fulfilment handler installed by [http.interceptors.request.use]. *)
Definition onRequest (config : RequestConfig) (localStorage : gmap string string)
  : RequestConfig :=
  let token := localStorage !! "access_token" in
  if Js.truthy token
  then {| request_url := request_url config;
          headers := <["Authorization" := String.append "Bearer " (default EmptyString token)]>
                       (headers config) |}
  else config.

End Http.

(** ** stores/auth.ts *)

Module AuthStore.

Definition TOKEN_KEY : string := "access_token".
Definition USER_KEY : string := "user_profile".

#[local] Set Warnings "-register-all".

(** The value of a JSON text. [JNull] doubles as the [null] that
    [readUserFromStorage] returns. *)
Inductive json : Type :=
| JNull
| JBool (b : bool)
| JNum (q : Q)
| JStr (s : string)
| JArr (items : list json)
| JObj (members : list (string * json)).

Record AuthState : Type := {
  token : string;
  user : json
}.

Section WithParser.

(** [JSON.parse] is a built-in of the host: it either returns the value
    of the text or throws a [SyntaxError]. *)
Variable JSON_parse : string → Js.Completion json.

Definition readUserFromStorage (localStorage : gmap string string) : Js.Completion json :=
  let stored := localStorage !! USER_KEY in
  if negb (Js.truthy stored) then Js.Normal JNull
  else
    Js.try_catch
      (match stored with
       | Some text => JSON_parse text
       | None => Js.Normal JNull
       end)
      (Js.Normal JNull).

(** The [state] initialiser of [useAuthStore]. *)
Definition initialState (localStorage : gmap string string) : Js.Completion AuthState :=
  let token := default EmptyString (Js.or_else (localStorage !! TOKEN_KEY) (Some EmptyString)) in
  match readUserFromStorage localStorage with
  | Js.Normal u => Js.Normal {| token := token; user := u |}
  | Js.Throw e => Js.Throw e
  end.

End WithParser.

(** A [JSON.parse] for the three literal texts, to run examples with; it
    throws on every other text. *)
Definition parseLiteral (text : string) : Js.Completion json :=
  if String.eqb text "null" then Js.Normal JNull
  else if String.eqb text "true" then Js.Normal (JBool true)
  else if String.eqb text "false" then Js.Normal (JBool false)
  else Js.Throw "SyntaxError".

Section WithStringify.

(** [JSON.stringify] is a built-in of the host. *)
Variable JSON_stringify : json → string.

(** The actions take the state of the store and [localStorage] and return
    both; writes to [localStorage] are taken to succeed. *)
Definition setAuth (token : string) (u : json) (st : AuthState)
  (localStorage : gmap string string) : AuthState * gmap string string :=
  ({| token := token; user := u |},
   <[USER_KEY := JSON_stringify u]> (<[TOKEN_KEY := token]> localStorage)).

Definition updateProfile (u : json) (st : AuthState)
  (localStorage : gmap string string) : AuthState * gmap string string :=
  ({| token := AuthStore.token st; user := u |},
   <[USER_KEY := JSON_stringify u]> localStorage).

End WithStringify.

Definition logout (st : AuthState) (localStorage : gmap string string)
  : AuthState * gmap string string :=
  ({| token := EmptyString; user := JNull |},
   delete USER_KEY (delete TOKEN_KEY localStorage)).

(** The getter [isAuthenticated]: [Boolean(state.token)]. *)
Definition isAuthenticated (st : AuthState) : bool := Js.truthy (Some (token st)).

Definition getStoredToken (localStorage : gmap string string) : string :=
  default EmptyString (Js.or_else (localStorage !! TOKEN_KEY) (Some EmptyString)).

(** A [JSON.stringify] for the three literal values, the counterpart of
    [parseLiteral] to run examples with. *)
Definition stringifyLiteral (v : json) : string :=
  match v with
  | JBool true => "true"
  | JBool false => "false"
  | _ => "null"
  end.

End AuthStore.


(** ** api/vision.ts *)

Module Vision.

(** A [File] picked by the user; the name stands for its identity. *)
Record File : Type := { file_name : string }.

(** A point as the workspace stores it: [{ x: number; y: number }]. *)
Record Point : Type := { x : Js.number; y : Js.number }.

Inductive ColorBlindMode : Type := red_green | blue_green.

(** The part of a [GalleryRecord] that the workspace looks at. *)
Record GalleryRecord : Type := { id : string; file_url : string }.

Record ColorBlindResponse : Type := {
  processedImage : string;
  savedOriginal : option GalleryRecord;
  savedProcessed : option GalleryRecord
}.

(** A value appended to a [FormData]: a file, or the text that [String(..)]
    or [JSON.stringify(..)] makes of the argument named by the constructor. *)
Inductive FormValue : Type :=
| Blob (f : File)
| Text (s : string)
| OfBoolean (b : bool)
| OfNumber (n : Js.number)
| OfMode (m : ColorBlindMode)
| JsonPoints (points : list (option Point))
| JsonPoint (p : Point).

Record Request : Type := {
  url : string;
  formData : list (string * FormValue);
  contentType : string
}.

Definition multipart : string := "multipart/form-data".

(** The optional fields that every client function appends the same way. *)
Definition appendOption {A} (key : string) (wrap : A → FormValue) (v : option A)
  (form : list (string * FormValue)) : list (string * FormValue) :=
  match v with
  | Some a => form ++ [(key, wrap a)]
  | None => form
  end.

Definition appendUserId (userId : option string) (form : list (string * FormValue))
  : list (string * FormValue) :=
  if Js.truthy userId then appendOption "user_id" Text userId form else form.

Record ColorBlindPayload : Type := {
  cb_file : File;
  cb_mode : ColorBlindMode;
  cb_saveOriginal : option bool;
  cb_saveProcessed : option bool;
  cb_userId : option string;
  cb_rotation : option Js.number
}.

Definition transformColorBlind (payload : ColorBlindPayload) : Request :=
  let form := [("mode", OfMode (cb_mode payload)); ("file", Blob (cb_file payload))] in
  let form := appendOption "save_original" OfBoolean (cb_saveOriginal payload) form in
  let form := appendOption "save_processed" OfBoolean (cb_saveProcessed payload) form in
  let form := appendUserId (cb_userId payload) form in
  let form := appendOption "rotation" OfNumber (cb_rotation payload) form in
  {| url := "/dashboard/vision/color-blind"; formData := form; contentType := multipart |}.

Record DocumentScanPayload : Type := {
  ds_file : File;
  ds_points : list (option Point);
  ds_saveOriginal : option bool;
  ds_saveProcessed : option bool;
  ds_userId : option string;
  ds_rotation : option Js.number
}.

Definition scanDocument (payload : DocumentScanPayload) : Request :=
  let form := [("file", Blob (ds_file payload)); ("points", JsonPoints (ds_points payload))] in
  let form := appendOption "save_original" OfBoolean (ds_saveOriginal payload) form in
  let form := appendOption "save_processed" OfBoolean (ds_saveProcessed payload) form in
  let form := appendUserId (ds_userId payload) form in
  let form := appendOption "rotation" OfNumber (ds_rotation payload) form in
  {| url := "/dashboard/vision/document-scan"; formData := form; contentType := multipart |}.

Record ContrastPayload : Type := {
  ct_file : File;
  ct_contrast : Js.number;
  ct_saveOriginal : option bool;
  ct_saveProcessed : option bool;
  ct_userId : option string
}.

Definition adjustContrast (payload : ContrastPayload) : Request :=
  let form := [("file", Blob (ct_file payload)); ("contrast", OfNumber (ct_contrast payload))] in
  let form := appendOption "save_original" OfBoolean (ct_saveOriginal payload) form in
  let form := appendOption "save_processed" OfBoolean (ct_saveProcessed payload) form in
  let form := appendUserId (ct_userId payload) form in
  {| url := "/dashboard/vision/contrast"; formData := form; contentType := multipart |}.

Record BrightnessPayload : Type := {
  br_file : File;
  br_brightness : Js.number;
  br_saveOriginal : option bool;
  br_saveProcessed : option bool;
  br_userId : option string
}.

Definition adjustBrightness (payload : BrightnessPayload) : Request :=
  let form := [("file", Blob (br_file payload)); ("brightness", OfNumber (br_brightness payload))] in
  let form := appendOption "save_original" OfBoolean (br_saveOriginal payload) form in
  let form := appendOption "save_processed" OfBoolean (br_saveProcessed payload) form in
  let form := appendUserId (br_userId payload) form in
  {| url := "/dashboard/vision/brightness"; formData := form; contentType := multipart |}.

Record WatermarkPayload : Type := {
  wm_file : File;
  wm_watermark : File;
  wm_position : Point;
  wm_saveOriginal : option bool;
  wm_saveProcessed : option bool;
  wm_userId : option string
}.

Definition applyWatermark (payload : WatermarkPayload) : Request :=
  let form := [("file", Blob (wm_file payload)); ("watermark", Blob (wm_watermark payload));
               ("position", JsonPoint (wm_position payload))] in
  let form := appendOption "save_original" OfBoolean (wm_saveOriginal payload) form in
  let form := appendOption "save_processed" OfBoolean (wm_saveProcessed payload) form in
  let form := appendUserId (wm_userId payload) form in
  {| url := "/dashboard/vision/watermark"; formData := form; contentType := multipart |}.

Record RotatePayload : Type := {
  rt_file : File;
  rt_rotation : Js.number;
  rt_saveOriginal : option bool;
  rt_saveProcessed : option bool;
  rt_userId : option string
}.

Definition rotateImage (payload : RotatePayload) : Request :=
  let form := [("file", Blob (rt_file payload)); ("rotation", OfNumber (rt_rotation payload))] in
  let form := appendOption "save_original" OfBoolean (rt_saveOriginal payload) form in
  let form := appendOption "save_processed" OfBoolean (rt_saveProcessed payload) form in
  let form := appendUserId (rt_userId payload) form in
  {| url := "/dashboard/vision/rotate"; formData := form; contentType := multipart |}.

(** [formData.get(name)]: the first value appended under the name. *)
Definition FormData_get (name : string) (form : list (string * FormValue))
  : option FormValue :=
  snd <$> List.find (λ part, String.eqb (fst part) name) form.

(** The parts that every request of the vision client has or may have. *)
Definition common_parts (file : File) (saveOriginal saveProcessed : option bool)
  (userId : option string) (r : Request) : Prop :=
  contentType r = "multipart/form-data"
  ∧ NoDup (formData r).*1
  ∧ FormData_get "file" (formData r) = Some (Blob file)
  ∧ FormData_get "save_original" (formData r) = OfBoolean <$> saveOriginal
  ∧ FormData_get "save_processed" (formData r) = OfBoolean <$> saveProcessed
  ∧ FormData_get "user_id" (formData r)
    = (if Js.truthy userId then Text <$> userId else None).

End Vision.


(** ** views/WorkspaceView.vue *)

Module Workspace.
Import Vision.

(** What [getBoundingClientRect()] reports for the scanned image. *)
Record DOMRect : Type := {
  rect_left : Q;
  rect_top : Q;
  rect_width : Q;
  rect_height : Q
}.

(** The fields of a [MouseEvent] or [PointerEvent] that the handlers read. *)
Record PointerEvent : Type := {
  clientX : Q;
  clientY : Q;
  pointerId : Z
}.

(** element-plus [UploadFile]: [raw] is the picked file, if any. *)
Record UploadFile : Type := { raw : option File }.

Record FeatureTab : Type := {
  key : string;
  disabled : bool
}.

Definition featureTabs : list FeatureTab :=
  [ {| key := "color-blind"; disabled := false |};
    {| key := "document-scan"; disabled := false |};
    {| key := "coming-soon"; disabled := true |} ].

(** The refs of the component. *)
Record State : Type := {
  activeFeature : string;
  topNavActive : string;
  selectedMode : ColorBlindMode;
  uploadFile : option File;
  originalPreview : string;
  processedPreview : string;
  loading : bool;
  saveOriginal : bool;
  saveProcessed : bool;
  documentPoints : list (option Point);
  draggingPointIndex : option nat;
  activePointerId : option Z
}.

Definition initial : State :=
  {| activeFeature := "color-blind";
     topNavActive := "workspace-color-blind";
     selectedMode := red_green;
     uploadFile := None;
     originalPreview := EmptyString;
     processedPreview := EmptyString;
     loading := false;
     saveOriginal := false;
     saveProcessed := true;
     documentPoints := [];
     draggingPointIndex := None;
     activePointerId := None |}.

(** Assignments to one ref. *)
Definition set_activeFeature (v : string) (s : State) : State :=
  {| activeFeature := v; topNavActive := topNavActive s; selectedMode := selectedMode s;
     uploadFile := uploadFile s; originalPreview := originalPreview s;
     processedPreview := processedPreview s; loading := loading s;
     saveOriginal := saveOriginal s; saveProcessed := saveProcessed s;
     documentPoints := documentPoints s; draggingPointIndex := draggingPointIndex s;
     activePointerId := activePointerId s |}.

Definition set_topNavActive (v : string) (s : State) : State :=
  {| activeFeature := activeFeature s; topNavActive := v; selectedMode := selectedMode s;
     uploadFile := uploadFile s; originalPreview := originalPreview s;
     processedPreview := processedPreview s; loading := loading s;
     saveOriginal := saveOriginal s; saveProcessed := saveProcessed s;
     documentPoints := documentPoints s; draggingPointIndex := draggingPointIndex s;
     activePointerId := activePointerId s |}.

Definition set_uploadFile (v : option File) (s : State) : State :=
  {| activeFeature := activeFeature s; topNavActive := topNavActive s; selectedMode := selectedMode s;
     uploadFile := v; originalPreview := originalPreview s;
     processedPreview := processedPreview s; loading := loading s;
     saveOriginal := saveOriginal s; saveProcessed := saveProcessed s;
     documentPoints := documentPoints s; draggingPointIndex := draggingPointIndex s;
     activePointerId := activePointerId s |}.

Definition set_originalPreview (v : string) (s : State) : State :=
  {| activeFeature := activeFeature s; topNavActive := topNavActive s; selectedMode := selectedMode s;
     uploadFile := uploadFile s; originalPreview := v;
     processedPreview := processedPreview s; loading := loading s;
     saveOriginal := saveOriginal s; saveProcessed := saveProcessed s;
     documentPoints := documentPoints s; draggingPointIndex := draggingPointIndex s;
     activePointerId := activePointerId s |}.

Definition set_processedPreview (v : string) (s : State) : State :=
  {| activeFeature := activeFeature s; topNavActive := topNavActive s; selectedMode := selectedMode s;
     uploadFile := uploadFile s; originalPreview := originalPreview s;
     processedPreview := v; loading := loading s;
     saveOriginal := saveOriginal s; saveProcessed := saveProcessed s;
     documentPoints := documentPoints s; draggingPointIndex := draggingPointIndex s;
     activePointerId := activePointerId s |}.

Definition set_loading (v : bool) (s : State) : State :=
  {| activeFeature := activeFeature s; topNavActive := topNavActive s; selectedMode := selectedMode s;
     uploadFile := uploadFile s; originalPreview := originalPreview s;
     processedPreview := processedPreview s; loading := v;
     saveOriginal := saveOriginal s; saveProcessed := saveProcessed s;
     documentPoints := documentPoints s; draggingPointIndex := draggingPointIndex s;
     activePointerId := activePointerId s |}.

Definition set_saveOriginal (v : bool) (s : State) : State :=
  {| activeFeature := activeFeature s; topNavActive := topNavActive s; selectedMode := selectedMode s;
     uploadFile := uploadFile s; originalPreview := originalPreview s;
     processedPreview := processedPreview s; loading := loading s;
     saveOriginal := v; saveProcessed := saveProcessed s;
     documentPoints := documentPoints s; draggingPointIndex := draggingPointIndex s;
     activePointerId := activePointerId s |}.

Definition set_saveProcessed (v : bool) (s : State) : State :=
  {| activeFeature := activeFeature s; topNavActive := topNavActive s; selectedMode := selectedMode s;
     uploadFile := uploadFile s; originalPreview := originalPreview s;
     processedPreview := processedPreview s; loading := loading s;
     saveOriginal := saveOriginal s; saveProcessed := v;
     documentPoints := documentPoints s; draggingPointIndex := draggingPointIndex s;
     activePointerId := activePointerId s |}.

Definition set_documentPoints (v : list (option Point)) (s : State) : State :=
  {| activeFeature := activeFeature s; topNavActive := topNavActive s; selectedMode := selectedMode s;
     uploadFile := uploadFile s; originalPreview := originalPreview s;
     processedPreview := processedPreview s; loading := loading s;
     saveOriginal := saveOriginal s; saveProcessed := saveProcessed s;
     documentPoints := v; draggingPointIndex := draggingPointIndex s;
     activePointerId := activePointerId s |}.

Definition set_dragging (index : option nat) (pointer : option Z) (s : State) : State :=
  {| activeFeature := activeFeature s; topNavActive := topNavActive s; selectedMode := selectedMode s;
     uploadFile := uploadFile s; originalPreview := originalPreview s;
     processedPreview := processedPreview s; loading := loading s;
     saveOriginal := saveOriginal s; saveProcessed := saveProcessed s;
     documentPoints := documentPoints s; draggingPointIndex := index;
     activePointerId := pointer |}.

(** What a handler does to the world outside the refs. *)
Inductive Effect : Type :=
| ElMessage_warning (text : string)
| ElMessage_success (text : string)
| ElMessage_error (text : string)
| console_error
| revokeObjectURL (u : string)
| clearFiles
| handleStart (f : File)
| post (r : Request)
| router_push (name : string)
| stopPropagation
| setPointerCapture (pointer : Z)
| releasePointerCapture (pointer : Z)
| addDragListeners
| removeDragListeners.

(** [URL.createObjectURL(file)]: some [blob:] URL for the file. *)
Definition createObjectURL (f : File) : string := String.append "blob:" (file_name f).

(** The computed refs. *)
Definition canTransform (s : State) : bool :=
  bool_decide (is_Some (uploadFile s)) && negb (loading s).


Definition canDocumentScan (s : State) : bool :=
  bool_decide (is_Some (uploadFile s))
  && bool_decide (length (documentPoints s) = 4%nat)
  && negb (loading s).

Definition cleanupPreview (s : State) : State * list Effect :=
  let fx := if String.prefix "blob:" (originalPreview s)
            then [revokeObjectURL (originalPreview s)] else [] in
  (set_originalPreview EmptyString s, fx).

Definition assignFile (file : option File) (s : State) : State * list Effect :=
  let '(s, fx) := cleanupPreview s in
  let s := set_uploadFile file s in
  let s := set_processedPreview EmptyString s in
  let s := set_saveOriginal false s in
  let s := set_saveProcessed true s in
  let s := set_documentPoints [] s in
  match file with
  | Some f => (set_originalPreview (createObjectURL f) s, fx)
  | None => (s, fx)
  end.

Definition handleFileChange (file : option UploadFile) (s : State) : State * list Effect :=
  match file ≫= raw with
  | None => assignFile None s
  | Some f => assignFile (Some f) s
  end.

Definition handleExceed (files : list File) (s : State) : State * list Effect :=
  match files with
  | [] => (s, [])
  | file :: _ =>
      let '(s, fx) := assignFile (Some file) s in
      (s, [clearFiles; handleStart file] ++ fx)
  end.

Definition handleRemove (s : State) : State * list Effect :=
  let '(s, fx) := assignFile None s in
  (s, fx ++ [clearFiles]).

(** The messages after a successful transform. *)
Definition savedMessages (response : ColorBlindResponse) (original processed : string)
  : list Effect :=
  match savedOriginal response with
  | Some _ => [ElMessage_success original]
  | None => []
  end
  ++ match savedProcessed response with
     | Some _ => [ElMessage_success processed]
     | None => []
     end.

(** [handleColorBlindTransform] up to its [await]: the new state, the
    effects, and the request whose answer is awaited (if one was sent). *)
Definition handleColorBlindTransform_call (userId : option string) (s : State)
  : State * list Effect * option Request :=
  match uploadFile s with
  | None => (s, [ElMessage_warning "请先上传需要处理的图片"], None)
  | Some f =>
      let r := transformColorBlind
                 {| cb_file := f; cb_mode := selectedMode s;
                    cb_saveOriginal := Some (saveOriginal s);
                    cb_saveProcessed := Some (saveProcessed s);
                    cb_userId := userId; cb_rotation := None |} in
      (set_loading true s, [post r], Some r)
  end.

(** [handleColorBlindTransform] from the moment the promise settles; [s] is
    the state the component has by then. *)
Definition handleColorBlindTransform_resume
  (outcome : Js.Settled ColorBlindResponse Http.AxiosError) (s : State) : State * list Effect :=
  match outcome with
  | Js.Fulfilled response =>
      let s := set_processedPreview (processedImage response) s in
      (set_loading false s,
       savedMessages response "原始图片已保存到图库" "处理后的图片已保存到图库"
       ++ [ElMessage_success "色盲模式转换完成"])
  | Js.Rejected _ =>
      (set_loading false s, [console_error; ElMessage_error "处理失败，请稍后重试"])
  end.

(** [handleDocumentScan] up to its [await]. *)
Definition handleDocumentScan_call (userId : option string) (s : State)
  : State * list Effect * option Request :=
  match uploadFile s with
  | None => (s, [ElMessage_warning "请先上传需要处理的图片"], None)
  | Some f =>
      if negb (bool_decide (length (documentPoints s) = 4%nat))
      then (s, [ElMessage_warning "请框选四个角点再进行扫描转换"], None)
      else
        let r := scanDocument
                   {| ds_file := f; ds_points := documentPoints s;
                      ds_saveOriginal := Some (saveOriginal s);
                      ds_saveProcessed := Some (saveProcessed s);
                      ds_userId := userId; ds_rotation := None |} in
        (set_loading true s, [post r], Some r)
  end.

(** [handleDocumentScan] from the moment the promise settles. *)
Definition handleDocumentScan_resume
  (outcome : Js.Settled ColorBlindResponse Http.AxiosError) (s : State) : State * list Effect :=
  match outcome with
  | Js.Fulfilled response =>
      let s := set_processedPreview (processedImage response) s in
      let s := set_documentPoints [] s in
      (set_loading false s,
       savedMessages response "原始图片已保存到图库" "扫描件已保存到图库"
       ++ [ElMessage_success "扫描件生成成功"])
  | Js.Rejected _ =>
      (set_loading false s, [console_error; ElMessage_error "扫描处理失败，请稍后重试"])
  end.

(** A whole run of [handleDocumentScan] when nothing else happens while the
    request is in flight; [backend] answers the request. *)
Definition handleDocumentScan (userId : option string)
  (backend : Request → Js.Settled ColorBlindResponse Http.AxiosError) (s : State)
  : State * list Effect :=
  let '(s1, fx, awaited) := handleDocumentScan_call userId s in
  match awaited with
  | None => (s1, fx)
  | Some r =>
      let '(s2, fx2) := handleDocumentScan_resume (backend r) s1 in
      (s2, fx ++ fx2)
  end.

Definition handleColorBlindTransform (userId : option string)
  (backend : Request → Js.Settled ColorBlindResponse Http.AxiosError) (s : State)
  : State * list Effect :=
  let '(s1, fx, awaited) := handleColorBlindTransform_call userId s in
  match awaited with
  | None => (s1, fx)
  | Some r =>
      let '(s2, fx2) := handleColorBlindTransform_resume (backend r) s1 in
      (s2, fx ++ fx2)
  end.

(** The watcher on [activeFeature]; it runs when the value has changed. *)
Definition watch_activeFeature (val : string) (s : State) : State :=
  let s := set_topNavActive (String.append "workspace-" val) s in
  if negb (String.eqb val "document-scan") then set_documentPoints [] s else s.

Definition handleFeatureSelect (k : string) (s : State) : State :=
  match List.find (λ tab, String.eqb (key tab) k) featureTabs with
  | None => s
  | Some target =>
      if disabled target then s
      else if String.eqb (activeFeature s) k then s
      else watch_activeFeature k (set_activeFeature k s)
  end.

Definition handleTopMenuSelect (k : string) (s : State) : State * list Effect :=
  let s := set_topNavActive k s in
  if String.eqb k "home" then (s, [router_push "home"])
  else if String.eqb k "gallery" then (s, [router_push "gallery"])
  else if String.prefix "workspace-" k
       then (handleFeatureSelect (String.substring 10 (String.length k - 10) k) s, [])
       else (s, []).

(** The guard shared by the click and the drag handler:
    [x < 0 || x > 1 || y < 0 || y > 1]. *)
Definition outsideImage (px py : Js.number) : bool :=
  Js.lt px (Js.Fin 0) || Js.gt px (Js.Fin 1) || Js.lt py (Js.Fin 0) || Js.gt py (Js.Fin 1).

(** [rect] is [getImageRect()], undefined while the image is not mounted. *)
Definition handleScanAreaClick (event : PointerEvent) (rect : option DOMRect) (s : State)
  : State :=
  if bool_decide (4 ≤ length (documentPoints s))%nat || String.eqb (originalPreview s) EmptyString
  then s
  else
    match rect with
    | None => s
    | Some rect =>
        let px := Js.div (clientX event - rect_left rect) (rect_width rect) in
        let py := Js.div (clientY event - rect_top rect) (rect_height rect) in
        if outsideImage px py then s
        else set_documentPoints (documentPoints s ++ [Some {| x := px; y := py |}]) s
    end.

Definition startPointDrag (index : nat) (event : PointerEvent) (rect : option DOMRect)
  (s : State) : State * list Effect :=
  match rect with
  | None => (s, [stopPropagation])
  | Some _ =>
      (set_dragging (Some index) (Some (pointerId event)) s,
       [stopPropagation; setPointerCapture (pointerId event); addDragListeners])
  end.

Definition handlePointDragMove (event : PointerEvent) (rect : option DOMRect) (s : State)
  : State :=
  match draggingPointIndex s with
  | None => s
  | Some index =>
      if match activePointerId s with
         | Some active => negb (Z.eqb (pointerId event) active)
         | None => false
         end
      then s
      else
        match rect with
        | None => s
        | Some rect =>
            let px := Js.div (clientX event - rect_left rect) (rect_width rect) in
            let py := Js.div (clientY event - rect_top rect) (rect_height rect) in
            if outsideImage px py then s
            else set_documentPoints
                   (Js.array_set (documentPoints s) index {| x := px; y := py |}) s
        end
  end.

Definition stopPointDrag (s : State) : State * list Effect :=
  let fx := match activePointerId s with
            | Some active => [releasePointerCapture active]
            | None => []
            end in
  (set_dragging None None s, fx ++ [removeDragListeners]).

Definition undoDocumentPoint (s : State) : State :=
  set_documentPoints (Js.array_pop (documentPoints s)) s.

Definition resetDocumentPoints (s : State) : State :=
  set_documentPoints [] s.

(** Everything that can happen to the component. *)
Inductive Event : Type :=
| FileChange (file : option UploadFile)
| Exceed (files : list File)
| Remove
| ColorBlindClick
| ColorBlindSettled (outcome : Js.Settled ColorBlindResponse Http.AxiosError)
| DocumentScanClick
| DocumentScanSettled (outcome : Js.Settled ColorBlindResponse Http.AxiosError)
| TopMenuSelect (k : string)
| ScanAreaClick (event : PointerEvent) (rect : option DOMRect)
| PointDragStart (index : nat) (event : PointerEvent) (rect : option DOMRect)
| PointDragMove (event : PointerEvent) (rect : option DOMRect)
| PointDragStop
| UndoPoint
| ResetPoints
| SwitchSaveOriginal (v : bool)
| SwitchSaveProcessed (v : bool)
| SelectMode (m : ColorBlindMode).

Definition set_selectedMode (m : ColorBlindMode) (s : State) : State :=
  {| activeFeature := activeFeature s; topNavActive := topNavActive s; selectedMode := m;
     uploadFile := uploadFile s; originalPreview := originalPreview s;
     processedPreview := processedPreview s; loading := loading s;
     saveOriginal := saveOriginal s; saveProcessed := saveProcessed s;
     documentPoints := documentPoints s; draggingPointIndex := draggingPointIndex s;
     activePointerId := activePointerId s |}.

(** One turn of the event loop. *)
Definition step (userId : option string) (e : Event) (s : State) : State :=
  match e with
  | FileChange file => (handleFileChange file s).1
  | Exceed files => (handleExceed files s).1
  | Remove => (handleRemove s).1
  | ColorBlindClick => (handleColorBlindTransform_call userId s).1.1
  | ColorBlindSettled outcome => (handleColorBlindTransform_resume outcome s).1
  | DocumentScanClick => (handleDocumentScan_call userId s).1.1
  | DocumentScanSettled outcome => (handleDocumentScan_resume outcome s).1
  | TopMenuSelect k => (handleTopMenuSelect k s).1
  | ScanAreaClick event rect => handleScanAreaClick event rect s
  | PointDragStart index event rect => (startPointDrag index event rect s).1
  | PointDragMove event rect => handlePointDragMove event rect s
  | PointDragStop => (stopPointDrag s).1
  | UndoPoint => undoDocumentPoint s
  | ResetPoints => resetDocumentPoints s
  | SwitchSaveOriginal v => set_saveOriginal v s
  | SwitchSaveProcessed v => set_saveProcessed v s
  | SelectMode m => set_selectedMode m s
  end.

Definition run (userId : option string) (events : list Event) (s : State) : State :=
  foldl (λ s e, step userId e s) s events.

(** The coordinate is a finite number of the unit interval. *)
Definition in_unit (n : Js.number) : Prop :=
  match n with
  | Js.Fin q => (0 <= q)%Q ∧ (q <= 1)%Q
  | _ => False
  end.

Definition normalized (p : Point) : Prop := in_unit (x p) ∧ in_unit (y p).

(** A slot of the array holds a normalized point, or no point at all. *)
Definition slot_normalized (slot : option Point) : Prop :=
  match slot with
  | Some p => normalized p
  | None => True
  end.

(** Every point that the array holds is normalized. *)
Definition points_normalized (points : list (option Point)) : Prop :=
  Forall slot_normalized points.

(** The image box has a positive width and height. *)
Definition rect_nonempty (rect : option DOMRect) : Prop :=
  match rect with
  | Some r => (0 < rect_width r)%Q ∧ (0 < rect_height r)%Q
  | None => True
  end.

Definition event_rect_nonempty (e : Event) : Prop :=
  match e with
  | ScanAreaClick _ rect => rect_nonempty rect
  | PointDragMove _ rect => rect_nonempty rect
  | _ => True
  end.

(** The template renders one handle per point, so a drag starts on an index
    of the array as it is at that moment. *)
Definition drag_starts_on_a_point (s : State) (e : Event) : Prop :=
  match e with
  | PointDragStart index _ _ => (index < length (documentPoints s))%nat
  | _ => True
  end.

(** A sequence of events in which every drag starts on a rendered point. *)
Fixpoint rendered_run (userId : option string) (events : list Event) (s : State) : Prop :=
  match events with
  | [] => True
  | e :: events => drag_starts_on_a_point s e ∧ rendered_run userId events (step userId e s)
  end.

(** At most four slots, and a dragged index below four. *)
Definition at_most_four (s : State) : Prop :=
  (length (documentPoints s) ≤ 4)%nat
  ∧ match draggingPointIndex s with
    | Some index => (index < 4)%nat
    | None => True
    end.

(** The preview URL is the blob URL made for the current upload. *)
Definition preview_tracks_upload (s : State) : Prop :=
  originalPreview s = match uploadFile s with
                      | Some f => createObjectURL f
                      | None => EmptyString
                      end.

(** The keys of the tabs that can be selected. *)
Definition enabled_feature (k : string) : Prop :=
  ∃ tab, tab ∈ featureTabs ∧ key tab = k ∧ disabled tab = false.

End Workspace.


(** ** The workspace view with six tools

    This version of the workspace view has every ref and every handler of
    [WorkspaceView.vue] and adds the watermark, brightness, contrast and
    rotate tools.  The refs that the two views declare alike are kept in
    the record of [Workspace]; the handlers whose text is the same in both
    are the ones of [Workspace], run on that part of the state. *)

Module Studio.
Import Vision.

(** The tabs carry no [disabled] field, which reads as not disabled. *)
Definition featureTabs : list Workspace.FeatureTab :=
  [ {| Workspace.key := "color-blind"; Workspace.disabled := false |};
    {| Workspace.key := "document-scan"; Workspace.disabled := false |};
    {| Workspace.key := "watermark"; Workspace.disabled := false |};
    {| Workspace.key := "brightness"; Workspace.disabled := false |};
    {| Workspace.key := "contrast"; Workspace.disabled := false |};
    {| Workspace.key := "rotate"; Workspace.disabled := false |} ].

(** The refs of the component.  The five slider values are finite
    numbers. *)
Record State : Type := {
  shared : Workspace.State;
  rotationColorBlind : Q;
  rotationDocument : Q;
  rotationOnly : Q;
  contrastLevel : Q;
  brightnessLevel : Q;
  watermarkFile : option File;
  watermarkPreview : string;
  watermarkPoint : option Point
}.

Definition initial : State :=
  {| shared := Workspace.initial;
     rotationColorBlind := 0; rotationDocument := 0; rotationOnly := 0;
     contrastLevel := 0; brightnessLevel := 0;
     watermarkFile := None; watermarkPreview := EmptyString; watermarkPoint := None |}.

(** Assignments to one ref. *)
Definition set_shared (v : Workspace.State) (s : State) : State :=
  {| shared := v; rotationColorBlind := rotationColorBlind s; rotationDocument := rotationDocument s;
     rotationOnly := rotationOnly s; contrastLevel := contrastLevel s; brightnessLevel := brightnessLevel s;
     watermarkFile := watermarkFile s; watermarkPreview := watermarkPreview s; watermarkPoint := watermarkPoint s |}.

Definition set_rotationColorBlind (v : Q) (s : State) : State :=
  {| shared := shared s; rotationColorBlind := v; rotationDocument := rotationDocument s;
     rotationOnly := rotationOnly s; contrastLevel := contrastLevel s; brightnessLevel := brightnessLevel s;
     watermarkFile := watermarkFile s; watermarkPreview := watermarkPreview s; watermarkPoint := watermarkPoint s |}.

Definition set_rotationDocument (v : Q) (s : State) : State :=
  {| shared := shared s; rotationColorBlind := rotationColorBlind s; rotationDocument := v;
     rotationOnly := rotationOnly s; contrastLevel := contrastLevel s; brightnessLevel := brightnessLevel s;
     watermarkFile := watermarkFile s; watermarkPreview := watermarkPreview s; watermarkPoint := watermarkPoint s |}.

Definition set_rotationOnly (v : Q) (s : State) : State :=
  {| shared := shared s; rotationColorBlind := rotationColorBlind s; rotationDocument := rotationDocument s;
     rotationOnly := v; contrastLevel := contrastLevel s; brightnessLevel := brightnessLevel s;
     watermarkFile := watermarkFile s; watermarkPreview := watermarkPreview s; watermarkPoint := watermarkPoint s |}.

Definition set_contrastLevel (v : Q) (s : State) : State :=
  {| shared := shared s; rotationColorBlind := rotationColorBlind s; rotationDocument := rotationDocument s;
     rotationOnly := rotationOnly s; contrastLevel := v; brightnessLevel := brightnessLevel s;
     watermarkFile := watermarkFile s; watermarkPreview := watermarkPreview s; watermarkPoint := watermarkPoint s |}.

Definition set_brightnessLevel (v : Q) (s : State) : State :=
  {| shared := shared s; rotationColorBlind := rotationColorBlind s; rotationDocument := rotationDocument s;
     rotationOnly := rotationOnly s; contrastLevel := contrastLevel s; brightnessLevel := v;
     watermarkFile := watermarkFile s; watermarkPreview := watermarkPreview s; watermarkPoint := watermarkPoint s |}.

Definition set_watermarkFile (v : option File) (s : State) : State :=
  {| shared := shared s; rotationColorBlind := rotationColorBlind s; rotationDocument := rotationDocument s;
     rotationOnly := rotationOnly s; contrastLevel := contrastLevel s; brightnessLevel := brightnessLevel s;
     watermarkFile := v; watermarkPreview := watermarkPreview s; watermarkPoint := watermarkPoint s |}.

Definition set_watermarkPreview (v : string) (s : State) : State :=
  {| shared := shared s; rotationColorBlind := rotationColorBlind s; rotationDocument := rotationDocument s;
     rotationOnly := rotationOnly s; contrastLevel := contrastLevel s; brightnessLevel := brightnessLevel s;
     watermarkFile := watermarkFile s; watermarkPreview := v; watermarkPoint := watermarkPoint s |}.

Definition set_watermarkPoint (v : option Point) (s : State) : State :=
  {| shared := shared s; rotationColorBlind := rotationColorBlind s; rotationDocument := rotationDocument s;
     rotationOnly := rotationOnly s; contrastLevel := contrastLevel s; brightnessLevel := brightnessLevel s;
     watermarkFile := watermarkFile s; watermarkPreview := watermarkPreview s; watermarkPoint := v |}.

(** An assignment to one of the refs shared with [Workspace]. *)
Definition on_shared (f : Workspace.State → Workspace.State) (s : State) : State :=
  set_shared (f (shared s)) s.

Inductive Effect : Type :=
| of_workspace (e : Workspace.Effect)
| ElMessage_info (text : string)
| watermark_clearFiles
| watermark_handleStart (f : File).

(** A handler of [Workspace] run on the shared refs. *)
Definition lift (h : Workspace.State → Workspace.State * list Workspace.Effect) (s : State)
  : State * list Effect :=
  let '(b, fx) := h (shared s) in (set_shared b s, of_workspace <$> fx).

(** The computed refs. *)
Definition canAdjustContrast (s : State) : bool :=
  bool_decide (is_Some (Workspace.uploadFile (shared s))) && negb (Workspace.loading (shared s)).

Definition canAdjustBrightness (s : State) : bool :=
  bool_decide (is_Some (Workspace.uploadFile (shared s))) && negb (Workspace.loading (shared s)).

Definition canApplyWatermark (s : State) : bool :=
  bool_decide (is_Some (Workspace.uploadFile (shared s)))
  && bool_decide (is_Some (watermarkFile s))
  && bool_decide (is_Some (watermarkPoint s))
  && negb (Workspace.loading (shared s)).

Definition cleanupWatermarkPreview (s : State) : State * list Effect :=
  let fx := if String.prefix "blob:" (watermarkPreview s)
            then [of_workspace (Workspace.revokeObjectURL (watermarkPreview s))] else [] in
  (set_watermarkPreview EmptyString s, fx).

Definition assignFile (file : option File) (s : State) : State * list Effect :=
  let '(s, fx) := lift Workspace.cleanupPreview s in
  let s := on_shared (Workspace.set_uploadFile file) s in
  let s := on_shared (Workspace.set_processedPreview EmptyString) s in
  let s := on_shared (Workspace.set_saveOriginal false) s in
  let s := on_shared (Workspace.set_saveProcessed true) s in
  let s := set_rotationColorBlind 0 s in
  let s := set_rotationDocument 0 s in
  let s := set_rotationOnly 0 s in
  let s := set_contrastLevel 0 s in
  let s := set_brightnessLevel 0 s in
  let s := on_shared (Workspace.set_documentPoints []) s in
  let s := set_watermarkPoint None s in
  match file with
  | Some f => (on_shared (Workspace.set_originalPreview (Workspace.createObjectURL f)) s, fx)
  | None => (s, fx)
  end.

Definition handleFileChange (file : option Workspace.UploadFile) (s : State)
  : State * list Effect :=
  match file ≫= Workspace.raw with
  | None => assignFile None s
  | Some f => assignFile (Some f) s
  end.

Definition handleExceed (files : list File) (s : State) : State * list Effect :=
  match files with
  | [] => (s, [])
  | file :: _ =>
      let '(s, fx) := assignFile (Some file) s in
      (s, [of_workspace Workspace.clearFiles; of_workspace (Workspace.handleStart file)] ++ fx)
  end.

Definition handleRemove (s : State) : State * list Effect :=
  let '(s, fx) := assignFile None s in
  (s, fx ++ [of_workspace Workspace.clearFiles]).

Definition assignWatermarkFile (file : option File) (s : State) : State * list Effect :=
  let '(s, fx) := cleanupWatermarkPreview s in
  let s := set_watermarkFile file s in
  let s := set_watermarkPoint None s in
  match file with
  | Some f => (set_watermarkPreview (Workspace.createObjectURL f) s, fx)
  | None => (s, fx)
  end.

Definition handleWatermarkChange (file : option Workspace.UploadFile) (s : State)
  : State * list Effect :=
  match file ≫= Workspace.raw with
  | None => assignWatermarkFile None s
  | Some f => assignWatermarkFile (Some f) s
  end.

Definition handleWatermarkExceed (files : list File) (s : State) : State * list Effect :=
  match files with
  | [] => (s, [])
  | file :: _ =>
      let '(s, fx) := assignWatermarkFile (Some file) s in
      (s, [watermark_clearFiles; watermark_handleStart file] ++ fx)
  end.

Definition handleWatermarkRemove (s : State) : State * list Effect :=
  let '(s, fx) := assignWatermarkFile None s in
  (s, fx ++ [watermark_clearFiles]).

(** What a tool handler does once it has passed its guards: [loading] is
    set and the request is sent and awaited. *)
Definition sent (r : Request) (s : State) : State * list Effect * option Request :=
  (on_shared (Workspace.set_loading true) s, [of_workspace (Workspace.post r)], Some r).

Definition warned (text : string) (s : State) : State * list Effect * option Request :=
  (s, [of_workspace (Workspace.ElMessage_warning text)], None).

(** What the four new tool handlers do from the moment the promise
    settles; they differ in the three messages only. *)
Definition settled (saved done failed : string)
  (outcome : Js.Settled ColorBlindResponse Http.AxiosError) (s : State)
  : State * list Effect :=
  match outcome with
  | Js.Fulfilled response =>
      let s := on_shared (Workspace.set_processedPreview (processedImage response)) s in
      (on_shared (Workspace.set_loading false) s,
       of_workspace <$> (Workspace.savedMessages response "原始图片已保存到图库" saved
                         ++ [Workspace.ElMessage_success done]))
  | Js.Rejected _ =>
      (on_shared (Workspace.set_loading false) s,
       [of_workspace Workspace.console_error;
        of_workspace (Workspace.ElMessage_error failed)])
  end.

(** [handleColorBlindTransform] up to its [await]; [userId] is
    [authStore.user?.id]. *)
Definition handleColorBlindTransform_call (userId : option string) (s : State)
  : State * list Effect * option Request :=
  match Workspace.uploadFile (shared s) with
  | None => warned "请先上传需要处理的图片" s
  | Some f =>
      sent (transformColorBlind
              {| cb_file := f; cb_mode := Workspace.selectedMode (shared s);
                 cb_saveOriginal := Some (Workspace.saveOriginal (shared s));
                 cb_saveProcessed := Some (Workspace.saveProcessed (shared s));
                 cb_userId := userId;
                 cb_rotation := Some (Js.Fin (rotationColorBlind s)) |}) s
  end.

Definition handleColorBlindTransform_resume
  (outcome : Js.Settled ColorBlindResponse Http.AxiosError) (s : State) : State * list Effect :=
  lift (Workspace.handleColorBlindTransform_resume outcome) s.

Definition handleDocumentScan_call (userId : option string) (s : State)
  : State * list Effect * option Request :=
  match Workspace.uploadFile (shared s) with
  | None => warned "请先上传需要处理的图片" s
  | Some f =>
      if negb (bool_decide (length (Workspace.documentPoints (shared s)) = 4%nat))
      then warned "请框选四个角点再进行扫描转换" s
      else
        sent (scanDocument
                {| ds_file := f; ds_points := Workspace.documentPoints (shared s);
                   ds_saveOriginal := Some (Workspace.saveOriginal (shared s));
                   ds_saveProcessed := Some (Workspace.saveProcessed (shared s));
                   ds_userId := userId;
                   ds_rotation := Some (Js.Fin (rotationDocument s)) |}) s
  end.

Definition handleDocumentScan_resume
  (outcome : Js.Settled ColorBlindResponse Http.AxiosError) (s : State) : State * list Effect :=
  lift (Workspace.handleDocumentScan_resume outcome) s.

Definition handleImageRotate_call (userId : option string) (s : State)
  : State * list Effect * option Request :=
  match Workspace.uploadFile (shared s) with
  | None => warned "请先上传需要旋转的图片" s
  | Some f =>
      sent (rotateImage
              {| rt_file := f; rt_rotation := Js.Fin (rotationOnly s);
                 rt_saveOriginal := Some (Workspace.saveOriginal (shared s));
                 rt_saveProcessed := Some (Workspace.saveProcessed (shared s));
                 rt_userId := userId |}) s
  end.

Definition handleImageRotate_resume :=
  settled "旋转后的图片已保存到图库" "图片旋转完成" "旋转失败，请稍后再试".

Definition handleContrastAdjust_call (userId : option string) (s : State)
  : State * list Effect * option Request :=
  match Workspace.uploadFile (shared s) with
  | None => warned "请先上传需要调整的图片" s
  | Some f =>
      sent (adjustContrast
              {| ct_file := f; ct_contrast := Js.div (contrastLevel s) 100;
                 ct_saveOriginal := Some (Workspace.saveOriginal (shared s));
                 ct_saveProcessed := Some (Workspace.saveProcessed (shared s));
                 ct_userId := userId |}) s
  end.

Definition handleContrastAdjust_resume :=
  settled "对比度处理结果已保存到图库" "对比度调节完成" "对比度调节失败，请稍后重试".

Definition handleBrightnessAdjust_call (userId : option string) (s : State)
  : State * list Effect * option Request :=
  match Workspace.uploadFile (shared s) with
  | None => warned "请先上传需要处理的图片" s
  | Some f =>
      sent (adjustBrightness
              {| br_file := f; br_brightness := Js.Fin (brightnessLevel s);
                 br_saveOriginal := Some (Workspace.saveOriginal (shared s));
                 br_saveProcessed := Some (Workspace.saveProcessed (shared s));
                 br_userId := userId |}) s
  end.

Definition handleBrightnessAdjust_resume :=
  settled "亮度处理结果已保存到图库" "亮度调节完成" "亮度调节失败，请稍后重试".

Definition handleWatermarkApply_call (userId : option string) (s : State)
  : State * list Effect * option Request :=
  match Workspace.uploadFile (shared s) with
  | None => warned "请先上传需要添加水印的原图" s
  | Some f =>
      match watermarkFile s with
      | None => warned "请上传水印图片" s
      | Some w =>
          match watermarkPoint s with
          | None => warned "请在原图上点击选择水印落点" s
          | Some position =>
              sent (applyWatermark
                      {| wm_file := f; wm_watermark := w; wm_position := position;
                         wm_saveOriginal := Some (Workspace.saveOriginal (shared s));
                         wm_saveProcessed := Some (Workspace.saveProcessed (shared s));
                         wm_userId := userId |}) s
          end
      end
  end.

Definition handleWatermarkApply_resume :=
  settled "水印图片已保存到图库" "水印添加完成" "水印处理失败，请稍后重试".

Definition handleToggleGallery (original : bool) (value : bool) : list Effect :=
  let label := if original then "原始图片" else "处理后图像" in
  let action := if value then "将在转换后保存到图库" else "将在转换后不保存" in
  [ElMessage_info (String.append label action)].

(** The watcher on [activeFeature]; it runs when the value has changed.
    Its first two steps are those of the watcher of [Workspace]. *)
Definition watch_activeFeature (val : string) (s : State) : State :=
  let s := on_shared (Workspace.watch_activeFeature val) s in
  let s := if negb (String.eqb val "rotate") then set_rotationOnly 0 s else s in
  let s := if negb (String.eqb val "contrast") then set_contrastLevel 0 s else s in
  let s := if negb (String.eqb val "brightness") then set_brightnessLevel 0 s else s in
  let s := if negb (String.eqb val "watermark") then set_watermarkPoint None s else s in
  let s := if negb (String.eqb val "color-blind") then set_rotationColorBlind 0 s else s in
  if negb (String.eqb val "document-scan") then set_rotationDocument 0 s else s.

Definition handleFeatureSelect (k : string) (s : State) : State :=
  match List.find (λ tab, String.eqb (Workspace.key tab) k) featureTabs with
  | None => s
  | Some target =>
      if Workspace.disabled target then s
      else if String.eqb (Workspace.activeFeature (shared s)) k then s
      else watch_activeFeature k (on_shared (Workspace.set_activeFeature k) s)
  end.

Definition handleTopMenuSelect (k : string) (s : State) : State * list Effect :=
  let s := on_shared (Workspace.set_topNavActive k) s in
  if String.eqb k "home" then (s, [of_workspace (Workspace.router_push "home")])
  else if String.eqb k "gallery" then (s, [of_workspace (Workspace.router_push "gallery")])
  else if String.eqb k "profile" then (s, [of_workspace (Workspace.router_push "profile")])
  else if String.prefix "workspace-" k
       then (handleFeatureSelect (String.substring 10 (String.length k - 10) k) s, [])
       else (s, []).

(** [rect] is [getWatermarkRect()], undefined while the image is not
    mounted. *)
Definition handleWatermarkClick (event : Workspace.PointerEvent)
  (rect : option Workspace.DOMRect) (s : State) : State :=
  if String.eqb (Workspace.originalPreview (shared s)) EmptyString then s
  else
    match rect with
    | None => s
    | Some rect =>
        let px := Js.div (Workspace.clientX event - Workspace.rect_left rect)
                    (Workspace.rect_width rect) in
        let py := Js.div (Workspace.clientY event - Workspace.rect_top rect)
                    (Workspace.rect_height rect) in
        if Workspace.outsideImage px py then s
        else set_watermarkPoint (Some {| x := px; y := py |}) s
    end.

Definition resetWatermarkPoint (s : State) : State := set_watermarkPoint None s.

(** The six tools, named after their tabs. *)
Inductive Tool : Type := ColorBlind | DocumentScan | Watermark | Brightness | Contrast | Rotate.

Definition tool_key (tool : Tool) : string :=
  match tool with
  | ColorBlind => "color-blind"
  | DocumentScan => "document-scan"
  | Watermark => "watermark"
  | Brightness => "brightness"
  | Contrast => "contrast"
  | Rotate => "rotate"
  end.

(** The handler behind the primary button of a tool, up to its [await]. *)
Definition handle_call (tool : Tool) (userId : option string) (s : State)
  : State * list Effect * option Request :=
  match tool with
  | ColorBlind => handleColorBlindTransform_call userId s
  | DocumentScan => handleDocumentScan_call userId s
  | Watermark => handleWatermarkApply_call userId s
  | Brightness => handleBrightnessAdjust_call userId s
  | Contrast => handleContrastAdjust_call userId s
  | Rotate => handleImageRotate_call userId s
  end.

(** The same handler from the moment its promise settles. *)
Definition handle_resume (tool : Tool)
  (outcome : Js.Settled ColorBlindResponse Http.AxiosError) (s : State) : State * list Effect :=
  match tool with
  | ColorBlind => handleColorBlindTransform_resume outcome s
  | DocumentScan => handleDocumentScan_resume outcome s
  | Watermark => handleWatermarkApply_resume outcome s
  | Brightness => handleBrightnessAdjust_resume outcome s
  | Contrast => handleContrastAdjust_resume outcome s
  | Rotate => handleImageRotate_resume outcome s
  end.

(** Everything that can happen to the component. *)
Inductive Event : Type :=
| FileChange (file : option Workspace.UploadFile)
| Exceed (files : list File)
| Remove
| WatermarkChange (file : option Workspace.UploadFile)
| WatermarkExceed (files : list File)
| WatermarkRemove
| Click (tool : Tool)
| Settled (tool : Tool) (outcome : Js.Settled ColorBlindResponse Http.AxiosError)
| TopMenuSelect (k : string)
| ScanAreaClick (event : Workspace.PointerEvent) (rect : option Workspace.DOMRect)
| PointDragStart (index : nat) (event : Workspace.PointerEvent)
    (rect : option Workspace.DOMRect)
| PointDragMove (event : Workspace.PointerEvent) (rect : option Workspace.DOMRect)
| PointDragStop
| UndoPoint
| ResetPoints
| WatermarkClick (event : Workspace.PointerEvent) (rect : option Workspace.DOMRect)
| ResetWatermarkPoint
| SwitchSaveOriginal (v : bool)
| SwitchSaveProcessed (v : bool)
| SelectMode (m : ColorBlindMode)
| SlideBrightness (v : Q)
| SlideContrast (v : Q)
| SlideRotation (v : Q).

(** One turn of the event loop. *)
Definition step (userId : option string) (e : Event) (s : State) : State :=
  match e with
  | FileChange file => (handleFileChange file s).1
  | Exceed files => (handleExceed files s).1
  | Remove => (handleRemove s).1
  | WatermarkChange file => (handleWatermarkChange file s).1
  | WatermarkExceed files => (handleWatermarkExceed files s).1
  | WatermarkRemove => (handleWatermarkRemove s).1
  | Click tool => (handle_call tool userId s).1.1
  | Settled tool outcome => (handle_resume tool outcome s).1
  | TopMenuSelect k => (handleTopMenuSelect k s).1
  | ScanAreaClick event rect => on_shared (Workspace.handleScanAreaClick event rect) s
  | PointDragStart index event rect => (lift (Workspace.startPointDrag index event rect) s).1
  | PointDragMove event rect => on_shared (Workspace.handlePointDragMove event rect) s
  | PointDragStop => (lift Workspace.stopPointDrag s).1
  | UndoPoint => on_shared Workspace.undoDocumentPoint s
  | ResetPoints => on_shared Workspace.resetDocumentPoints s
  | WatermarkClick event rect => handleWatermarkClick event rect s
  | ResetWatermarkPoint => resetWatermarkPoint s
  | SwitchSaveOriginal v => on_shared (Workspace.set_saveOriginal v) s
  | SwitchSaveProcessed v => on_shared (Workspace.set_saveProcessed v) s
  | SelectMode m => on_shared (Workspace.set_selectedMode m) s
  | SlideBrightness v => set_brightnessLevel v s
  | SlideContrast v => set_contrastLevel v s
  | SlideRotation v => set_rotationOnly v s
  end.

Definition run (userId : option string) (events : list Event) (s : State) : State :=
  foldl (λ s e, step userId e s) s events.

(** What the template lets through: a slider and the image of the
    watermark tool exist only in the panel of the active tab, and a slider
    emits values between its [min] and [max]. *)
Definition rendered (s : State) (e : Event) : Prop :=
  match e with
  | SlideBrightness v =>
      Workspace.activeFeature (shared s) = "brightness" ∧ (-100 <= v)%Q ∧ (v <= 100)%Q
  | SlideContrast v =>
      Workspace.activeFeature (shared s) = "contrast" ∧ (-100 <= v)%Q ∧ (v <= 100)%Q
  | SlideRotation v =>
      Workspace.activeFeature (shared s) = "rotate" ∧ (-180 <= v)%Q ∧ (v <= 180)%Q
  | WatermarkClick _ _ => Workspace.activeFeature (shared s) = "watermark"
  | _ => True
  end.

Fixpoint rendered_run (userId : option string) (events : list Event) (s : State) : Prop :=
  match events with
  | [] => True
  | e :: events => rendered s e ∧ rendered_run userId events (step userId e s)
  end.

(** The value of a slider is zero unless its tool is the active one, and
    within the bound of the slider. *)
Definition slider_ok (s : State) (tool : Tool) (bound : Q) (v : Q) : Prop :=
  (Workspace.activeFeature (shared s) ≠ tool_key tool → v = 0%Q)
  ∧ (- bound <= v)%Q ∧ (v <= bound)%Q.

Definition parameters_ok (s : State) : Prop :=
  rotationColorBlind s = 0%Q
  ∧ rotationDocument s = 0%Q
  ∧ slider_ok s Rotate 180 (rotationOnly s)
  ∧ slider_ok s Contrast 100 (contrastLevel s)
  ∧ slider_ok s Brightness 100 (brightnessLevel s).

(** A drop point exists only in the watermark tab and only on an uploaded
    image. *)
Definition watermarkPoint_ok (s : State) : Prop :=
  Workspace.preview_tracks_upload (shared s)
  ∧ (is_Some (watermarkPoint s) →
     Workspace.activeFeature (shared s) = "watermark"
     ∧ is_Some (Workspace.uploadFile (shared s))).

End Studio.


(** ** The image pipeline (back end)

    The FastAPI service that implements the pipeline is not among the
    sources; every definition of [Pipeline], [Geometry] and [Dispatcher] is
    modelled from the specification of the pipeline. *)

Module Pipeline.

Local Open Scope Z_scope.

(** Modelled from the spec: the error taxonomy of the pipeline (section 7). *)
Inductive Error : Type :=
| UnsupportedFormat
| CorruptImage
| InvalidGeometry
| SingularTransform
| InvalidParameters
| OutOfBounds.

(** Modelled from the spec: a call returns its result or a typed failure. *)
Inductive Result (A : Type) : Type :=
| Ok (a : A)
| Err (e : Error).
Arguments Ok {A} a.
Arguments Err {A} e.

(** Modelled from the spec: the RasterImage of the data model (section 3),
    a decoded pixel buffer.  [pixels] lists the rows from top to bottom, a
    row lists its pixels from left to right, a pixel lists its channel
    values (R, G, B and, with four channels, alpha). *)
Record RasterImage : Type := {
  width : nat;
  height : nat;
  channels : nat;
  pixels : list (list (list Z))
}.

(** Modelled from the spec: a pixel has [n] channels of eight bits. *)
Definition well_formed_pixel (n : nat) (px : list Z) : Prop :=
  length px = n ∧ Forall (λ v, 0 ≤ v ≤ 255) px.

(** Modelled from the spec: a row has [w] such pixels. *)
Definition well_formed_row (w n : nat) (row : list (list Z)) : Prop :=
  length row = w ∧ Forall (well_formed_pixel n) row.

(** Modelled from the spec: the invariant of a RasterImage, positive size, three or four channels
    of eight bits, and a buffer of exactly that shape. *)
Definition well_formed (img : RasterImage) : Prop :=
  (0 < width img)%nat ∧ (0 < height img)%nat
  ∧ (channels img = 3%nat ∨ channels img = 4%nat)
  ∧ length (pixels img) = height img
  ∧ Forall (well_formed_row (width img) (channels img)) (pixels img).

(** Modelled from the spec: the pixel at column [col] of row [row]. *)
Definition pixelAt (img : RasterImage) (col row : nat) : option (list Z) :=
  pixels img !! row ≫= λ line, line !! col.

(** Modelled from the spec: [clamp(v, lo, hi)]. *)
Definition clamp (lo hi v : Z) : Z := Z.max lo (Z.min hi v).

(** Modelled from the spec: apply [f] to the colour channels of a pixel
    and keep alpha. *)
Definition mapColor (f : Z → Z) (px : list Z) : list Z :=
  imap (λ c v, if decide (c < 3)%nat then f v else v) px.

(** Modelled from the spec: a per-pixel transform returns a new buffer of
    the same shape. *)
Definition mapPixels (f : list Z → list Z) (img : RasterImage) : RasterImage :=
  {| width := width img; height := height img; channels := channels img;
     pixels := map (map f) (pixels img) |}.

(** *** Colour transform engine *)

(** Modelled from the spec: the supported range of the brightness offset. *)
Definition BRIGHTNESS_MIN : Z := -100.
Definition BRIGHTNESS_MAX : Z := 100.

(** Modelled from the spec: the back end's brightness transform is not
    among the sources.  [output = clamp(input + offset, 0, 255)] per colour
    channel, alpha unchanged; an offset outside the supported range
    -100..100 is clamped at the boundary. *)
Definition adjustBrightness (image : RasterImage) (offset : Z) : RasterImage :=
  let offset := clamp BRIGHTNESS_MIN BRIGHTNESS_MAX offset in
  mapPixels (mapColor (λ v, clamp 0 255 (v + offset))) image.

(** Modelled from the spec: a channel value is an integer; round to the
    nearest one, halves upwards. *)
Definition round (q : Q) : Z := Qfloor (q + (1 # 2))%Q.

(** Modelled from the spec: the contrast factor is clamped to -1..1. *)
Definition clampFactor (factor : Q) : Q :=
  if Js.Qltb factor (-1)%Q then (-1)%Q
  else if Js.Qltb 1%Q factor then 1%Q else factor.

(** Modelled from the spec: the back end's contrast transform is not among
    the sources.  [output = clamp(128 + (input - 128) * (1 + factor), 0, 255)]
    per colour channel, alpha unchanged; the factor is clamped to -1..1 and
    the product is rounded to the nearest channel value. *)
Definition adjustContrast (image : RasterImage) (factor : Q) : RasterImage :=
  let factor := clampFactor factor in
  mapPixels
    (mapColor (λ v, clamp 0 255 (round (128 + (inject_Z v - 128) * (1 + factor))%Q)))
    image.

(** *** Compositing engine *)

(** Modelled from the spec: the OverlayRequest of the data model, with a
    normalized anchor. *)
Record OverlayRequest : Type := {
  base : RasterImage;
  overlay : RasterImage;
  anchor : Q * Q
}.

(** Modelled from the spec: a normalized coordinate pair resolved to the
    pixel of the image that contains it. *)
Definition resolveAnchor (img : RasterImage) (a : Q * Q) : Z * Z :=
  (Qfloor (a.1 * inject_Z (Z.of_nat (width img)))%Q,
   Qfloor (a.2 * inject_Z (Z.of_nat (height img)))%Q).

(** Modelled from the spec: the anchor resolves inside
    [0,width) x [0,height). *)
Definition anchorInBounds (img : RasterImage) (a : Q * Q) : bool :=
  let '(ax, ay) := resolveAnchor img a in
  (0 <=? ax) && (ax <? Z.of_nat (width img))
  && (0 <=? ay) && (ay <? Z.of_nat (height img)).

(** Modelled from the spec: an overlay without an alpha channel is opaque. *)
Definition alphaOf (px : list Z) : Z := default 255 (px !! 3%nat).

(** Modelled from the spec: alpha blending of one channel, rounded to the
    nearest value. *)
Definition blendChannel (alpha under over : Z) : Z :=
  (over * alpha + under * (255 - alpha) + 127) / 255.

(** Modelled from the spec: [over] blended on [under] with the alpha of
    [over]; the alpha of the base pixel is kept. *)
Definition blend (under over : list Z) : list Z :=
  imap (λ c v, if decide (c < 3)%nat
               then blendChannel (alphaOf over) v (default v (over !! c))
               else v) under.

(** Modelled from the spec: the overlay pixel that lands on column [col],
    row [row] of the base when the overlay's top-left corner sits at
    [(ax, ay)]. *)
Definition overlayAt (over : RasterImage) (ax ay col row : nat) : option (list Z) :=
  if decide (ax ≤ col ∧ ay ≤ row)%nat then pixelAt over (col - ax) (row - ay) else None.

(** Modelled from the spec: a base pixel after compositing. *)
Definition composePixel (over : RasterImage) (ax ay col row : nat) (under : list Z) : list Z :=
  match overlayAt over ax ay col row with
  | Some px => blend under px
  | None => under
  end.

(** Modelled from the spec: the back end's watermark compositing is not
    among the sources.  The normalized anchor is resolved on the base image,
    the overlay's top-left corner is placed there, overlay pixels are
    alpha-blended over the base, what falls outside the base canvas is
    dropped, and the call fails with [OutOfBounds] when the anchor resolves
    outside the base image. *)
Definition compositeOverlay (req : OverlayRequest) : Result RasterImage :=
  if anchorInBounds (base req) (anchor req) then
    let '(ax, ay) := resolveAnchor (base req) (anchor req) in
    let ax := Z.to_nat ax in
    let ay := Z.to_nat ay in
    Ok {| width := width (base req); height := height (base req);
          channels := channels (base req);
          pixels := imap (λ row line,
                            imap (λ col under, composePixel (overlay req) ax ay col row under) line)
                         (pixels (base req)) |}
  else Err OutOfBounds.

End Pipeline.


(** *** Geometry utilities *)

Module Geometry.
Import Pipeline.

Local Open Scope Z_scope.

(** Modelled from the spec: a Point2D in absolute pixel coordinates
    (normalized points are resolved against the image before any geometric
    use). *)
Record Point2D : Type := { px : Z; py : Z }.

#[global] Instance Point2D_eq_dec : EqDecision Point2D.
Proof. solve_decision. Defined.

(** Modelled from the spec: the four corners in their fixed order. *)
Record OrderedQuad : Type := {
  topLeft : Point2D;
  topRight : Point2D;
  bottomRight : Point2D;
  bottomLeft : Point2D
}.

(** Modelled from the spec: the two keys of the ordering rule, x+y and y-x. *)
Definition coordSum (p : Point2D) : Z := px p + py p.
Definition coordDiff (p : Point2D) : Z := py p - px p.

(** Modelled from the spec: [p] comes before [q] by x+y; the tie-break
    orders equal sums by y-x. *)
Definition sumBefore (p q : Point2D) : bool :=
  (coordSum p <? coordSum q) || ((coordSum p =? coordSum q) && (coordDiff p <? coordDiff q)).

(** Modelled from the spec: [p] comes before [q] by y-x; the tie-break
    orders equal differences by x+y. *)
Definition diffBefore (p q : Point2D) : bool :=
  (coordDiff p <? coordDiff q) || ((coordDiff p =? coordDiff q) && (coordSum p <? coordSum q)).

(** Modelled from the spec: the point of [best :: rest] that has the
    minimum in the order [before], found by a scan from the left. *)
Fixpoint pick (before : Point2D → Point2D → bool) (best : Point2D) (rest : list Point2D)
  : Point2D :=
  match rest with
  | [] => best
  | p :: rest => pick before (if before p best then p else best) rest
  end.

(** What makes the picked point independent of the input order: [before]
    is a strict total order. *)
Record StrictTotal (before : Point2D → Point2D → bool) : Prop := {
  st_irrefl : ∀ p, before p p = false;
  st_trans : ∀ p q r, before p q = true → before q r = true → before p r = true;
  st_total : ∀ p q, p ≠ q → before p q = true ∨ before q p = true
}.

(** Modelled from the spec: twice the signed area of the triangle [o],
    [a], [b]. *)
Definition cross (o a b : Point2D) : Z :=
  (px a - px o) * (py b - py o) - (py a - py o) * (px b - px o).

(** Modelled from the spec: the points are collinear, all on one line. *)
Definition collinear (ps : list Point2D) : bool :=
  forallb (λ o, forallb (λ a, forallb (λ b, cross o a b =? 0) ps) ps) ps.

(** Modelled from the spec: points coincide, two of them are the same. *)
Definition coincide (ps : list Point2D) : bool := negb (bool_decide (NoDup ps)).


(** Modelled from the spec: the back end's corner ordering is not among
    the sources.  Top-left has the minimum x+y, bottom-right the maximum
    x+y; of the remaining two the one with the smaller y-x is top-right and
    the other is bottom-left.  The spec asks for explicit tie-break rules
    without naming them: here equal x+y is decided by y-x and equal y-x by
    x+y, so that the choice depends on the points and not on their
    position in the input.  The call fails with [InvalidGeometry] when two
    points coincide or all four are collinear. *)
Definition orderQuadCorners (p0 p1 p2 p3 : Point2D) : Result OrderedQuad :=
  let ps := [p0; p1; p2; p3] in
  if coincide ps || collinear ps then Err InvalidGeometry
  else
    let tl := pick sumBefore p0 [p1; p2; p3] in
    let br := pick (flip sumBefore) p0 [p1; p2; p3] in
    match filter (λ p, p ≠ tl ∧ p ≠ br) ps with
    | a :: others =>
        Ok {| topLeft := tl;
              topRight := pick diffBefore a others;
              bottomRight := br;
              bottomLeft := pick (flip diffBefore) a others |}
    | [] => Err InvalidGeometry
    end.

(** Modelled from the spec: the same rule read as a left-to-right scan
    that keeps the first point on equal keys (no tie-break beyond the
    position in the input); kept for comparison with [orderQuadCorners]. *)
Definition orderQuadCornersScan (p0 p1 p2 p3 : Point2D) : Result OrderedQuad :=
  let ps := [p0; p1; p2; p3] in
  if coincide ps || collinear ps then Err InvalidGeometry
  else
    let tl := pick (λ p q, coordSum p <? coordSum q) p0 [p1; p2; p3] in
    let br := pick (λ p q, coordSum q <? coordSum p) p0 [p1; p2; p3] in
    match filter (λ p, p ≠ tl ∧ p ≠ br) ps with
    | [a; b] =>
        if coordDiff b <? coordDiff a
        then Ok {| topLeft := tl; topRight := b; bottomRight := br; bottomLeft := a |}
        else Ok {| topLeft := tl; topRight := a; bottomRight := br; bottomLeft := b |}
    | _ => Err InvalidGeometry
    end.

End Geometry.

(** *** Pipeline dispatcher *)

Module Dispatcher.
Import Pipeline Geometry.

(** Modelled from the spec: the ColorMode of the data model. *)
Inductive ColorMode : Type := RedGreenDeficiency | BlueGreenDeficiency.

(** Modelled from the spec: the operation selector with the parameters of
    each variant. *)
Inductive Operation : Type :=
| ColorBlind (mode : ColorMode)
| DocumentScan (points : list Point2D)
| Rotate (angleDegrees : Q)
| Brightness (offset : Z)
| Contrast (factor : Q)
| Watermark (over : RasterImage) (anchor : Q * Q).

Section WithEngines.

(** The engines whose arithmetic (channel matrices, homographies,
    trigonometry) is outside this development. *)
Variable simulateColorDeficiency : RasterImage → ColorMode → RasterImage.
Variable rectify : RasterImage → OrderedQuad → Result RasterImage.
Variable rotate : RasterImage → Q → RasterImage.

(** Modelled from the spec: the back end's dispatcher is not among the
    sources.  A pure routing function over the operation variants;
    every variant checks its own parameters and fails with
    [InvalidParameters] otherwise: a document scan requires exactly four
    points. *)
Definition dispatch (operation : Operation) (image : RasterImage) : Result RasterImage :=
  match operation with
  | ColorBlind mode => Ok (simulateColorDeficiency image mode)
  | DocumentScan [p0; p1; p2; p3] =>
      match orderQuadCorners p0 p1 p2 p3 with
      | Ok quad => rectify image quad
      | Err e => Err e
      end
  | DocumentScan _ => Err InvalidParameters
  | Rotate angle => Ok (rotate image angle)
  | Brightness offset => Ok (adjustBrightness image offset)
  | Contrast factor => Ok (adjustContrast image factor)
  | Watermark over a => compositeOverlay {| base := image; overlay := over; anchor := a |}
  end.

End WithEngines.

End Dispatcher.


(** ** api/gallery.ts and the gallery view *)

Module Gallery.

Record GalleryRecord : Type := {
  id : string;
  user_id : string;
  file_url : string;
  file_name : option string;
  stored_at : string;
  filePreviewUrl : string
}.

Record GalleryListResponse : Type := {
  items : list GalleryRecord;
  total : Q;
  page : Q;
  page_size : Q;
  total_pages : Q
}.

Record GalleryQuery : Type := {
  q_userId : string;
  q_page : option Q;
  q_pageSize : option Q;
  q_startDate : option string;
  q_endDate : option string
}.

(** The query parameters of the list request; an absent parameter is not
    sent. *)
Record ListParams : Type := {
  param_page : option Q;
  param_page_size : option Q;
  param_start_date : option string;
  param_end_date : option string
}.

Inductive Request : Type :=
| Get (url : string) (params : ListParams)
| Delete (url : string) (user_id_param : option string).

(** [value || undefined] on an optional text. *)
Definition or_undefined (value : option string) : option string :=
  if Js.truthy value then value else None.

Definition fetchGallery (query : GalleryQuery) : Request :=
  Get (String.append "/dashboard/gallery/" (q_userId query))
      {| param_page := q_page query;
         param_page_size := q_pageSize query;
         param_start_date := or_undefined (q_startDate query);
         param_end_date := or_undefined (q_endDate query) |}.

Definition deleteGallery (itemId : string) (userId : option string) : Request :=
  Delete (String.append "/dashboard/gallery/" itemId) (or_undefined userId).

(** A [Date] of the date picker, given by the text of [toISOString()]. *)
Record Date : Type := { toISOString : string }.

(** The refs of the gallery view. *)
Record State : Type := {
  loading : bool;
  galleryItems : list GalleryRecord;
  currentPage : Q;
  pageSize : Q;
  totalItems : Q;
  dateRange : option (Date * Date)
}.

Definition initial : State :=
  {| loading := false; galleryItems := []; currentPage := 1; pageSize := 8;
     totalItems := 0; dateRange := None |}.

Inductive Effect : Type :=
| router_push (name : string)
| console_error
| send (r : Request)
| ElMessage_success (text : string).

(** [Math.ceil] *)
Definition Math_ceil (n : Js.number) : Js.number :=
  match n with
  | Js.Fin q => Js.Fin (inject_Z (Qceiling q))
  | other => other
  end.

(** [n || 0]: zero and [NaN] are falsy. *)
Definition or_zero (n : Js.number) : Js.number :=
  match n with
  | Js.Fin q => if Qeq_bool q 0 then Js.Fin 0 else n
  | Js.NaN => Js.Fin 0
  | other => other
  end.

Definition hasData (s : State) : bool := bool_decide (0 < length (galleryItems s))%nat.

Definition totalPages (s : State) : Js.number :=
  or_zero (Math_ceil (Js.div (totalItems s) (pageSize s))).

(** [value.toISOString().slice(0, 10)] *)
Definition formatDateParam (value : option Date) : option string :=
  match value with
  | Some d => Some (String.substring 0 10 (toISOString d))
  | None => None
  end.

Definition resolveDateParam (first : bool) (s : State) : option string :=
  formatDateParam (match dateRange s with
                   | Some (d0, d1) => Some (if first then d0 else d1)
                   | None => None
                   end).

Definition set_loading (v : bool) (s : State) : State :=
  {| loading := v; galleryItems := galleryItems s; currentPage := currentPage s;
     pageSize := pageSize s; totalItems := totalItems s; dateRange := dateRange s |}.

Definition set_page (v : Q) (s : State) : State :=
  {| loading := loading s; galleryItems := galleryItems s; currentPage := v;
     pageSize := pageSize s; totalItems := totalItems s; dateRange := dateRange s |}.

Definition set_pageSize (v : Q) (s : State) : State :=
  {| loading := loading s; galleryItems := galleryItems s; currentPage := currentPage s;
     pageSize := v; totalItems := totalItems s; dateRange := dateRange s |}.

Definition set_dateRange (v : option (Date * Date)) (s : State) : State :=
  {| loading := loading s; galleryItems := galleryItems s; currentPage := currentPage s;
     pageSize := pageSize s; totalItems := totalItems s; dateRange := v |}.

Definition set_list (rows : list GalleryRecord) (n : Q) (s : State) : State :=
  {| loading := loading s; galleryItems := rows; currentPage := currentPage s;
     pageSize := pageSize s; totalItems := n; dateRange := dateRange s |}.

(** [loadGallery] up to its [await]; [userId] is [authStore.user?.id]. *)
Definition loadGallery_call (userId : option string) (s : State)
  : State * list Effect * option Request :=
  if negb (Js.truthy userId) then (s, [router_push "login"], None)
  else
    let r := fetchGallery
               {| q_userId := default EmptyString userId;
                  q_page := Some (currentPage s);
                  q_pageSize := Some (pageSize s);
                  q_startDate := resolveDateParam true s;
                  q_endDate := resolveDateParam false s |} in
    (set_loading true s, [send r], Some r).

(** [loadGallery] from the moment the promise settles. *)
Definition loadGallery_resume
  (outcome : Js.Settled GalleryListResponse Http.AxiosError) (s : State)
  : State * list Effect :=
  match outcome with
  | Js.Fulfilled response =>
      (set_loading false (set_list (items response) (total response) s), [])
  | Js.Rejected _ => (set_loading false s, [console_error])
  end.

Definition handlePageChange (value : Q) (userId : option string) (s : State)
  : State * list Effect * option Request :=
  loadGallery_call userId (set_page value s).

Definition handleSizeChange (value : Q) (userId : option string) (s : State)
  : State * list Effect * option Request :=
  loadGallery_call userId (set_page 1 (set_pageSize value s)).

Definition handleDateChange (userId : option string) (s : State)
  : State * list Effect * option Request :=
  loadGallery_call userId (set_page 1 s).

Definition resetFilters (userId : option string) (s : State)
  : State * list Effect * option Request :=
  loadGallery_call userId (set_page 1 (set_dateRange None s)).

(** [handleDelete] up to the [await] of the confirmation box: the
    question that the box asks. *)
Definition handleDelete_call (item : GalleryRecord) : string :=
  String.append "确定删除图片「"
    (String.append (default EmptyString (Js.or_else (file_name item) (Some (id item))))
       "」吗？").

(** [handleDelete] from the answer of the box up to the [await] of the
    delete request; closing or cancelling the box rejects its promise. *)
Definition handleDelete_confirmed (confirmed : bool) (item : GalleryRecord)
  (userId : option string) (s : State) : State * list Effect * option Request :=
  if negb confirmed then (s, [], None)
  else
    let r := deleteGallery (id item) userId in
    (s, [send r], Some r).

(** [handleDelete] from the moment the delete request settles up to the
    [await] inside [loadGallery]; a rejection is not caught. *)
Definition handleDelete_deleted (outcome : Js.Settled unit Http.AxiosError)
  (userId : option string) (s : State) : State * list Effect * option Request :=
  match outcome with
  | Js.Fulfilled _ =>
      let '(s, fx, awaited) := loadGallery_call userId s in
      (s, ElMessage_success "删除成功" :: fx, awaited)
  | Js.Rejected _ => (s, [], None)
  end.

End Gallery.


(** ** The profile view and the register view *)

Module Profile.

(** [UserProfile]: [phone] is optional and may be [null]; both read as
    [None]. *)
Record UserProfile : Type := {
  id : string;
  name : string;
  email : string;
  phone : option string
}.

(** The reactive form of the profile view. *)
Record Form : Type := {
  form_id : string;
  form_email : string;
  form_name : string;
  form_phone : string;
  currentPassword : string;
  newPassword : string;
  confirmPassword : string
}.

(** [UpdateProfilePayload]: every field is optional; a present [phone] is a
    text or [null]. *)
Record UpdateProfilePayload : Type := {
  payload_name : option string;
  payload_phone : option (option string);
  payload_currentPassword : option string;
  payload_newPassword : option string
}.

Inductive Request : Type :=
| GetUser (userId : string)
| PatchUser (userId : string) (payload : UpdateProfilePayload).

Record State : Type := {
  form : Form;
  originalProfile : option UserProfile;
  loading : bool;
  saving : bool
}.

Definition initial : State :=
  {| form := {| form_id := EmptyString; form_email := EmptyString; form_name := EmptyString;
                form_phone := EmptyString; currentPassword := EmptyString;
                newPassword := EmptyString; confirmPassword := EmptyString |};
     originalProfile := None; loading := false; saving := false |}.

Inductive Effect : Type :=
| ElMessage_error (text : string)
| ElMessage_info (text : string)
| ElMessage_success (text : string)
| console_error
| router_push (name : string)
| authStore_updateProfile (profile : UserProfile)
| send (r : Request).

Definition isDigit (c : Ascii.ascii) : bool :=
  (48 <=? Ascii.nat_of_ascii c)%nat && (Ascii.nat_of_ascii c <=? 57)%nat.

(** The character class [[0-9+()\- ]]. *)
Definition phoneCharacter (c : Ascii.ascii) : bool :=
  isDigit c
  || Ascii.eqb c "+"%char || Ascii.eqb c "("%char || Ascii.eqb c ")"%char
  || Ascii.eqb c "-"%char || Ascii.eqb c " "%char.

(** [/^[0-9+()\- ]{6,20}$/.test(value)].  A text is its sequence of bytes;
    the pattern accepts ASCII characters only, so bytes and characters
    agree on every accepted text. *)
Definition phonePattern (value : string) : bool :=
  forallb phoneCharacter (String.list_ascii_of_string value)
  && (6 <=? String.length value)%nat && (String.length value <=? 20)%nat.

(** The validators of the rules; [true] stands for [callback()] without an
    error. *)
Definition phoneValidator (value : string) : bool :=
  if String.eqb value EmptyString then true else phonePattern value.

Definition currentPasswordValidator (f : Form) (value : string) : bool :=
  negb (negb (String.eqb (newPassword f) EmptyString) && String.eqb value EmptyString).

Definition confirmPasswordValidator (f : Form) (value : string) : bool :=
  negb (negb (String.eqb (newPassword f) EmptyString) && negb (String.eqb value (newPassword f))).

(** The pattern of the phone rule of the register view:
    [/^1[3-9]\d{9}$/]. *)
Definition registerPhonePattern (value : string) : bool :=
  match String.list_ascii_of_string value with
  | c1 :: c2 :: rest =>
      Ascii.eqb c1 "1"%char
      && ((51 <=? Ascii.nat_of_ascii c2)%nat && (Ascii.nat_of_ascii c2 <=? 57)%nat)
      && forallb isDigit rest && (length rest =? 9)%nat
  | _ => false
  end.

Definition set_form (f : Form) (s : State) : State :=
  {| form := f; originalProfile := originalProfile s; loading := loading s; saving := saving s |}.

Definition set_saving (v : bool) (s : State) : State :=
  {| form := form s; originalProfile := originalProfile s; loading := loading s; saving := v |}.

Definition set_loading (v : bool) (s : State) : State :=
  {| form := form s; originalProfile := originalProfile s; loading := v; saving := saving s |}.

Definition setProfile (profile : UserProfile) (s : State) : State * list Effect :=
  ({| form := {| form_id := id profile; form_email := email profile;
                 form_name := name profile; form_phone := default EmptyString (phone profile);
                 currentPassword := currentPassword (form s);
                 newPassword := newPassword (form s);
                 confirmPassword := confirmPassword (form s) |};
      originalProfile := Some profile; loading := loading s; saving := saving s |},
   [authStore_updateProfile profile]).

Definition resetPasswordFields (s : State) : State :=
  set_form {| form_id := form_id (form s); form_email := form_email (form s);
              form_name := form_name (form s); form_phone := form_phone (form s);
              currentPassword := EmptyString; newPassword := EmptyString;
              confirmPassword := EmptyString |} s.

Definition resetForm (s : State) : State :=
  match originalProfile s with
  | None => s
  | Some original =>
      resetPasswordFields
        (set_form {| form_id := form_id (form s); form_email := form_email (form s);
                     form_name := name original;
                     form_phone := default EmptyString (phone original);
                     currentPassword := currentPassword (form s);
                     newPassword := newPassword (form s);
                     confirmPassword := confirmPassword (form s) |} s)
  end.

(** [loadProfile] up to its [await]; [user] is the id of [authStore.user]. *)
Definition loadProfile_call (user : option string) (s : State)
  : State * list Effect * option Request :=
  match user with
  | None => (s, [router_push "login"], None)
  | Some userId => (set_loading true s, [send (GetUser userId)], Some (GetUser userId))
  end.

Definition loadProfile_resume (outcome : Js.Settled UserProfile Http.AxiosError) (s : State)
  : State * list Effect :=
  match outcome with
  | Js.Fulfilled profile =>
      let '(s, fx) := setProfile profile s in (set_loading false s, fx)
  | Js.Rejected _ =>
      (set_loading false s, [console_error; ElMessage_error "加载个人资料失败，请稍后再试"])
  end.

Definition nameChanged (s : State) (original : UserProfile) : bool :=
  negb (String.eqb (form_name (form s)) (name original)).

Definition phoneChanged (s : State) (original : UserProfile) : bool :=
  negb (String.eqb (form_phone (form s)) (default EmptyString (phone original))).

Definition passwordChanged (s : State) : bool :=
  negb (String.eqb (newPassword (form s)) EmptyString).

(** [handleSubmit] from the validation of the mounted form, whose verdict
    is [valid], up to the [await] of the request. *)
Definition handleSubmit_call (valid : bool) (s : State)
  : State * list Effect * option Request :=
  if negb valid then (s, [], None)
  else
    match originalProfile s with
    | None => (s, [ElMessage_error "未找到个人资料"], None)
    | Some original =>
        if negb (nameChanged s original) && negb (phoneChanged s original)
           && negb (passwordChanged s)
        then (s, [ElMessage_info "暂无变更需要保存"], None)
        else
          let profileChanged := nameChanged s original || phoneChanged s original in
          let payload :=
            {| payload_name := if profileChanged then Some (form_name (form s)) else None;
               payload_phone :=
                 if profileChanged
                 then Some (if String.eqb (form_phone (form s)) EmptyString
                            then None else Some (form_phone (form s)))
                 else None;
               payload_currentPassword :=
                 if passwordChanged s then Some (currentPassword (form s)) else None;
               payload_newPassword :=
                 if passwordChanged s then Some (newPassword (form s)) else None |} in
          let r := PatchUser (form_id (form s)) payload in
          (set_saving true s, [send r], Some r)
    end.

(** [handleSubmit] from the moment the request settles; a rejection is not
    caught, only [saving] is reset. *)
Definition handleSubmit_resume (outcome : Js.Settled UserProfile Http.AxiosError) (s : State)
  : State * list Effect :=
  match outcome with
  | Js.Fulfilled updated =>
      let '(s, fx) := setProfile updated s in
      (set_saving false (resetPasswordFields s), fx ++ [ElMessage_success "个人信息已更新"])
  | Js.Rejected _ => (set_saving false s, [])
  end.

End Profile.

(** ** router/index.ts *)

Module Router.

(** The named routes of the table. *)
Inductive RouteName : Type := login | register | home | workspace | gallery | profile.

#[global] Instance RouteName_eq_dec : EqDecision RouteName.
Proof. solve_decision. Defined.

(** [meta.requiresAuth] of a route; absent on [login] and [register]. *)
Definition requiresAuth (to : RouteName) : bool :=
  match to with
  | login | register => false
  | home | workspace | gallery | profile => true
  end.

(** What the guard passes to [next]. *)
Inductive Next : Type :=
| Proceed
| RedirectTo (to : RouteName).

(** The global guard [router.beforeEach]. *)
Definition beforeEach (to : RouteName) (localStorage : gmap string string) : Next :=
  let token := localStorage !! "access_token" in
  if requiresAuth to && negb (Js.truthy token) then RedirectTo login
  else if (bool_decide (to = login) || bool_decide (to = register)) && Js.truthy token
       then RedirectTo home
       else Proceed.

(** A navigation: the router runs the guard again on every redirect, and
    gives up after [fuel] of them. *)
Fixpoint navigate (fuel : nat) (to : RouteName) (localStorage : gmap string string)
  : option RouteName :=
  match beforeEach to localStorage with
  | Proceed => Some to
  | RedirectTo to' =>
      match fuel with
      | O => None
      | S fuel => navigate fuel to' localStorage
      end
  end.

End Router.

(** ** The login view, the register view and the home view *)

Module Login.

Record LoginForm : Type := { email : string; password : string }.

Record RegisterForm : Type := {
  reg_name : string;
  reg_email : string;
  reg_password : string;
  reg_confirmPassword : string;
  reg_phone : string
}.


(** The refs of the login view and of the register view. *)
Record State : Type := { loading : bool; loginForm : LoginForm }.

Record RegisterState : Type := { reg_loading : bool; registerForm : RegisterForm }.

Inductive Request : Type :=
| post_login (payload : LoginForm)
| post_register (payload : RegisterForm).

Inductive Effect : Type :=
| send (r : Request)
| ElMessage_success (text : string)
| router_push (name : Router.RouteName).



Definition handleRegister_call (s : RegisterState) : bool := negb (reg_loading s).

Definition handleRegister_validated (isValid : bool) (s : RegisterState)
  : RegisterState * list Effect * option Request :=
  if negb isValid then (s, [], None)
  else
    let r := post_register
               {| reg_name := reg_name (registerForm s);
                  reg_email := reg_email (registerForm s);
                  reg_password := reg_password (registerForm s);
                  reg_confirmPassword := reg_confirmPassword (registerForm s);
                  reg_phone := reg_phone (registerForm s) |} in
    ({| reg_loading := true; registerForm := registerForm s |}, [send r], Some r).

Section WithStringify.

Variable JSON_stringify : AuthStore.json → string.



End WithStringify.

(** [goBackToLogin] of the home view. *)
Definition goBackToLogin (st : AuthStore.AuthState) (localStorage : gmap string string)
  : AuthStore.AuthState * gmap string string * list Effect :=
  let '(st, localStorage) := AuthStore.logout st localStorage in
  (st, localStorage, [router_push Router.login]).

(** Where the pushes of a handler lead: the route the guard settles on for
    the last push, if there was one. *)
Definition lands_on (fx : list Effect) (localStorage : gmap string string)
  : option Router.RouteName :=
  last (omap (λ e, match e with router_push name => Some name | _ => None end) fx)
  ≫= λ to, Router.navigate 1 to localStorage.

End Login.


(** * Properties *)

(** ** The axios response interceptor *)

Lemma onResponseError_rejects (T : Type) (error : Http.AxiosError) (ls : gmap string string) :
  (Http.onResponseError (T:=T) error ls).2 = Js.Rejected error.
Proof. reflexivity. Qed.

Lemma onResponseError_storage (T : Type) (error : Http.AxiosError) (ls : gmap string string) :
  (Http.onResponseError (T:=T) error ls).1.1 =
  if decide (Http.status <$> Http.response error = Some 401%Z)
  then delete "user_profile" (delete "access_token" ls) else ls.
Proof. reflexivity. Qed.

(** C10: for every response error the interceptor re-rejects with the same
    error (it never turns the error into a success); when the status is 401
    both [access_token] and [user_profile] are gone from localStorage and
    every other key is kept; for every other status, and when there is no
    response at all, localStorage is left as it was. *)
Theorem C10_interceptor_rejects_and_clears_on_401 :
  ∀ (T : Type) (error : Http.AxiosError) (ls : gmap string string),
    let result := Http.onResponseError (T:=T) error ls in
    result.2 = Js.Rejected error
    ∧ (∀ data : T, result.2 ≠ Js.Fulfilled data)
    ∧ (Http.status <$> Http.response error = Some 401%Z →
       result.1.1 !! "access_token" = None
       ∧ result.1.1 !! "user_profile" = None
       ∧ ∀ k, k ≠ "access_token" → k ≠ "user_profile" → result.1.1 !! k = ls !! k)
    ∧ (Http.status <$> Http.response error ≠ Some 401%Z → result.1.1 = ls).
Proof.
  intros T error ls result. subst result.
  rewrite onResponseError_rejects, onResponseError_storage.
  split; [reflexivity|]. split; [intros data; discriminate|]. split.
  - intros H401. rewrite decide_True by assumption.
    split; [|split].
    + rewrite lookup_delete_ne by discriminate. apply lookup_delete_eq.
    + apply lookup_delete_eq.
    + intros k Hk1 Hk2. rewrite !lookup_delete_ne by congruence. reflexivity.
  - intros Hother. rewrite decide_False by assumption. reflexivity.
Qed.

(** C10 at an answer with status 401 and both keys stored. *)
Lemma C10_witness :
  (Http.onResponseError (T:=unit)
     {| Http.response := Some {| Http.status := 401; Http.data := None |};
        Http.error_message := "Request failed with status code 401" |}
     (<["access_token" := "t0"]> (<["user_profile" := "{}"]> ∅))).1.1 !! "access_token" = None.
Proof.
  pose proof (C10_interceptor_rejects_and_clears_on_401 unit
    {| Http.response := Some {| Http.status := 401; Http.data := None |};
       Http.error_message := "Request failed with status code 401" |}
    (<["access_token" := "t0"]> (<["user_profile" := "{}"]> ∅))) as H.
  destruct H as (_ & _ & H401 & _).
  apply H401. reflexivity.
Defined.

(** ** The auth store *)

Lemma readUserFromStorage_returns (parse : string → Js.Completion AuthStore.json)
  (ls : gmap string string) :
  ∃ v, AuthStore.readUserFromStorage parse ls = Js.Normal v.
Proof.
  unfold AuthStore.readUserFromStorage.
  destruct (ls !! AuthStore.USER_KEY) as [text|] eqn:Hstored; simpl.
  - destruct (negb (text =? EmptyString)%string); simpl; [|eauto].
    destruct (parse text); simpl; eauto.
  - eauto.
Qed.

(** C9: whatever localStorage holds and whatever JSON.parse does with it,
    [readUserFromStorage] returns a value and never throws; it returns
    [null] for a missing key and for a stored text that JSON.parse rejects;
    so the state initialiser of the auth store returns as well. *)
Theorem C9_readUserFromStorage_total :
  ∀ (parse : string → Js.Completion AuthStore.json) (ls : gmap string string),
    (∃ v, AuthStore.readUserFromStorage parse ls = Js.Normal v)
    ∧ (ls !! AuthStore.USER_KEY = None →
       AuthStore.readUserFromStorage parse ls = Js.Normal AuthStore.JNull)
    ∧ (∀ text what, ls !! AuthStore.USER_KEY = Some text → parse text = Js.Throw what →
       AuthStore.readUserFromStorage parse ls = Js.Normal AuthStore.JNull)
    ∧ (∃ st, AuthStore.initialState parse ls = Js.Normal st).
Proof.
  intros parse ls. split; [apply readUserFromStorage_returns|]. split; [|split].
  - intros Hmissing. unfold AuthStore.readUserFromStorage. rewrite Hmissing. reflexivity.
  - intros text what Hstored Hthrow. unfold AuthStore.readUserFromStorage.
    rewrite Hstored. simpl. destruct (negb (text =? EmptyString)%string); simpl; [|reflexivity].
    rewrite Hthrow. reflexivity.
  - unfold AuthStore.initialState.
    destruct (readUserFromStorage_returns parse ls) as [v ->]. eauto.
Qed.

(** C9 at a stored text that is not JSON. *)
Lemma C9_witness :
  AuthStore.readUserFromStorage AuthStore.parseLiteral (<["user_profile" := "{not json"]> ∅)
  = Js.Normal AuthStore.JNull.
Proof.
  pose proof (C9_readUserFromStorage_total AuthStore.parseLiteral
                (<["user_profile" := "{not json"]> ∅)) as H.
  destruct H as (_ & _ & Hbad & _).
  apply (Hbad "{not json" "SyntaxError"); reflexivity.
Defined.

(** ** The workspace: assigning a file *)

Section WorkspaceFacts.
Import Vision Workspace.

Implicit Types (s : State) (userId : option string).






(** ** The workspace: a failed transform *)

Lemma scan_resume_rejected (error : Http.AxiosError) s :
  (handleDocumentScan_resume (Js.Rejected error) s).1 = set_loading false s.
Proof. reflexivity. Qed.

Lemma colorblind_resume_rejected (error : Http.AxiosError) s :
  (handleColorBlindTransform_resume (Js.Rejected error) s).1 = set_loading false s.
Proof. reflexivity. Qed.

Lemma set_loading_same s : set_loading (loading s) s = s.
Proof. destruct s; reflexivity. Qed.

Lemma scan_call_state userId s :
  (handleDocumentScan_call userId s).1.1 = s
  ∨ (handleDocumentScan_call userId s).1.1 = set_loading true s.
Proof.
  unfold handleDocumentScan_call.
  destruct (uploadFile s); [|left; reflexivity].
  destruct (negb _); [left|right]; reflexivity.
Qed.

Lemma scan_run_rejected userId (backend : Request → Js.Settled ColorBlindResponse Http.AxiosError) s :
  (∀ r, ∃ error, backend r = Js.Rejected error) →
  (handleDocumentScan userId backend s).1 = s
  ∨ (handleDocumentScan userId backend s).1 = set_loading false s.
Proof.
  intros Hfail. unfold handleDocumentScan, handleDocumentScan_call.
  destruct (uploadFile s); [|left; reflexivity].
  destruct (negb _); [left; reflexivity|].
  match goal with |- context [backend ?r] => destruct (Hfail r) as [error ->] end.
  right. destruct s; reflexivity.
Qed.

Lemma colorblind_run_rejected userId
  (backend : Request → Js.Settled ColorBlindResponse Http.AxiosError) s :
  (∀ r, ∃ error, backend r = Js.Rejected error) →
  (handleColorBlindTransform userId backend s).1 = s
  ∨ (handleColorBlindTransform userId backend s).1 = set_loading false s.
Proof.
  intros Hfail. unfold handleColorBlindTransform, handleColorBlindTransform_call.
  destruct (uploadFile s); [|left; reflexivity].
  match goal with |- context [backend ?r] => destruct (Hfail r) as [error ->] end.
  right. destruct s; reflexivity.
Qed.

(** C5: when the request of a transform is rejected, the handler changes
    nothing but [loading]: [processedPreview] and [documentPoints] are as
    before the call, and with [loading] false before the call (the buttons
    are disabled otherwise) the whole state is as before; this holds for a
    resumption in any state the component has reached by then; and the two
    refs change at a resumption only if the promise was fulfilled. *)
Theorem C5_rejected_transform_changes_nothing :
  ∀ userId (backend : Request → Js.Settled ColorBlindResponse Http.AxiosError) s,
    (∀ r, ∃ error, backend r = Js.Rejected error) →
    let scanned := (handleDocumentScan userId backend s).1 in
    let transformed := (handleColorBlindTransform userId backend s).1 in
    (processedPreview scanned = processedPreview s
     ∧ documentPoints scanned = documentPoints s
     ∧ uploadFile scanned = uploadFile s
     ∧ (loading s = false → scanned = s))
    ∧ (processedPreview transformed = processedPreview s
       ∧ documentPoints transformed = documentPoints s
       ∧ uploadFile transformed = uploadFile s
       ∧ (loading s = false → transformed = s))
    ∧ (∀ error s',
         (handleDocumentScan_resume (Js.Rejected error) s').1 = set_loading false s'
         ∧ (handleColorBlindTransform_resume (Js.Rejected error) s').1 = set_loading false s')
    ∧ (∀ outcome s',
         processedPreview (handleDocumentScan_resume outcome s').1 ≠ processedPreview s'
         ∨ documentPoints (handleDocumentScan_resume outcome s').1 ≠ documentPoints s'
         ∨ processedPreview (handleColorBlindTransform_resume outcome s').1 ≠ processedPreview s'
         ∨ documentPoints (handleColorBlindTransform_resume outcome s').1 ≠ documentPoints s' →
         ∃ response, outcome = Js.Fulfilled response).
Proof.
  intros userId backend s Hfail scanned transformed.
  split; [|split; [|split]].
  - subst scanned.
    destruct (scan_run_rejected userId backend s Hfail) as [-> | ->].
    + repeat split.
    + repeat split. intros Hidle. rewrite <- Hidle. apply set_loading_same.
  - subst transformed.
    destruct (colorblind_run_rejected userId backend s Hfail) as [-> | ->].
    + repeat split.
    + repeat split. intros Hidle. rewrite <- Hidle. apply set_loading_same.
  - intros error s'. split; reflexivity.
  - intros [response | error] s' Hchanged; [eauto|].
    exfalso. simpl in Hchanged. tauto.
Qed.

(** C5 at a scan of four points whose request fails on the network. *)
Lemma C5_witness :
  (handleDocumentScan None
     (λ _, Js.Rejected {| Http.response := None; Http.error_message := "Network Error" |})
     (set_documentPoints
        (replicate 4 (Some {| x := Js.Fin (1 # 2); y := Js.Fin (1 # 2) |}))
        (assignFile (Some {| file_name := "a.png" |}) initial).1)).1
  = set_documentPoints
      (replicate 4 (Some {| x := Js.Fin (1 # 2); y := Js.Fin (1 # 2) |}))
      (assignFile (Some {| file_name := "a.png" |}) initial).1.
Proof.
  refine (proj2 (proj2 (proj2 (proj1
    (C5_rejected_transform_changes_nothing None
       (λ _, Js.Rejected {| Http.response := None; Http.error_message := "Network Error" |})
       (set_documentPoints
          (replicate 4 (Some {| x := Js.Fin (1 # 2); y := Js.Fin (1 # 2) |}))
          (assignFile (Some {| file_name := "a.png" |}) initial).1)
       _)))) _).
  - intros r. eexists. reflexivity.
  - reflexivity.
Defined.

(** ** The workspace: the four corner points *)

Lemma appendOption_keeps {A} (k : string) (wrap : A → FormValue) (v : option A)
  (form : list (string * FormValue)) (entry : string * FormValue) :
  entry ∈ form → entry ∈ appendOption k wrap v form.
Proof.
  intros Hin. unfold appendOption. destruct v; [|assumption].
  apply elem_of_app. left. assumption.
Qed.

Lemma appendUserId_keeps (userId : option string)
  (form : list (string * FormValue)) (entry : string * FormValue) :
  entry ∈ form → entry ∈ appendUserId userId form.
Proof.
  intros Hin. unfold appendUserId.
  destruct (Js.truthy userId); [apply appendOption_keeps|]; assumption.
Qed.

Lemma scanDocument_points (payload : DocumentScanPayload) :
  ("points", JsonPoints (ds_points payload)) ∈ formData (scanDocument payload).
Proof.
  unfold scanDocument. simpl.
  apply appendOption_keeps, appendUserId_keeps, appendOption_keeps, appendOption_keeps.
  apply list_elem_of_further, list_elem_of_here.
Qed.

Lemma scan_call_sends userId s (r : Request) :
  (handleDocumentScan_call userId s).2 = Some r ∨ post r ∈ (handleDocumentScan_call userId s).1.2 →
  length (documentPoints s) = 4%nat
  ∧ ∃ f, uploadFile s = Some f
         ∧ r = scanDocument {| ds_file := f; ds_points := documentPoints s;
                               ds_saveOriginal := Some (saveOriginal s);
                               ds_saveProcessed := Some (saveProcessed s);
                               ds_userId := userId; ds_rotation := None |}.
Proof.
  unfold handleDocumentScan_call.
  destruct (uploadFile s) as [f|].
  - destruct (bool_decide (length (documentPoints s) = 4%nat)) eqn:Hlen; simpl.
    + apply bool_decide_eq_true in Hlen.
      intros [Hr | Hr]; (split; [assumption|]); exists f; (split; [reflexivity|]).
      * congruence.
      * apply list_elem_of_singleton in Hr. congruence.
    + intros [Hr | Hr]; [discriminate|].
      apply list_elem_of_singleton in Hr. discriminate.
  - simpl. intros [Hr | Hr]; [discriminate|].
    apply list_elem_of_singleton in Hr. discriminate.
Qed.

Lemma scan_call_refuses userId s :
  length (documentPoints s) ≠ 4%nat →
  (handleDocumentScan_call userId s).2 = None
  ∧ (handleDocumentScan_call userId s).1.1 = s
  ∧ ∀ r, post r ∉ (handleDocumentScan_call userId s).1.2.
Proof.
  intros Hlen. unfold handleDocumentScan_call.
  destruct (uploadFile s) as [f|]; simpl.
  - rewrite bool_decide_eq_false_2 by assumption. simpl.
    repeat split. intros r Hr. apply list_elem_of_singleton in Hr. discriminate.
  - repeat split. intros r Hr. apply list_elem_of_singleton in Hr. discriminate.
Qed.

Lemma dispatch_scan_point_count
  (simulate : Pipeline.RasterImage → Dispatcher.ColorMode → Pipeline.RasterImage)
  (rectify : Pipeline.RasterImage → Geometry.OrderedQuad → Pipeline.Result Pipeline.RasterImage)
  (rotate : Pipeline.RasterImage → Q → Pipeline.RasterImage)
  (points : list Geometry.Point2D) (image : Pipeline.RasterImage) :
  length points ≠ 4%nat →
  Dispatcher.dispatch simulate rectify rotate (Dispatcher.DocumentScan points) image
  = Pipeline.Err Pipeline.InvalidParameters.
Proof.
  intros Hlen.
  destruct points as [|p0 [|p1 [|p2 [|p3 [|p4 rest]]]]]; try reflexivity.
  exfalso. apply Hlen. reflexivity.
Qed.

(** C3: a document scan takes exactly four points.  In the workspace,
    with a point list whose length is not 4 [handleDocumentScan] sends no
    request, awaits nothing and leaves the refs alone, and the scan button
    is disabled; whenever it does send a request, the list has length 4 and
    the request carries exactly that list.  In the pipeline, the dispatcher
    rejects a document scan with any other number of points with
    [InvalidParameters]. *)
Theorem C3_document_scan_requires_four_points :
  ∀ userId s,
    (length (documentPoints s) ≠ 4%nat →
       (handleDocumentScan_call userId s).2 = None
       ∧ (handleDocumentScan_call userId s).1.1 = s
       ∧ (∀ r, post r ∉ (handleDocumentScan_call userId s).1.2)
       ∧ (∀ backend, (handleDocumentScan userId backend s).1 = s)
       ∧ canDocumentScan s = false)
    ∧ (∀ r, (handleDocumentScan_call userId s).2 = Some r
            ∨ post r ∈ (handleDocumentScan_call userId s).1.2 →
            length (documentPoints s) = 4%nat
            ∧ ("points", JsonPoints (documentPoints s)) ∈ formData r)
    ∧ (∀ simulate rectify rotate points image,
         length points ≠ 4%nat →
         Dispatcher.dispatch simulate rectify rotate (Dispatcher.DocumentScan points) image
         = Pipeline.Err Pipeline.InvalidParameters).
Proof.
  intros userId s. split; [|split].
  - intros Hlen.
    destruct (scan_call_refuses userId s Hlen) as (Hnone & Hsame & Hpost).
    repeat split; try assumption.
    + intros backend. unfold handleDocumentScan.
      destruct (handleDocumentScan_call userId s) as [[s1 fx] awaited].
      simpl in Hnone, Hsame. subst. reflexivity.
    + unfold canDocumentScan.
      rewrite (bool_decide_eq_false_2 _ Hlen).
      rewrite andb_false_r. reflexivity.
  - intros r Hsent.
    destruct (scan_call_sends userId s r Hsent) as (Hlen & f & _ & ->).
    split; [assumption|].
    apply (scanDocument_points
             {| ds_file := f; ds_points := documentPoints s;
                ds_saveOriginal := Some (saveOriginal s);
                ds_saveProcessed := Some (saveProcessed s);
                ds_userId := userId; ds_rotation := None |}).
  - apply dispatch_scan_point_count.
Qed.

(** C3 at a list of three points. *)
Lemma C3_witness :
  (handleDocumentScan_call None
     (set_documentPoints
        (replicate 3 (Some {| x := Js.Fin (1 # 2); y := Js.Fin (1 # 2) |}))
        (assignFile (Some {| file_name := "a.png" |}) initial).1)).2 = None.
Proof.
  refine (proj1 (proj1
    (C3_document_scan_requires_four_points None
       (set_documentPoints
          (replicate 3 (Some {| x := Js.Fin (1 # 2); y := Js.Fin (1 # 2) |}))
          (assignFile (Some {| file_name := "a.png" |}) initial).1)) _)).
  simpl. lia.
Defined.

Lemma Qltb_false (a b : Q) : Js.Qltb a b = false → (b <= a)%Q.
Proof.
  unfold Js.Qltb. intros H. apply negb_false_iff in H. apply Qle_bool_iff. exact H.
Qed.

Lemma div_by_positive (a b : Q) : (0 < b)%Q → Js.div a b = Js.Fin (a / b).
Proof.
  intros Hpos. unfold Js.div.
  destruct (Qeq_bool b 0) eqn:Hzero; [|reflexivity].
  apply Qeq_bool_iff in Hzero. rewrite Hzero in Hpos.
  exfalso. exact (Qlt_irrefl 0 Hpos).
Qed.

Lemma inside_is_normalized (p q : Q) :
  outsideImage (Js.Fin p) (Js.Fin q) = false →
  normalized {| x := Js.Fin p; y := Js.Fin q |}.
Proof.
  unfold outsideImage, Js.gt. simpl. intros H.
  apply orb_false_elim in H as [H Hy1].
  apply orb_false_elim in H as [H Hy0].
  apply orb_false_elim in H as [Hx0 Hx1].
  repeat split; simpl; apply Qltb_false; assumption.
Qed.

Lemma array_set_normalized (points : list (option Point)) (i : nat) (p : Point) :
  points_normalized points → normalized p → points_normalized (Js.array_set points i p).
Proof.
  unfold points_normalized, Js.array_set. intros Hall Hp.
  destruct (decide (i < length points)%nat).
  - apply Forall_insert; assumption.
  - apply Forall_app. split; [assumption|].
    apply Forall_app. split.
    + apply Forall_replicate. exact I.
    + apply Forall_singleton. exact Hp.
Qed.

Lemma array_pop_normalized (points : list (option Point)) :
  points_normalized points → points_normalized (Js.array_pop points).
Proof.
  unfold points_normalized, Js.array_pop. intros Hall.
  rewrite removelast_firstn_len. apply Forall_take. exact Hall.
Qed.

Lemma click_keeps_normalized (event : PointerEvent) (rect : option DOMRect) s :
  rect_nonempty rect →
  points_normalized (documentPoints s) →
  points_normalized (documentPoints (handleScanAreaClick event rect s)).
Proof.
  intros Hrect Hall. unfold handleScanAreaClick.
  destruct (_ || _); [assumption|].
  destruct rect as [rect|]; [|assumption].
  destruct Hrect as [Hw Hh].
  rewrite (div_by_positive _ _ Hw), (div_by_positive _ _ Hh).
  destruct (outsideImage _ _) eqn:Hguard; [assumption|].
  simpl. apply Forall_app. split; [assumption|].
  apply Forall_singleton. apply inside_is_normalized. exact Hguard.
Qed.

Lemma drag_keeps_normalized (event : PointerEvent) (rect : option DOMRect) s :
  rect_nonempty rect →
  points_normalized (documentPoints s) →
  points_normalized (documentPoints (handlePointDragMove event rect s)).
Proof.
  intros Hrect Hall. unfold handlePointDragMove.
  destruct (draggingPointIndex s) as [index|]; [|assumption].
  match goal with |- context [if ?c then s else _] => destruct c end; [assumption|].
  destruct rect as [rect|]; [|assumption].
  destruct Hrect as [Hw Hh].
  rewrite (div_by_positive _ _ Hw), (div_by_positive _ _ Hh).
  destruct (outsideImage _ _) eqn:Hguard; [assumption|].
  simpl. apply array_set_normalized; [assumption|].
  apply inside_is_normalized. exact Hguard.
Qed.

Lemma featureSelect_points (k : string) s :
  documentPoints (handleFeatureSelect k s) = documentPoints s
  ∨ documentPoints (handleFeatureSelect k s) = [].
Proof.
  unfold handleFeatureSelect.
  destruct (List.find _ featureTabs) as [target|]; [|left; reflexivity].
  destruct (disabled target); [left; reflexivity|].
  destruct (String.eqb (activeFeature s) k); [left; reflexivity|].
  unfold watch_activeFeature.
  destruct (negb _); [right|left]; reflexivity.
Qed.

(** Apart from a click or a drag on an empty image box, every turn of the
    event loop keeps the points normalized: adding by click, moving by
    drag, undo, reset, file assignment, tab changes and transforms. *)
Lemma step_keeps_normalized userId (e : Event) s :
  event_rect_nonempty e →
  points_normalized (documentPoints s) →
  points_normalized (documentPoints (step userId e s)).
Proof.
  intros Hrect Hall.
  assert (Hnil : points_normalized []) by constructor.
  destruct e; simpl in Hrect |- *.
  - destruct file as [[[f|]]|]; exact Hnil.
  - destruct files; [exact Hall | exact Hnil].
  - exact Hnil.
  - unfold handleColorBlindTransform_call. destruct (uploadFile s); exact Hall.
  - destruct outcome; exact Hall.
  - destruct (scan_call_state userId s) as [-> | ->]; exact Hall.
  - destruct outcome; [exact Hnil | exact Hall].
  - unfold handleTopMenuSelect.
    destruct (String.eqb k "home"); [exact Hall|].
    destruct (String.eqb k "gallery"); [exact Hall|].
    destruct (String.prefix "workspace-" k); [|exact Hall].
    simpl.
    match goal with |- context [handleFeatureSelect ?k' ?s'] =>
      destruct (featureSelect_points k' s') as [-> | ->] end; [exact Hall | exact Hnil].
  - apply click_keeps_normalized; assumption.
  - destruct rect; exact Hall.
  - apply drag_keeps_normalized; assumption.
  - exact Hall.
  - apply array_pop_normalized. exact Hall.
  - exact Hnil.
  - exact Hall.
  - exact Hall.
  - exact Hall.
Qed.

(** C4: the guard [x < 0 || x > 1 || y < 0 || y > 1] lets [NaN] through.
    An image that is not rendered reports the all-zero box, and a click
    that is dispatched without coordinates carries [clientX = clientY = 0]:
    the handler computes [x = 0 / 0 = NaN] and [y = 0 / 0 = NaN]; no
    comparison with [NaN] is true, so the point is stored, and the stored
    point is not a coordinate of [0,1].  The drag handler has the same
    guard and stores the same point over the dragged one. *)
Theorem C4_click_on_empty_box_stores_NaN :
  let s0 := (assignFile (Some {| file_name := "a.png" |}) initial).1 in
  let event := {| clientX := 0; clientY := 0; pointerId := 1 |} in
  let rect := {| rect_left := 0; rect_top := 0; rect_width := 0; rect_height := 0 |} in
  let clicked := handleScanAreaClick event (Some rect) s0 in
  let dragged :=
    handlePointDragMove event (Some rect)
      (startPointDrag 0 event (Some rect)
         (set_documentPoints [Some {| x := Js.Fin 0; y := Js.Fin 0 |}] s0)).1 in
  points_normalized (documentPoints s0)
  ∧ documentPoints clicked = [Some {| x := Js.NaN; y := Js.NaN |}]
  ∧ ¬ points_normalized (documentPoints clicked)
  ∧ clicked = run None [ScanAreaClick event (Some rect)] s0
  ∧ documentPoints dragged = [Some {| x := Js.NaN; y := Js.NaN |}]
  ∧ ¬ points_normalized (documentPoints dragged).
Proof.
  intros s0 event rect clicked dragged.
  assert (Hbad : ¬ points_normalized [Some {| x := Js.NaN; y := Js.NaN |}]).
  { intros Hall. apply Forall_cons in Hall as [[Hx _] _]. exact Hx. }
  assert (Hclicked : documentPoints clicked = [Some {| x := Js.NaN; y := Js.NaN |}])
    by (vm_compute; reflexivity).
  assert (Hdragged : documentPoints dragged = [Some {| x := Js.NaN; y := Js.NaN |}])
    by (vm_compute; reflexivity).
  split; [constructor|].
  split; [exact Hclicked|].
  split; [rewrite Hclicked; exact Hbad|].
  split; [reflexivity|].
  split; [exact Hdragged|].
  rewrite Hdragged. exact Hbad.
Qed.

(** A dragged index can outlive the points: a scan that succeeds while the
    fourth point is being dragged empties the array, and the next drag move
    writes at index 3 of the empty array, which leaves three slots without
    a point in front of the moved one. *)
Remark drag_after_successful_scan_leaves_holes :
  let event := {| clientX := 50; clientY := 50; pointerId := 1 |} in
  let rect := {| rect_left := 0; rect_top := 0; rect_width := 100; rect_height := 100 |} in
  let s0 := set_documentPoints
              (replicate 4 (Some {| x := Js.Fin (1 # 2); y := Js.Fin (1 # 2) |}))
              (assignFile (Some {| file_name := "a.png" |}) initial).1 in
  documentPoints
    (run None
       [DocumentScanClick;
        PointDragStart 3 event (Some rect);
        DocumentScanSettled
          (Js.Fulfilled {| processedImage := "/media/processed/a.png";
                           savedOriginal := None; savedProcessed := None |});
        PointDragMove event (Some rect)] s0)
  = [None; None; None; Some {| x := Js.div (50 - 0) 100; y := Js.div (50 - 0) 100 |}].
Proof. vm_compute. reflexivity. Qed.

End WorkspaceFacts.

(** ** The colour transform engine *)

Section ColourFacts.
Import Pipeline.

Local Open Scope Z_scope.

Lemma clamp_inside (lo hi v : Z) : lo ≤ v ≤ hi → clamp lo hi v = v.
Proof. unfold clamp. lia. Qed.





Lemma map_fixed {A} (f : A → A) (l : list A) :
  Forall (λ a, f a = a) l → map f l = l.
Proof. induction 1 as [|a l Ha _ IH]; simpl; [reflexivity|]. rewrite Ha, IH. reflexivity. Qed.

Lemma mapColor_fixed (f : Z → Z) (px : list Z) :
  Forall (λ v, f v = v) px → mapColor f px = px.
Proof.
  intros Hfix. unfold mapColor.
  rewrite (imap_ext _ (const id)).
  - rewrite imap_const. apply list_fmap_id.
  - intros c v Hv. unfold const, id.
    destruct (decide (c < 3)%nat); [|reflexivity].
    rewrite Forall_forall in Hfix. apply Hfix.
    apply list_elem_of_lookup. eauto.
Qed.

Lemma mapPixels_fixed (f : list Z → list Z) (img : RasterImage) :
  Forall (Forall (λ px, f px = px)) (pixels img) → mapPixels f img = img.
Proof.
  intros Hfix. destruct img as [w h n rows]. unfold mapPixels. simpl in *. f_equal.
  apply map_fixed. eapply Forall_impl; [exact Hfix|].
  intros row Hrow. apply map_fixed. exact Hrow.
Qed.

(** On a well-formed image a channel function that fixes 0..255 changes nothing. *)
Lemma mapPixels_mapColor_fixed (f : Z → Z) (img : RasterImage) :
  well_formed img → (∀ v, 0 ≤ v ≤ 255 → f v = v) →
  mapPixels (mapColor f) img = img.
Proof.
  intros (_ & _ & _ & _ & Hrows) Hf. apply mapPixels_fixed.
  eapply Forall_impl; [exact Hrows|].
  intros row [_ Hrow]. eapply Forall_impl; [exact Hrow|].
  intros px [_ Hpx]. apply mapColor_fixed.
  eapply Forall_impl; [exact Hpx|]. exact Hf.
Qed.

Lemma round_integer (v : Z) (q : Q) : (q == inject_Z v)%Q → round q = v.
Proof.
  intros Hq. unfold round.
  assert (Heq : (q + (1 # 2) == inject_Z v + (1 # 2))%Q) by (rewrite Hq; reflexivity).
  rewrite (Qfloor_comp _ _ Heq).
  pose proof (Qfloor_le (inject_Z v + (1 # 2))) as Hle.
  pose proof (Qlt_floor (inject_Z v + (1 # 2))) as Hlt.
  set (k := Qfloor (inject_Z v + (1 # 2))) in *.
  unfold Qle, Qlt, Qplus, inject_Z in Hle, Hlt. simpl in Hle, Hlt. lia.
Qed.

Lemma clampFactor_zero (factor : Q) : (factor == 0)%Q → (clampFactor factor == 0)%Q.
Proof.
  intros Hzero. unfold clampFactor, Js.Qltb.
  destruct (Qle_bool (-1) factor) eqn:Hlow; simpl.
  - destruct (Qle_bool factor 1) eqn:Hhigh; simpl; [exact Hzero|].
    exfalso. apply not_true_iff_false in Hhigh. apply Hhigh.
    apply Qle_bool_iff. rewrite Hzero. discriminate.
  - exfalso. apply not_true_iff_false in Hlow. apply Hlow.
    apply Qle_bool_iff. rewrite Hzero. discriminate.
Qed.

Lemma brightness_zero_identity (image : RasterImage) :
  well_formed image → adjustBrightness image 0 = image.
Proof.
  intros Hwf. unfold adjustBrightness.
  apply mapPixels_mapColor_fixed; [exact Hwf|].
  intros v Hv. change (clamp BRIGHTNESS_MIN BRIGHTNESS_MAX 0) with 0.
  rewrite Z.add_0_r. apply clamp_inside. exact Hv.
Qed.

Lemma contrast_zero_identity (image : RasterImage) (factor : Q) :
  well_formed image → (factor == 0)%Q → adjustContrast image factor = image.
Proof.
  intros Hwf Hzero. unfold adjustContrast.
  apply mapPixels_mapColor_fixed; [exact Hwf|].
  intros v Hv. rewrite (round_integer v).
  - apply clamp_inside. exact Hv.
  - rewrite (clampFactor_zero factor Hzero). ring.
Qed.

(** C2: on every well-formed image, brightness with offset 0 and contrast
    with factor 0 return the image itself, so every output pixel equals the
    input pixel at the same place. *)
Theorem C2_zero_adjustments_are_identity :
  ∀ image : RasterImage,
    well_formed image →
    adjustBrightness image 0 = image
    ∧ adjustContrast image 0 = image
    ∧ (∀ col row, pixelAt (adjustBrightness image 0) col row = pixelAt image col row)
    ∧ (∀ col row, pixelAt (adjustContrast image 0) col row = pixelAt image col row).
Proof.
  intros image Hwf.
  assert (Hb := brightness_zero_identity image Hwf).
  assert (Hc := contrast_zero_identity image 0 Hwf (Qeq_refl 0)).
  rewrite Hb, Hc. repeat split.
Qed.

(** C2 at a 2 x 1 RGBA image. *)
Lemma C2_witness :
  adjustBrightness
    {| width := 2; height := 1; channels := 4;
       pixels := [[[10; 20; 30; 255]; [0; 128; 255; 0]]] |} 0
  = {| width := 2; height := 1; channels := 4;
       pixels := [[[10; 20; 30; 255]; [0; 128; 255; 0]]] |}.
Proof.
  refine (proj1 (C2_zero_adjustments_are_identity
    {| width := 2; height := 1; channels := 4;
       pixels := [[[10; 20; 30; 255]; [0; 128; 255; 0]]] |} _)).
  unfold well_formed, well_formed_row, well_formed_pixel. simpl.
  repeat split; try lia; repeat constructor; try lia.
Defined.








End ColourFacts.

(** ** The compositing engine *)

Section CompositingFacts.
Import Pipeline.

Local Open Scope Z_scope.

Lemma anchorInBounds_spec (img : RasterImage) (a : Q * Q) :
  anchorInBounds img a = true
  ↔ 0 ≤ (resolveAnchor img a).1 < Z.of_nat (width img)
    ∧ 0 ≤ (resolveAnchor img a).2 < Z.of_nat (height img).
Proof.
  unfold anchorInBounds. destruct (resolveAnchor img a) as [ax ay]. simpl.
  rewrite !andb_true_iff, !Z.leb_le, !Z.ltb_lt. tauto.
Qed.

Lemma compositeOverlay_inside (req : OverlayRequest) :
  anchorInBounds (base req) (anchor req) = true →
  compositeOverlay req
  = Ok {| width := width (base req); height := height (base req);
          channels := channels (base req);
          pixels :=
            imap (λ row line,
                    imap (λ col under,
                            composePixel (overlay req)
                              (Z.to_nat (resolveAnchor (base req) (anchor req)).1)
                              (Z.to_nat (resolveAnchor (base req) (anchor req)).2)
                              col row under) line)
                 (pixels (base req)) |}.
Proof.
  intros Hin. unfold compositeOverlay. rewrite Hin.
  destruct (resolveAnchor (base req) (anchor req)) as [ax ay]. reflexivity.
Qed.

Lemma compositeOverlay_outside (req : OverlayRequest) :
  anchorInBounds (base req) (anchor req) = false →
  compositeOverlay req = Err OutOfBounds.
Proof. intros Hout. unfold compositeOverlay. rewrite Hout. reflexivity. Qed.

(** A pixel of the composite is the pixel of the base at the same place,
    blended with the overlay pixel that lands there, if one does. *)
Lemma pixelAt_composite (img over : RasterImage) (ax ay : nat) (w h n : nat) (col row : nat) :
  pixelAt {| width := w; height := h; channels := n;
             pixels := imap (λ row line,
                               imap (λ col under, composePixel over ax ay col row under) line)
                            (pixels img) |} col row
  = composePixel over ax ay col row <$> pixelAt img col row.
Proof.
  unfold pixelAt. simpl. rewrite list_lookup_imap.
  destruct (pixels img !! row) as [line|]; simpl; [|reflexivity].
  rewrite list_lookup_imap. reflexivity.
Qed.

(** C6: the watermark operation fails exactly when the resolved anchor is
    outside [0,width) x [0,height) of the base image, and then with
    [OutOfBounds]; with the anchor inside it returns an image of the base
    image's size in which every pixel is the base pixel at that place,
    blended with the overlay pixel that lands on it when there is one and
    unchanged otherwise: overlay pixels that would fall outside the base
    canvas are dropped and never reappear elsewhere. *)
Theorem C6_overlay_fails_iff_anchor_outside :
  ∀ req : OverlayRequest,
    let ax := (resolveAnchor (base req) (anchor req)).1 in
    let ay := (resolveAnchor (base req) (anchor req)).2 in
    (compositeOverlay req = Err OutOfBounds
     ↔ ¬ (0 ≤ ax < Z.of_nat (width (base req)) ∧ 0 ≤ ay < Z.of_nat (height (base req))))
    ∧ (∀ e, compositeOverlay req = Err e → e = OutOfBounds)
    ∧ (0 ≤ ax < Z.of_nat (width (base req)) ∧ 0 ≤ ay < Z.of_nat (height (base req)) →
       ∃ out,
         compositeOverlay req = Ok out
         ∧ width out = width (base req)
         ∧ height out = height (base req)
         ∧ channels out = channels (base req)
         ∧ length (pixels out) = length (pixels (base req))
         ∧ (∀ col row, pixelAt (base req) col row = None → pixelAt out col row = None)
         ∧ (∀ col row under,
              pixelAt (base req) col row = Some under →
              (col < Z.to_nat ax ∨ row < Z.to_nat ay
               ∨ pixelAt (overlay req) (col - Z.to_nat ax) (row - Z.to_nat ay) = None)%nat →
              pixelAt out col row = Some under)
         ∧ (∀ col row under over,
              pixelAt (base req) col row = Some under →
              (Z.to_nat ax ≤ col)%nat → (Z.to_nat ay ≤ row)%nat →
              pixelAt (overlay req) (col - Z.to_nat ax) (row - Z.to_nat ay) = Some over →
              pixelAt out col row = Some (blend under over))).
Proof.
  intros req ax ay. subst ax ay.
  rewrite <- anchorInBounds_spec.
  destruct (anchorInBounds (base req) (anchor req)) eqn:Hin.
  - rewrite (compositeOverlay_inside req Hin).
    split; [split; [discriminate | intros Hno; exfalso; apply Hno; reflexivity]|].
    split; [intros e; discriminate|].
    intros _. eexists. split; [reflexivity|]. simpl.
    split; [reflexivity|]. split; [reflexivity|]. split; [reflexivity|].
    split; [apply length_imap|].
    split; [|split].
    + intros col row Hnone. rewrite pixelAt_composite, Hnone. reflexivity.
    + intros col row under Hunder Hclear.
      rewrite pixelAt_composite, Hunder. simpl. f_equal.
      unfold composePixel, overlayAt.
      destruct (decide _) as [[Hc Hr]|]; [|reflexivity].
      destruct Hclear as [Hcol | [Hrow | ->]]; [lia | lia | reflexivity].
    + intros col row under over Hunder Hcol Hrow Hover.
      rewrite pixelAt_composite, Hunder. simpl. f_equal.
      unfold composePixel, overlayAt.
      rewrite decide_True by (split; assumption).
      rewrite Hover. reflexivity.
  - rewrite (compositeOverlay_outside req Hin).
    split; [split; [intros _; discriminate | reflexivity]|].
    split; [intros e He; congruence|].
    discriminate.
Qed.

(** C6 at a 2 x 2 base with a 2 x 1 overlay anchored at the last pixel:
    the second overlay pixel falls off the canvas. *)
Lemma C6_witness :
  ∃ out,
    compositeOverlay
      {| base := {| width := 2; height := 2; channels := 3;
                    pixels := [[[10; 10; 10]; [20; 20; 20]]; [[30; 30; 30]; [40; 40; 40]]] |};
         overlay := {| width := 2; height := 1; channels := 4;
                       pixels := [[[255; 0; 0; 255]; [0; 255; 0; 255]]] |};
         anchor := (1 # 2, 1 # 2)%Q |} = Ok out
    ∧ pixels out = [[[10; 10; 10]; [20; 20; 20]]; [[30; 30; 30]; [255; 0; 0]]].
Proof.
  destruct (proj2 (proj2 (C6_overlay_fails_iff_anchor_outside
    {| base := {| width := 2; height := 2; channels := 3;
                  pixels := [[[10; 10; 10]; [20; 20; 20]]; [[30; 30; 30]; [40; 40; 40]]] |};
       overlay := {| width := 2; height := 1; channels := 4;
                     pixels := [[[255; 0; 0; 255]; [0; 255; 0; 255]]] |};
       anchor := (1 # 2, 1 # 2)%Q |})) ltac:(vm_compute; intuition discriminate))
    as (out & Hout & _).
  exists out. split; [exact Hout|].
  vm_compute in Hout. injection Hout as <-. reflexivity.
Defined.

End CompositingFacts.

(** ** Corner ordering *)

Section PickFacts.
Import Geometry.

Lemma StrictTotal_flip (before : Point2D → Point2D → bool) :
  StrictTotal before → StrictTotal (flip before).
Proof.
  intros [Hirr Htrans Htotal]. split; unfold flip.
  - exact Hirr.
  - intros p q r Hpq Hqr. exact (Htrans r q p Hqr Hpq).
  - intros p q Hne. destruct (Htotal p q Hne); [right | left]; assumption.
Qed.

Variable before : Point2D → Point2D → bool.
Hypothesis before_order : StrictTotal before.

Lemma pick_elem (best : Point2D) (rest : list Point2D) :
  pick before best rest ∈ best :: rest.
Proof.
  revert best. induction rest as [|p rest IH]; intros best; simpl.
  - apply list_elem_of_here.
  - specialize (IH (if before p best then p else best)).
    apply elem_of_cons in IH as [-> | IH].
    + destruct (before p best).
      * apply list_elem_of_further, list_elem_of_here.
      * apply list_elem_of_here.
    + do 2 apply list_elem_of_further. exact IH.
Qed.

(** No point of the list comes before the picked one. *)
Lemma pick_least (best : Point2D) (rest : list Point2D) (q : Point2D) :
  q ∈ best :: rest → before q (pick before best rest) = false.
Proof.
  destruct before_order as [Hirr Htrans Htotal].
  revert best q. induction rest as [|p rest IH]; intros best q Hq; simpl.
  - apply list_elem_of_singleton in Hq as ->. apply Hirr.
  - set (best' := if before p best then p else best).
    assert (Hbest' : before best' (pick before best' rest) = false)
      by (apply IH, list_elem_of_here).
    assert (Hrest : ∀ r, r ∈ rest → before r (pick before best' rest) = false)
      by (intros r Hr; apply IH, list_elem_of_further, Hr).
    assert (Hboth : before best (pick before best' rest) = false
                    ∧ before p (pick before best' rest) = false).
    { subst best'. destruct (before p best) eqn:Hpb.
      - split; [|exact Hbest'].
        destruct (before best (pick before p rest)) eqn:Hbm; [|reflexivity].
        rewrite (Htrans _ _ _ Hpb Hbm) in Hbest'. discriminate.
      - split; [exact Hbest'|].
        destruct (before p (pick before best rest)) eqn:Hpm; [|reflexivity].
        destruct (decide (best = p)) as [->|Hne]; [congruence|].
        destruct (Htotal best p Hne) as [Hbp|Hbp]; [|congruence].
        rewrite (Htrans _ _ _ Hbp Hpm) in Hbest'. discriminate. }
    apply elem_of_cons in Hq as [-> | Hq]; [apply Hboth|].
    apply elem_of_cons in Hq as [-> | Hq]; [apply Hboth|].
    apply Hrest, Hq.
Qed.


End PickFacts.

Section GeometryFacts.
Import Pipeline Geometry.

Local Open Scope Z_scope.

Ltac order_cases :=
  repeat match goal with
         | |- context [(?a <? ?b)] => destruct (Z.ltb_spec a b)
         | |- context [(?a =? ?b)] => destruct (Z.eqb_spec a b)
         | H : context [(?a <? ?b)] |- _ => destruct (Z.ltb_spec a b)
         | H : context [(?a =? ?b)] |- _ => destruct (Z.eqb_spec a b)
         end; simpl in *.

Lemma sumBefore_order : StrictTotal sumBefore.
Proof.
  split.
  - intros [x y]. unfold sumBefore, coordSum, coordDiff; simpl.
    order_cases; try reflexivity; lia.
  - intros [x1 y1] [x2 y2] [x3 y3]. unfold sumBefore, coordSum, coordDiff; simpl.
    intros H12 H23. order_cases; try reflexivity; try discriminate; lia.
  - intros [x1 y1] [x2 y2] Hne. unfold sumBefore, coordSum, coordDiff; simpl.
    order_cases; auto; exfalso; apply Hne; f_equal; lia.
Qed.

Lemma diffBefore_order : StrictTotal diffBefore.
Proof.
  split.
  - intros [x y]. unfold diffBefore, coordSum, coordDiff; simpl.
    order_cases; try reflexivity; lia.
  - intros [x1 y1] [x2 y2] [x3 y3]. unfold diffBefore, coordSum, coordDiff; simpl.
    intros H12 H23. order_cases; try reflexivity; try discriminate; lia.
  - intros [x1 y1] [x2 y2] Hne. unfold diffBefore, coordSum, coordDiff; simpl.
    order_cases; auto; exfalso; apply Hne; f_equal; lia.
Qed.









(** The corners follow the rule: top-left has the least and bottom-right
    the greatest x+y of the four points, and top-right has no greater y-x
    than bottom-left. *)
Lemma orderQuadCorners_rule (p0 p1 p2 p3 : Point2D) (quad : OrderedQuad) :
  orderQuadCorners p0 p1 p2 p3 = Ok quad →
  topLeft quad ∈ [p0; p1; p2; p3]
  ∧ bottomRight quad ∈ [p0; p1; p2; p3]
  ∧ topRight quad ∈ [p0; p1; p2; p3]
  ∧ bottomLeft quad ∈ [p0; p1; p2; p3]
  ∧ (∀ p, p ∈ [p0; p1; p2; p3] →
          coordSum (topLeft quad) ≤ coordSum p ≤ coordSum (bottomRight quad))
  ∧ coordDiff (topRight quad) ≤ coordDiff (bottomLeft quad).
Proof.
  unfold orderQuadCorners. destruct (_ || _); [discriminate|].
  set (tl := pick sumBefore p0 [p1; p2; p3]).
  set (br := pick (flip sumBefore) p0 [p1; p2; p3]).
  destruct (filter (λ p, p ≠ tl ∧ p ≠ br) [p0; p1; p2; p3]) as [|a others] eqn:Hrest;
    [discriminate|].
  intros [= <-]. simpl.
  assert (Hsub : ∀ p, p ∈ a :: others → p ∈ [p0; p1; p2; p3]).
  { intros p Hp. rewrite <- Hrest in Hp. apply list_elem_of_filter in Hp. apply Hp. }
  split; [apply pick_elem|]. split; [apply pick_elem|].
  split; [apply Hsub, pick_elem|]. split; [apply Hsub, pick_elem|]. split.
  - intros p Hp.
    pose proof (pick_least sumBefore sumBefore_order p0 [p1; p2; p3] p Hp) as Hlow.
    pose proof (pick_least (flip sumBefore) (StrictTotal_flip _ sumBefore_order)
                  p0 [p1; p2; p3] p Hp) as Hhigh.
    fold tl in Hlow. fold br in Hhigh. unfold flip, sumBefore in Hlow, Hhigh.
    apply orb_false_elim in Hlow as [Hlow _]. apply orb_false_elim in Hhigh as [Hhigh _].
    apply Z.ltb_ge in Hlow, Hhigh. lia.
  - pose proof (pick_least diffBefore diffBefore_order a others
                  (pick (flip diffBefore) a others) (pick_elem _ _ _)) as Hlow.
    unfold diffBefore in Hlow at 1.
    apply orb_false_elim in Hlow as [Hlow _]. apply Z.ltb_ge in Hlow. exact Hlow.
Qed.



(** The collinear input of the specification. *)
Example orderQuadCorners_collinear_example :
  orderQuadCorners {| px := 0; py := 0 |} {| px := 10; py := 0 |}
                   {| px := 20; py := 0 |} {| px := 5; py := 0 |}
  = Err InvalidGeometry.
Proof. vm_compute. reflexivity. Qed.

(** Why the tie-break rules matter: a scan that keeps the first point on
    equal x+y orders the corners of a diamond differently when the input is
    rotated, while [orderQuadCorners] does not. *)
Remark scan_order_depends_on_rotation :
  orderQuadCornersScan {| px := 1; py := 0 |} {| px := 2; py := 1 |}
                       {| px := 1; py := 2 |} {| px := 0; py := 1 |}
  = Ok {| topLeft := {| px := 1; py := 0 |}; topRight := {| px := 1; py := 2 |};
          bottomRight := {| px := 2; py := 1 |}; bottomLeft := {| px := 0; py := 1 |} |}
  ∧ orderQuadCornersScan {| px := 0; py := 1 |} {| px := 1; py := 0 |}
                         {| px := 2; py := 1 |} {| px := 1; py := 2 |}
    = Ok {| topLeft := {| px := 0; py := 1 |}; topRight := {| px := 1; py := 0 |};
            bottomRight := {| px := 2; py := 1 |}; bottomLeft := {| px := 1; py := 2 |} |}
  ∧ orderQuadCorners {| px := 1; py := 0 |} {| px := 2; py := 1 |}
                     {| px := 1; py := 2 |} {| px := 0; py := 1 |}
    = Ok {| topLeft := {| px := 1; py := 0 |}; topRight := {| px := 2; py := 1 |};
            bottomRight := {| px := 1; py := 2 |}; bottomLeft := {| px := 0; py := 1 |} |}.
Proof. repeat split; vm_compute; reflexivity. Qed.

End GeometryFacts.

(** ** The session: auth store, request interceptor and route guard *)

Section SessionFacts.
Import AuthStore.

Implicit Types (ls : gmap string string) (st : AuthState).

Lemma truthy_Some_iff (t : string) : Js.truthy (Some t) = true ↔ t ≠ EmptyString.
Proof.
  unfold Js.truthy. rewrite negb_true_iff. split.
  - intros H ->. discriminate.
  - intros H. apply String.eqb_neq. exact H.
Qed.

Lemma or_else_default (t : option string) :
  default EmptyString (Js.or_else t (Some EmptyString)) = default EmptyString t.
Proof.
  unfold Js.or_else. destruct t as [t|]; simpl; [|reflexivity].
  destruct (String.eqb_spec t EmptyString) as [->|]; reflexivity.
Qed.

Lemma logout_storage st ls :
  (logout st ls).2 !! TOKEN_KEY = None ∧ (logout st ls).2 !! USER_KEY = None.
Proof.
  unfold logout. simpl. split.
  - rewrite lookup_delete_ne by discriminate. apply lookup_delete_eq.
  - apply lookup_delete_eq.
Qed.

(** X1: logging out empties the store (no token, no user, not
    authenticated), removes both keys from localStorage and keeps every
    other key; a store that is initialised from that localStorage, as after
    a reload, is the logged-out store again, whatever JSON.parse does. *)
Theorem X1_logout_clears_session :
  ∀ (parse : string → Js.Completion json) st ls,
    isAuthenticated (logout st ls).1 = false
    ∧ user (logout st ls).1 = JNull
    ∧ (logout st ls).2 !! TOKEN_KEY = None
    ∧ (logout st ls).2 !! USER_KEY = None
    ∧ (∀ k, k ≠ TOKEN_KEY → k ≠ USER_KEY → (logout st ls).2 !! k = ls !! k)
    ∧ getStoredToken (logout st ls).2 = EmptyString
    ∧ initialState parse (logout st ls).2 = Js.Normal (logout st ls).1.
Proof.
  intros parse st ls.
  destruct (logout_storage st ls) as [Htoken Huser].
  split; [reflexivity|]. split; [reflexivity|].
  split; [exact Htoken|]. split; [exact Huser|]. split; [|split].
  - intros k Hk1 Hk2. unfold logout. simpl.
    rewrite !lookup_delete_ne by congruence. reflexivity.
  - unfold getStoredToken. rewrite Htoken. reflexivity.
  - unfold initialState, readUserFromStorage. rewrite Htoken, Huser. reflexivity.
Qed.

(** X2: what [setAuth] and [updateProfile] store is what a reload reads
    back: when JSON.parse inverts JSON.stringify on the user and the text
    is not empty, the store initialised from localStorage after [setAuth]
    is the store that [setAuth] left, and after [updateProfile] it has the
    new user with the stored token. *)
Theorem X2_session_survives_reload :
  ∀ (parse : string → Js.Completion json) (stringify : json → string)
    (token : string) (u : json) st ls,
    parse (stringify u) = Js.Normal u →
    stringify u ≠ EmptyString →
    initialState parse (setAuth stringify token u st ls).2
    = Js.Normal (setAuth stringify token u st ls).1
    ∧ getStoredToken (setAuth stringify token u st ls).2 = token
    ∧ initialState parse (updateProfile stringify u st ls).2
      = Js.Normal {| AuthStore.token := getStoredToken ls; user := u |}.
Proof.
  intros parse stringify token u st ls Hround Hnonempty.
  assert (Htruthy : Js.truthy (Some (stringify u)) = true)
    by (apply truthy_Some_iff; exact Hnonempty).
  split; [|split].
  - unfold initialState, readUserFromStorage, setAuth. simpl.
    rewrite lookup_insert_eq, Htruthy. simpl. rewrite Hround. simpl.
    rewrite lookup_insert_ne by discriminate. rewrite lookup_insert_eq.
    rewrite or_else_default. reflexivity.
  - unfold getStoredToken, setAuth. simpl.
    rewrite lookup_insert_ne by discriminate. rewrite lookup_insert_eq.
    rewrite or_else_default. reflexivity.
  - unfold initialState, readUserFromStorage, updateProfile, getStoredToken. simpl.
    rewrite lookup_insert_eq, Htruthy. simpl. rewrite Hround. simpl.
    rewrite lookup_insert_ne by discriminate. reflexivity.
Qed.

(** X2 at a literal user and an empty localStorage. *)
Lemma X2_witness :
  initialState parseLiteral
    (setAuth stringifyLiteral "t0" (JBool true) {| token := EmptyString; user := JNull |} ∅).2
  = Js.Normal (setAuth stringifyLiteral "t0" (JBool true)
                 {| token := EmptyString; user := JNull |} ∅).1.
Proof.
  refine (proj1 (X2_session_survives_reload parseLiteral stringifyLiteral "t0" (JBool true)
                   {| token := EmptyString; user := JNull |} ∅ _ _)).
  - reflexivity.
  - discriminate.
Defined.

Lemma onRequest_without_token (config : Http.RequestConfig) ls :
  Js.truthy (ls !! "access_token") = false → Http.onRequest config ls = config.
Proof. intros H. unfold Http.onRequest. rewrite H. reflexivity. Qed.

Lemma onRequest_with_token (config : Http.RequestConfig) ls (t : string) :
  ls !! "access_token" = Some t → t ≠ EmptyString →
  Http.headers (Http.onRequest config ls) !! "Authorization" = Some (String.append "Bearer " t)
  ∧ Http.request_url (Http.onRequest config ls) = Http.request_url config
  ∧ ∀ k, k ≠ "Authorization" →
         Http.headers (Http.onRequest config ls) !! k = Http.headers config !! k.
Proof.
  intros Hstored Hnonempty. unfold Http.onRequest. rewrite Hstored.
  rewrite (proj2 (truthy_Some_iff t) Hnonempty). simpl.
  split; [apply lookup_insert_eq|]. split; [reflexivity|].
  intros k Hk. apply lookup_insert_ne. congruence.
Qed.

(** X3: the request interceptor follows the session.  After [setAuth] with
    a non-empty token every request carries [Authorization: Bearer token]
    and keeps its other headers; after [logout], and after a response error
    with status 401, the interceptor leaves every request as it is (it adds
    no Authorization header). *)
Theorem X3_requests_carry_the_stored_token :
  ∀ (stringify : json → string) (token : string) (u : json) st ls
    (config : Http.RequestConfig),
    token ≠ EmptyString →
    (Http.headers (Http.onRequest config (setAuth stringify token u st ls).2)
       !! "Authorization" = Some (String.append "Bearer " token)
     ∧ ∀ k, k ≠ "Authorization" →
            Http.headers (Http.onRequest config (setAuth stringify token u st ls).2) !! k
            = Http.headers config !! k)
    ∧ Http.onRequest config (logout st ls).2 = config
    ∧ (∀ (T : Type) (error : Http.AxiosError),
         Http.status <$> Http.response error = Some 401%Z →
         Http.onRequest config (Http.onResponseError (T:=T) error ls).1.1 = config).
Proof.
  intros stringify token u st ls config Hnonempty. split; [|split].
  - assert (Hstored : (setAuth stringify token u st ls).2 !! "access_token" = Some token).
    { unfold setAuth. simpl. rewrite lookup_insert_ne by discriminate.
      apply lookup_insert_eq. }
    destruct (onRequest_with_token config _ token Hstored Hnonempty) as (Hauth & _ & Hrest).
    split; assumption.
  - apply onRequest_without_token.
    pose proof (proj1 (logout_storage st ls)) as Hgone. unfold TOKEN_KEY in Hgone.
    rewrite Hgone. reflexivity.
  - intros T error H401. apply onRequest_without_token.
    rewrite onResponseError_storage, decide_True by assumption.
    rewrite lookup_delete_ne by discriminate. rewrite lookup_delete_eq. reflexivity.
Qed.

(** X3 at the token [t0]. *)
Lemma X3_witness :
  Http.headers
    (Http.onRequest {| Http.request_url := "/dashboard/summary"; Http.headers := ∅ |}
       (setAuth stringifyLiteral "t0" JNull {| token := EmptyString; user := JNull |} ∅).2)
    !! "Authorization" = Some "Bearer t0".
Proof.
  refine (proj1 (proj1 (X3_requests_carry_the_stored_token stringifyLiteral "t0" JNull
                          {| token := EmptyString; user := JNull |} ∅
                          {| Http.request_url := "/dashboard/summary"; Http.headers := ∅ |}
                          _))).
  discriminate.
Defined.



End SessionFacts.

(** ** The route guard *)

Section RouterFacts.
Import Router.

Implicit Types (ls : gmap string string) (to : RouteName).

Lemma beforeEach_without_token to ls :
  Js.truthy (ls !! "access_token") = false →
  beforeEach to ls = if requiresAuth to then RedirectTo login else Proceed.
Proof.
  intros Hno. unfold beforeEach. rewrite Hno. destruct to; reflexivity.
Qed.

Lemma beforeEach_with_token to ls :
  Js.truthy (ls !! "access_token") = true →
  beforeEach to ls = if requiresAuth to then Proceed else RedirectTo home.
Proof.
  intros Hyes. unfold beforeEach. rewrite Hyes. destruct to; reflexivity.
Qed.

Lemma navigate_without_token (fuel : nat) to ls :
  Js.truthy (ls !! "access_token") = false →
  navigate (S fuel) to ls = Some (if requiresAuth to then login else to).
Proof.
  intros Hno. simpl. rewrite (beforeEach_without_token to ls Hno).
  destruct (requiresAuth to); [|reflexivity].
  destruct fuel; simpl; rewrite (beforeEach_without_token login ls Hno); reflexivity.
Qed.

Lemma navigate_with_token (fuel : nat) to ls :
  Js.truthy (ls !! "access_token") = true →
  navigate (S fuel) to ls = Some (if requiresAuth to then to else home).
Proof.
  intros Hyes. simpl. rewrite (beforeEach_with_token to ls Hyes).
  destruct (requiresAuth to); [reflexivity|].
  destruct fuel; simpl; rewrite (beforeEach_with_token home ls Hyes); reflexivity.
Qed.

(** X5: every navigation settles after at most one redirect, and the
    guard lets the route it settles on pass (no redirect loop).  The route
    reached requires authentication only when a non-empty token is stored,
    and it is the login or the register page only when none is; a target
    that already satisfies this is reached itself. *)
Theorem X5_navigation_settles_on_an_allowed_route :
  ∀ to ls (fuel : nat),
    ∃ final,
      navigate (S fuel) to ls = Some final
      ∧ beforeEach final ls = Proceed
      ∧ (requiresAuth final = true → Js.truthy (ls !! "access_token") = true)
      ∧ (final = login ∨ final = register → Js.truthy (ls !! "access_token") = false)
      ∧ (beforeEach to ls = Proceed → final = to).
Proof.
  intros to ls fuel.
  destruct (Js.truthy (ls !! "access_token")) eqn:Htoken.
  - rewrite (navigate_with_token fuel to ls Htoken).
    eexists. split; [reflexivity|].
    rewrite (beforeEach_with_token _ ls Htoken), (beforeEach_with_token to ls Htoken).
    destruct to; simpl; repeat split; try reflexivity; try discriminate;
      intros [H|H]; discriminate.
  - rewrite (navigate_without_token fuel to ls Htoken).
    eexists. split; [reflexivity|].
    rewrite (beforeEach_without_token _ ls Htoken), (beforeEach_without_token to ls Htoken).
    destruct to; simpl; repeat split; try reflexivity; try discriminate.
Qed.

(** X6: the guard follows the session.  After [logout], and after a
    response error with status 401, every navigation to a page that
    requires authentication lands on the login page, and the login and
    register pages are reached; after [setAuth] with a non-empty token the
    protected pages are reached and the login and register pages lead to
    the home page; after [setAuth] with an empty token the home page leads
    back to the login page. *)
Theorem X6_guard_follows_the_session :
  ∀ (stringify : AuthStore.json → string) (token : string) (u : AuthStore.json)
    (st : AuthStore.AuthState) ls to,
    navigate 1 to (AuthStore.logout st ls).2 = Some (if requiresAuth to then login else to)
    ∧ (∀ (T : Type) (error : Http.AxiosError),
         Http.status <$> Http.response error = Some 401%Z →
         navigate 1 to (Http.onResponseError (T:=T) error ls).1.1
         = Some (if requiresAuth to then login else to))
    ∧ (token ≠ EmptyString →
       navigate 1 to (AuthStore.setAuth stringify token u st ls).2
       = Some (if requiresAuth to then to else home))
    ∧ navigate 1 home (AuthStore.setAuth stringify EmptyString u st ls).2 = Some login.
Proof.
  intros stringify token u st ls to.
  assert (Hset : ∀ t, (AuthStore.setAuth stringify t u st ls).2 !! "access_token" = Some t).
  { intros t. unfold AuthStore.setAuth. simpl.
    rewrite lookup_insert_ne by discriminate. apply lookup_insert_eq. }
  split; [|split; [|split]].
  - apply navigate_without_token.
    pose proof (proj1 (logout_storage st ls)) as Hgone. unfold AuthStore.TOKEN_KEY in Hgone.
    rewrite Hgone. reflexivity.
  - intros T error H401. apply navigate_without_token.
    rewrite onResponseError_storage, decide_True by assumption.
    rewrite lookup_delete_ne by discriminate. rewrite lookup_delete_eq. reflexivity.
  - intros Hnonempty. apply navigate_with_token.
    rewrite Hset. apply truthy_Some_iff. exact Hnonempty.
  - rewrite (navigate_without_token 0 home); [reflexivity|].
    rewrite Hset. reflexivity.
Qed.

(** X6 at a 401 answer while the gallery is opened. *)
Lemma X6_witness :
  navigate 1 gallery
    (Http.onResponseError (T:=unit)
       {| Http.response := Some {| Http.status := 401; Http.data := None |};
          Http.error_message := "Request failed with status code 401" |}
       (<["access_token" := "t0"]> ∅)).1.1
  = Some login.
Proof.
  refine (proj1 (proj2 (X6_guard_follows_the_session AuthStore.stringifyLiteral "t0"
                          AuthStore.JNull
                          {| AuthStore.token := "t0"; AuthStore.user := AuthStore.JNull |}
                          (<["access_token" := "t0"]> ∅) gallery)) unit _ _).
  reflexivity.
Defined.

End RouterFacts.

(** ** The workspace: the point list and the preview *)

Section WorkspaceMoreFacts.
Import Vision Workspace.

Implicit Types (s : State) (userId : option string).

Lemma array_set_length {A} (arr : list (option A)) (i : nat) (v : A) :
  length (Js.array_set arr i v) = Nat.max (length arr) (S i).
Proof.
  unfold Js.array_set. destruct (decide (i < length arr)%nat).
  - rewrite length_insert. lia.
  - rewrite !length_app, length_replicate. simpl. lia.
Qed.

Lemma array_pop_length {A} (arr : list A) :
  length (Js.array_pop arr) = Nat.pred (length arr).
Proof.
  unfold Js.array_pop. rewrite removelast_firstn_len, length_take. lia.
Qed.

(** What a turn of the event loop does to the point list and to the
    dragged index, event by event. *)
Lemma step_points_cases userId (e : Event) s :
  (documentPoints (step userId e s) = documentPoints s
   ∨ documentPoints (step userId e s) = []
   ∨ (∃ p, documentPoints (step userId e s) = documentPoints s ++ [Some p]
           ∧ (length (documentPoints s) < 4)%nat)
   ∨ (∃ i p, draggingPointIndex s = Some i
             ∧ documentPoints (step userId e s) = Js.array_set (documentPoints s) i p)
   ∨ documentPoints (step userId e s) = Js.array_pop (documentPoints s))
  ∧ (draggingPointIndex (step userId e s) = draggingPointIndex s
     ∨ draggingPointIndex (step userId e s) = None
     ∨ ∃ i ev rect, e = PointDragStart i ev rect
                    ∧ draggingPointIndex (step userId e s) = Some i).
Proof.
  destruct e; simpl.
  - split; [right; left | left]; destruct file as [[[f|]]|]; reflexivity.
  - destruct files; (split; [|left; reflexivity]); [left | right; left]; reflexivity.
  - split; [right; left | left]; reflexivity.
  - unfold handleColorBlindTransform_call. destruct (uploadFile s); split; left; reflexivity.
  - destruct outcome; split; left; reflexivity.
  - destruct (scan_call_state userId s) as [-> | ->]; split; left; reflexivity.
  - destruct outcome; (split; [|left; reflexivity]); [right; left | left]; reflexivity.
  - unfold handleTopMenuSelect.
    destruct (String.eqb k "home"); [split; left; reflexivity|].
    destruct (String.eqb k "gallery"); [split; left; reflexivity|].
    destruct (String.prefix "workspace-" k); [|split; left; reflexivity].
    simpl. unfold handleFeatureSelect.
    destruct (List.find _ featureTabs) as [target|]; [|split; left; reflexivity].
    destruct (disabled target); [split; left; reflexivity|].
    destruct (String.eqb _ _); [split; left; reflexivity|].
    unfold watch_activeFeature.
    destruct (negb _); (split; [|left; reflexivity]); [right; left | left]; reflexivity.
  - split; [|unfold handleScanAreaClick; repeat case_match; left; simpl; congruence].
    unfold handleScanAreaClick.
    destruct (bool_decide (4 ≤ length (documentPoints s))%nat) eqn:Hfull; simpl;
      [left; reflexivity|].
    apply bool_decide_eq_false in Hfull.
    destruct (String.eqb _ _); [left; reflexivity|].
    destruct rect as [rect|]; [|left; reflexivity].
    destruct (outsideImage _ _); [left; reflexivity|].
    right; right; left. eexists. split; [reflexivity|]. lia.
  - destruct rect as [rect|]; simpl.
    + split; [left; reflexivity|]. right; right. eauto.
    + split; left; reflexivity.
  - split; [|unfold handlePointDragMove; repeat case_match; left; simpl; congruence].
    unfold handlePointDragMove.
    destruct (draggingPointIndex s) as [index|] eqn:Hdrag; [|left; reflexivity].
    match goal with |- context [if ?c then s else _] => destruct c end; [left; reflexivity|].
    destruct rect as [rect|]; [|left; reflexivity].
    destruct (outsideImage _ _); [left; reflexivity|].
    right; right; right; left. eauto.
  - split; [left | right; left]; reflexivity.
  - split; [right; right; right; right | left]; reflexivity.
  - split; [right; left | left]; reflexivity.
  - split; left; reflexivity.
  - split; left; reflexivity.
  - split; left; reflexivity.
Qed.

Lemma step_keeps_at_most_four userId (e : Event) s :
  drag_starts_on_a_point s e → at_most_four s → at_most_four (step userId e s).
Proof.
  intros Hstart [Hlen Hdrag].
  destruct (step_points_cases userId e s) as [Hpoints Hindex].
  split.
  - destruct Hpoints as [-> | [-> | [(p & -> & Hroom) | [(i & p & Hi & ->) | ->]]]].
    + exact Hlen.
    + simpl. lia.
    + rewrite length_app. simpl. lia.
    + rewrite array_set_length. rewrite Hi in Hdrag. lia.
    + rewrite array_pop_length. lia.
  - destruct Hindex as [-> | [-> | (i & ev & rect & -> & ->)]].
    + exact Hdrag.
    + exact I.
    + simpl in Hstart. lia.
Qed.

(** X7: the point list never holds more than four entries.  From a state
    with at most four entries, after any sequence of events in which every
    drag starts on a point that is rendered (clicks, drags, undo, reset,
    file changes, tab changes, transforms and their answers in any order),
    the list has at most four entries. *)
Theorem X7_point_list_never_exceeds_four :
  ∀ userId (events : list Event) s,
    at_most_four s →
    rendered_run userId events s →
    at_most_four (run userId events s)
    ∧ (length (documentPoints (run userId events s)) ≤ 4)%nat.
Proof.
  intros userId events. unfold run.
  induction events as [|e events IH]; intros s Hinv Hrun; simpl.
  - split; [exact Hinv | apply Hinv].
  - destruct Hrun as [Hstart Hrun]. apply IH; [|exact Hrun].
    apply step_keeps_at_most_four; assumption.
Qed.

(** X7 at five clicks in a row and a drag of the last point. *)
Lemma X7_witness :
  (length (documentPoints
     (run None
        (replicate 5 (ScanAreaClick {| clientX := 50; clientY := 50; pointerId := 1 |}
                        (Some {| rect_left := 0; rect_top := 0;
                                 rect_width := 100; rect_height := 100 |}))
         ++ [PointDragStart 3 {| clientX := 50; clientY := 50; pointerId := 1 |}
               (Some {| rect_left := 0; rect_top := 0;
                        rect_width := 100; rect_height := 100 |});
             PointDragMove {| clientX := 60; clientY := 60; pointerId := 1 |}
               (Some {| rect_left := 0; rect_top := 0;
                        rect_width := 100; rect_height := 100 |})])
        (assignFile (Some {| file_name := "a.png" |}) initial).1)) ≤ 4)%nat.
Proof.
  refine (proj2 (X7_point_list_never_exceeds_four None _ _ _ _)).
  - split; [simpl; lia | exact I].
  - vm_compute. repeat split; lia.
Defined.

(** X8: undo takes back a click.  When a click on the image stores a
    point, [undoDocumentPoint] right after it restores the state before the
    click. *)
Theorem X8_undo_reverts_a_click :
  ∀ (event : PointerEvent) (rect : option DOMRect) s,
    handleScanAreaClick event rect s ≠ s →
    undoDocumentPoint (handleScanAreaClick event rect s) = s
    ∧ length (documentPoints (handleScanAreaClick event rect s))
      = S (length (documentPoints s)).
Proof.
  intros event rect s Hchanged. unfold handleScanAreaClick in *.
  destruct (_ || _); [congruence|].
  destruct rect as [rect|]; [|congruence].
  destruct (outsideImage _ _); [congruence|].
  split.
  - unfold undoDocumentPoint, Js.array_pop. simpl.
    rewrite removelast_last. destruct s; reflexivity.
  - simpl. rewrite length_app. simpl. lia.
Qed.

(** X8 at a click in the middle of the image. *)
Lemma X8_witness :
  undoDocumentPoint
    (handleScanAreaClick {| clientX := 50; clientY := 50; pointerId := 1 |}
       (Some {| rect_left := 0; rect_top := 0; rect_width := 100; rect_height := 100 |})
       (assignFile (Some {| file_name := "a.png" |}) initial).1)
  = (assignFile (Some {| file_name := "a.png" |}) initial).1.
Proof.
  refine (proj1 (X8_undo_reverts_a_click _ _ _ _)).
  vm_compute. discriminate.
Defined.

End WorkspaceMoreFacts.

Section WorkspacePreviewFacts.
Import Vision Workspace.

Implicit Types (s : State) (userId : option string).

Lemma createObjectURL_is_blob (f : File) : String.prefix "blob:" (createObjectURL f) = true.
Proof. unfold createObjectURL. simpl. destruct (file_name f); reflexivity. Qed.

Lemma assignFile_tracks (file : option File) s : preview_tracks_upload (assignFile file s).1.
Proof. destruct file; reflexivity. Qed.

(** The handlers other than the upload handlers leave the upload and its
    preview alone. *)
Lemma step_upload_cases userId (e : Event) s :
  (uploadFile (step userId e s) = uploadFile s
   ∧ originalPreview (step userId e s) = originalPreview s)
  ∨ ∃ file, step userId e s = (assignFile file s).1.
Proof.
  destruct e; simpl.
  - right. unfold handleFileChange.
    destruct (file ≫= raw) as [f|]; [exists (Some f) | exists None]; reflexivity.
  - destruct files as [|f files]; [left; split; reflexivity|].
    right. exists (Some f). reflexivity.
  - right. exists None. reflexivity.
  - left. unfold handleColorBlindTransform_call. repeat case_match; simpl; split; congruence.
  - left. destruct outcome; split; reflexivity.
  - left. destruct (scan_call_state userId s) as [-> | ->]; split; reflexivity.
  - left. destruct outcome; split; reflexivity.
  - left. unfold handleTopMenuSelect, handleFeatureSelect, watch_activeFeature.
    repeat case_match; simpl; split; congruence.
  - left. unfold handleScanAreaClick. repeat case_match; simpl; split; congruence.
  - left. destruct rect; split; reflexivity.
  - left. unfold handlePointDragMove. repeat case_match; simpl; split; congruence.
  - left. split; reflexivity.
  - left. split; reflexivity.
  - left. split; reflexivity.
  - left. split; reflexivity.
  - left. split; reflexivity.
  - left. split; reflexivity.
Qed.

Lemma run_tracks_upload userId (events : list Event) s :
  preview_tracks_upload s → preview_tracks_upload (run userId events s).
Proof.
  unfold run. revert s. induction events as [|e events IH]; intros s Hinv; simpl.
  - exact Hinv.
  - apply IH.
    destruct (step_upload_cases userId e s) as [[Hfile Hurl] | [file ->]].
    + unfold preview_tracks_upload. rewrite Hfile, Hurl. exact Hinv.
    + apply assignFile_tracks.
Qed.

(** X9: the workspace keeps exactly one preview URL and releases it.  In
    every state reached from the initial one, the preview is the blob URL
    made for the current upload (empty without an upload), and assigning
    another file, or none, revokes exactly that URL before anything else;
    without an upload nothing is revoked. *)
Theorem X9_previous_preview_url_is_revoked :
  ∀ userId (events : list Event) (file : option File),
    let s := run userId events initial in
    preview_tracks_upload s
    ∧ (assignFile file s).2
      = match uploadFile s with
        | Some previous => [revokeObjectURL (createObjectURL previous)]
        | None => []
        end
    ∧ preview_tracks_upload (assignFile file s).1.
Proof.
  intros userId events file s.
  assert (Hinv : preview_tracks_upload s) by (apply run_tracks_upload; reflexivity).
  split; [exact Hinv|]. split; [|apply assignFile_tracks].
  unfold preview_tracks_upload in Hinv.
  unfold assignFile, cleanupPreview. rewrite Hinv.
  destruct (uploadFile s) as [previous|].
  - rewrite createObjectURL_is_blob. destruct file; reflexivity.
  - destruct file; reflexivity.
Qed.

Lemma substring_whole (k : string) : String.substring 0 (String.length k) k = k.
Proof. induction k as [|c k IH]; simpl; [reflexivity|]. rewrite IH. reflexivity. Qed.

(** A text that starts with [p] is [p] followed by what [substring] cuts
    off behind it. *)
Lemma prefix_split (p k : string) :
  String.prefix p k = true →
  k = String.append p
        (String.substring (String.length p) (String.length k - String.length p) k).
Proof.
  revert k. induction p as [|a p IH]; intros k Hprefix; simpl.
  - rewrite Nat.sub_0_r, substring_whole. reflexivity.
  - destruct k as [|b k]; simpl in Hprefix; [discriminate|].
    destruct (Ascii.ascii_dec a b) as [<-|]; [|discriminate].
    exact (f_equal (String a) (IH k Hprefix)).
Qed.

Lemma handleFeatureSelect_cases (k : string) s :
  (handleFeatureSelect k s = s)
  ∨ (enabled_feature k ∧ activeFeature s ≠ k
     ∧ activeFeature (handleFeatureSelect k s) = k
     ∧ topNavActive (handleFeatureSelect k s) = String.append "workspace-" k
     ∧ documentPoints (handleFeatureSelect k s)
       = if String.eqb k "document-scan" then documentPoints s else []).
Proof.
  unfold handleFeatureSelect.
  destruct (List.find _ featureTabs) as [target|] eqn:Hfind; [|left; reflexivity].
  apply find_some in Hfind as [Hin Hkey].
  apply String.eqb_eq in Hkey.
  destruct (disabled target) eqn:Hdisabled; [left; reflexivity|].
  destruct (String.eqb_spec (activeFeature s) k) as [|Hother]; [left; reflexivity|].
  right. split; [|split; [exact Hother|]].
  - exists target. split; [apply list_elem_of_In; exact Hin|]. split; assumption.
  - unfold watch_activeFeature. destruct (String.eqb k "document-scan"); repeat split.
Qed.

Lemma enabled_feature_keys (k : string) :
  enabled_feature k ↔ k = "color-blind" ∨ k = "document-scan".
Proof.
  unfold enabled_feature, featureTabs. split.
  - intros (tab & Hin & <- & Hdisabled).
    repeat (apply elem_of_cons in Hin as [-> | Hin]); simpl in *;
      try discriminate; auto.
    apply elem_of_nil in Hin. destruct Hin.
  - intros [-> | ->].
    + exists {| key := "color-blind"; disabled := false |}.
      split; [apply list_elem_of_here | split; reflexivity].
    + exists {| key := "document-scan"; disabled := false |}.
      split; [apply list_elem_of_further, list_elem_of_here | split; reflexivity].
Qed.

(** X10: only an enabled tab becomes active.  Whatever key the menu
    sends, the handler either leaves the active feature and the point list
    as they are (unknown key, disabled tab, tab already active, or a key of
    another menu), or it activates an enabled tab, sets the menu to it, and
    empties the point list unless the new tab is the document scan; so in
    every state reached from the initial one the active feature is the
    colour-blind or the document-scan tab. *)
Theorem X10_only_enabled_tabs_become_active :
  ∀ userId (events : list Event) (k : string) s,
    ((activeFeature (handleTopMenuSelect k s).1 = activeFeature s
      ∧ documentPoints (handleTopMenuSelect k s).1 = documentPoints s)
     ∨ (∃ k', k = String.append "workspace-" k'
              ∧ enabled_feature k'
              ∧ activeFeature (handleTopMenuSelect k s).1 = k'
              ∧ topNavActive (handleTopMenuSelect k s).1 = k
              ∧ documentPoints (handleTopMenuSelect k s).1
                = if String.eqb k' "document-scan" then documentPoints s else []))
    ∧ enabled_feature (activeFeature (run userId events initial)).
Proof.
  intros userId events k s. split.
  - unfold handleTopMenuSelect.
    destruct (String.eqb k "home"); [left; split; reflexivity|].
    destruct (String.eqb k "gallery"); [left; split; reflexivity|].
    destruct (String.prefix "workspace-" k) eqn:Hprefix; [|left; split; reflexivity].
    simpl.
    set (k' := String.substring 10 (String.length k - 10) k).
    assert (Hk : k = String.append "workspace-" k')
      by (exact (prefix_split "workspace-" k Hprefix)).
    destruct (handleFeatureSelect_cases k' (set_topNavActive k s))
      as [-> | (Henabled & _ & Hactive & Hnav & Hpoints)].
    + left. split; reflexivity.
    + right. exists k'. rewrite Hactive, Hnav, Hpoints. rewrite <- Hk. repeat split; auto.
  - unfold run.
    assert (Hgen : ∀ s0, enabled_feature (activeFeature s0) →
                         enabled_feature (activeFeature (foldl (λ s e, step userId e s) s0 events))).
    { induction events as [|e events IH]; intros s0 Hs0; simpl; [exact Hs0|].
      apply IH. destruct e; simpl;
        try (unfold handleFileChange, handleExceed, handleRemove, assignFile, cleanupPreview,
               handleColorBlindTransform_call, handleColorBlindTransform_resume,
               handleDocumentScan_call, handleDocumentScan_resume,
               handleScanAreaClick, startPointDrag, handlePointDragMove;
             repeat case_match; exact Hs0).
      unfold handleTopMenuSelect.
      repeat case_match; try exact Hs0. simpl.
      match goal with |- context [handleFeatureSelect ?a ?b] =>
        destruct (handleFeatureSelect_cases a b) as [-> | (Henabled & _ & -> & _)] end;
        [exact Hs0 | exact Henabled]. }
    apply Hgen. apply enabled_feature_keys. left. reflexivity.
Qed.

(** X11: dragging moves the dragged point only.  While a point of the
    list is dragged, a pointer move keeps the number of points and every
    other point. *)
Theorem X11_drag_moves_only_the_dragged_point :
  ∀ (event : PointerEvent) (rect : option DOMRect) s (index : nat),
    draggingPointIndex s = Some index →
    (index < length (documentPoints s))%nat →
    length (documentPoints (handlePointDragMove event rect s)) = length (documentPoints s)
    ∧ (∀ j, j ≠ index →
            documentPoints (handlePointDragMove event rect s) !! j = documentPoints s !! j)
    ∧ draggingPointIndex (handlePointDragMove event rect s) = Some index.
Proof.
  intros event rect s index Hdrag Hrange.
  unfold handlePointDragMove. rewrite Hdrag.
  match goal with |- context [if ?c then s else _] => destruct c end;
    [repeat split; assumption|].
  destruct rect as [rect|]; [|repeat split; assumption].
  destruct (outsideImage _ _); [repeat split; assumption|].
  simpl. unfold Js.array_set. rewrite decide_True by exact Hrange.
  split; [apply length_insert|]. split; [|exact Hdrag].
  intros j Hj. apply list_lookup_insert_ne. congruence.
Qed.

(** X11 at a drag of the first of two points. *)
Lemma X11_witness :
  length (documentPoints
            (handlePointDragMove {| clientX := 60; clientY := 60; pointerId := 1 |}
               (Some {| rect_left := 0; rect_top := 0; rect_width := 100; rect_height := 100 |})
               (set_dragging (Some 0%nat) (Some 1%Z)
                  (set_documentPoints
                     (replicate 2 (Some {| x := Js.Fin (1 # 2); y := Js.Fin (1 # 2) |}))
                     initial))))
  = 2%nat.
Proof.
  refine (proj1 (X11_drag_moves_only_the_dragged_point _ _
                   (set_dragging (Some 0%nat) (Some 1%Z)
                      (set_documentPoints
                         (replicate 2 (Some {| x := Js.Fin (1 # 2); y := Js.Fin (1 # 2) |}))
                         initial)) 0%nat _ _)).
  - reflexivity.
  - simpl. lia.
Defined.

End WorkspacePreviewFacts.

(** ** The gallery view *)

Section GalleryFacts.
Import Gallery.

Implicit Types (s : State) (userId : option string).





Lemma loadGallery_call_cases userId s :
  (Js.truthy userId = false
   ∧ loadGallery_call userId s = (s, [router_push "login"], None))
  ∨ (∃ uid, userId = Some uid ∧ uid ≠ EmptyString
            ∧ loadGallery_call userId s
              = (set_loading true s,
                 [send (Get (String.append "/dashboard/gallery/" uid)
                          {| param_page := Some (currentPage s);
                             param_page_size := Some (pageSize s);
                             param_start_date := or_undefined (resolveDateParam true s);
                             param_end_date := or_undefined (resolveDateParam false s) |})],
                 Some (Get (String.append "/dashboard/gallery/" uid)
                         {| param_page := Some (currentPage s);
                            param_page_size := Some (pageSize s);
                            param_start_date := or_undefined (resolveDateParam true s);
                            param_end_date := or_undefined (resolveDateParam false s) |}))).
Proof.
  unfold loadGallery_call.
  destruct (Js.truthy userId) eqn:Htruthy; simpl; [right | left; split; reflexivity].
  destruct userId as [uid|]; [|discriminate].
  exists uid. split; [reflexivity|]. split; [|reflexivity].
  apply truthy_Some_iff. exact Htruthy.
Qed.

(** X13: changing the page size, the date range or resetting the filters
    goes back to the first page.  The view is on page 1 afterwards, and for
    a signed-in user the list request that is sent asks for page 1 with the
    page size of that moment (the new one after a size change) and, after a
    reset, without any date; without a signed-in user no request is sent
    and the router is sent to the login page. *)
Theorem X13_filter_changes_return_to_page_one :
  ∀ (value : Q) userId s,
    currentPage (handleSizeChange value userId s).1.1 = 1%Q
    ∧ pageSize (handleSizeChange value userId s).1.1 = value
    ∧ currentPage (handleDateChange userId s).1.1 = 1%Q
    ∧ currentPage (resetFilters userId s).1.1 = 1%Q
    ∧ dateRange (resetFilters userId s).1.1 = None
    ∧ (∀ uid, userId = Some uid → uid ≠ EmptyString →
         (handleSizeChange value userId s).2
         = Some (Get (String.append "/dashboard/gallery/" uid)
                   {| param_page := Some 1%Q; param_page_size := Some value;
                      param_start_date := or_undefined (resolveDateParam true s);
                      param_end_date := or_undefined (resolveDateParam false s) |})
         ∧ (handleDateChange userId s).2
           = Some (Get (String.append "/dashboard/gallery/" uid)
                     {| param_page := Some 1%Q; param_page_size := Some (pageSize s);
                        param_start_date := or_undefined (resolveDateParam true s);
                        param_end_date := or_undefined (resolveDateParam false s) |})
         ∧ (resetFilters userId s).2
           = Some (Get (String.append "/dashboard/gallery/" uid)
                     {| param_page := Some 1%Q; param_page_size := Some (pageSize s);
                        param_start_date := None; param_end_date := None |}))
    ∧ (Js.truthy userId = false →
       (handleSizeChange value userId s).2 = None
       ∧ (handleSizeChange value userId s).1.2 = [router_push "login"]
       ∧ (handleDateChange userId s).2 = None
       ∧ (resetFilters userId s).2 = None).
Proof.
  intros value userId s.
  unfold handleSizeChange, handleDateChange, resetFilters.
  destruct (Js.truthy userId) eqn:Htruthy.
  - destruct userId as [uid|]; [|discriminate].
    unfold loadGallery_call. rewrite Htruthy. simpl.
    repeat split; try discriminate.
    all: match goal with H : Some _ = Some _ |- _ => injection H as <- end; reflexivity.
  - unfold loadGallery_call. rewrite Htruthy. simpl.
    repeat split; try reflexivity.
    all: subst; match goal with H : _ ≠ EmptyString |- _ => apply truthy_Some_iff in H end;
      congruence.
Qed.

(** X13 at a change to 20 rows per page by the user [u1]. *)
Lemma X13_witness :
  (handleSizeChange 20 (Some "u1") initial).2
  = Some (Get "/dashboard/gallery/u1"
            {| param_page := Some 1%Q; param_page_size := Some 20%Q;
               param_start_date := None; param_end_date := None |}).
Proof.
  refine (proj1 (proj1 (proj2 (proj2 (proj2 (proj2 (proj2
    (X13_filter_changes_return_to_page_one 20 (Some "u1") initial)))))) "u1" _ _)).
  - reflexivity.
  - discriminate.
Defined.

(** X14: a refresh that fails keeps what is shown.  When the list request
    is rejected the rows, the total, the page, the page size and the date
    range stay as they are and only [loading] is reset; when it is
    fulfilled the rows and the total are those of the response and nothing
    else changes; in both cases the view is no longer loading. *)
Theorem X14_failed_refresh_keeps_the_list :
  ∀ (outcome : Js.Settled GalleryListResponse Http.AxiosError) s,
    loading (loadGallery_resume outcome s).1 = false
    ∧ currentPage (loadGallery_resume outcome s).1 = currentPage s
    ∧ pageSize (loadGallery_resume outcome s).1 = pageSize s
    ∧ dateRange (loadGallery_resume outcome s).1 = dateRange s
    ∧ (∀ error, outcome = Js.Rejected error →
         galleryItems (loadGallery_resume outcome s).1 = galleryItems s
         ∧ totalItems (loadGallery_resume outcome s).1 = totalItems s
         ∧ totalPages (loadGallery_resume outcome s).1 = totalPages s)
    ∧ (∀ response, outcome = Js.Fulfilled response →
         galleryItems (loadGallery_resume outcome s).1 = items response
         ∧ totalItems (loadGallery_resume outcome s).1 = total response).
Proof.
  intros [response | error] s; simpl; repeat split; try discriminate.
  all: try match goal with H : _ = _ |- _ => injection H as <- end; reflexivity.
Qed.

End GalleryFacts.

(** ** The profile view *)

Section ProfileFacts.
Import Profile.

Lemma length_list_ascii_of_string (v : string) :
  length (String.list_ascii_of_string v) = String.length v.
Proof. induction v as [|c v IH]; simpl; congruence. Qed.

Lemma isDigit_phoneCharacter (c : Ascii.ascii) :
  isDigit c = true → phoneCharacter c = true.
Proof. unfold phoneCharacter. intros ->. reflexivity. Qed.

Lemma eqb_empty_false (t : string) : t ≠ EmptyString → String.eqb t EmptyString = false.
Proof. intros H. apply String.eqb_neq. exact H. Qed.

Lemma handleSubmit_call_unchanged (valid : bool) (s : State) (original : UserProfile) :
  originalProfile s = Some original →
  form_name (form s) = name original →
  form_phone (form s) = default EmptyString (phone original) →
  newPassword (form s) = EmptyString →
  (handleSubmit_call valid s).2 = None.
Proof.
  intros Ho Hn Hp Hw. unfold handleSubmit_call.
  destruct valid; simpl; [|reflexivity].
  rewrite Ho. unfold nameChanged, phoneChanged, passwordChanged.
  rewrite Hn, Hp, Hw, !String.eqb_refl. reflexivity.
Qed.

(** X15: a save request of the profile view is sent only for a form that
    passed validation, with a loaded profile and at least one change, and
    it goes to the user of the form.  Name and phone are part of the
    payload exactly when one of the two differs from the loaded profile;
    an empty phone is then sent as [null], never as the empty text.  The
    two password fields are part of the payload exactly when the new
    password is not empty, and the current password sent is not empty
    when the form passed the rule of that field. *)
Theorem X15_profile_request_carries_only_changes :
  ∀ (valid : bool) (s : State) (r : Request),
    (handleSubmit_call valid s).2 = Some r →
    valid = true
    ∧ saving (handleSubmit_call valid s).1.1 = true
    ∧ ∃ original payload,
        originalProfile s = Some original
        ∧ r = PatchUser (form_id (form s)) payload
        ∧ (if decide (form_name (form s) = name original
                      ∧ form_phone (form s) = default EmptyString (phone original))
           then payload_name payload = None ∧ payload_phone payload = None
           else payload_name payload = Some (form_name (form s))
                ∧ payload_phone payload
                  = Some (if decide (form_phone (form s) = EmptyString)
                          then None else Some (form_phone (form s))))
        ∧ (if decide (newPassword (form s) = EmptyString)
           then payload_currentPassword payload = None ∧ payload_newPassword payload = None
           else payload_currentPassword payload = Some (currentPassword (form s))
                ∧ payload_newPassword payload = Some (newPassword (form s)))
        ∧ (payload_name payload ≠ None ∨ payload_newPassword payload ≠ None)
        ∧ payload_phone payload ≠ Some (Some EmptyString)
        ∧ (currentPasswordValidator (form s) (currentPassword (form s)) = true →
           payload_currentPassword payload ≠ Some EmptyString).
Proof.
  intros valid s r. unfold handleSubmit_call.
  destruct valid; simpl; [|discriminate].
  destruct (originalProfile s) as [original|] eqn:Ho; [|discriminate].
  unfold nameChanged, phoneChanged, passwordChanged, currentPasswordValidator.
  destruct (String.eqb_spec (form_name (form s)) (name original)) as [Hn|Hn];
    destruct (String.eqb_spec (form_phone (form s)) (default EmptyString (phone original)))
      as [Hp|Hp];
    destruct (String.eqb_spec (newPassword (form s)) EmptyString) as [Hw|Hw];
    simpl; try discriminate;
    intros [= <-]; (split; [reflexivity|]); (split; [reflexivity|]);
    eexists original, _; (split; [reflexivity|]); (split; [reflexivity|]); simpl;
    repeat case_decide; try tauto;
    destruct (String.eqb_spec (form_phone (form s)) EmptyString);
    destruct (String.eqb_spec (currentPassword (form s)) EmptyString);
    simpl; repeat split; try congruence; try (left; congruence); try (right; congruence).
Qed.

(** X15 for a form whose name was edited and whose phone was cleared. *)
Lemma X15_witness :
  let s := {| form := {| form_id := "u1"; form_email := "a@b.c"; form_name := "New";
                         form_phone := EmptyString; currentPassword := EmptyString;
                         newPassword := EmptyString; confirmPassword := EmptyString |};
              originalProfile := Some {| id := "u1"; name := "Old"; email := "a@b.c";
                                         phone := Some "13800138000" |};
              loading := false; saving := false |} in
  (handleSubmit_call true s).2
  = Some (PatchUser "u1" {| payload_name := Some "New"; payload_phone := Some None;
                            payload_currentPassword := None; payload_newPassword := None |})
  ∧ saving (handleSubmit_call true s).1.1 = true.
Proof.
  intros s. split; [reflexivity|].
  exact (proj1 (proj2 (X15_profile_request_carries_only_changes true s _ eq_refl))).
Defined.

(** X16: with the password fields empty, a profile that was just loaded,
    a form that was just reset and a profile that was just saved have
    nothing to save: submitting sends no request, whatever the validation
    says.  Resetting and saving clear the password fields themselves. *)
Theorem X16_unchanged_profile_sends_nothing :
  ∀ (valid : bool) (s : State) (profile : UserProfile),
    newPassword (form s) = EmptyString →
    (handleSubmit_call valid (loadProfile_resume (Js.Fulfilled profile) s).1).2 = None
    ∧ (handleSubmit_call valid (setProfile profile s).1).2 = None
    ∧ (∀ s0, (handleSubmit_call valid (resetForm s0)).2 = None)
    ∧ (∀ s0, (handleSubmit_call valid (handleSubmit_resume (Js.Fulfilled profile) s0).1).2
             = None).
Proof.
  intros valid s profile Hw. repeat split.
  - apply (handleSubmit_call_unchanged _ _ profile); try reflexivity. exact Hw.
  - apply (handleSubmit_call_unchanged _ _ profile); try reflexivity. exact Hw.
  - intros s0. unfold resetForm.
    destruct (originalProfile s0) as [original|] eqn:Ho.
    + apply (handleSubmit_call_unchanged _ _ original); try reflexivity. exact Ho.
    + unfold handleSubmit_call. rewrite Ho. destruct valid; reflexivity.
  - intros s0. apply (handleSubmit_call_unchanged _ _ profile); reflexivity.
Qed.

(** X16 at the initial state of the view and a profile without a phone. *)
Lemma X16_witness :
  (handleSubmit_call true
     (loadProfile_resume
        (Js.Fulfilled {| id := "u1"; name := "Ann"; email := "a@b.c"; phone := None |})
        initial).1).2 = None.
Proof.
  exact (proj1 (X16_unchanged_profile_sends_nothing true initial
                  {| id := "u1"; name := "Ann"; email := "a@b.c"; phone := None |}
                  eq_refl)).
Defined.

(** X17: every phone number that the register form accepts has eleven
    characters and is accepted by the phone rule of the profile form, so
    a profile can be saved with the number given at registration; the
    profile form also accepts an empty phone, which the register pattern
    never does. *)
Theorem X17_registered_phone_passes_the_profile_rule :
  ∀ (value : string),
    registerPhonePattern value = true →
    String.length value = 11%nat
    ∧ phonePattern value = true
    ∧ phoneValidator value = true
    ∧ phoneValidator EmptyString = true
    ∧ value ≠ EmptyString.
Proof.
  intros value. unfold registerPhonePattern, phoneValidator, phonePattern.
  rewrite <- (length_list_ascii_of_string value).
  destruct value as [|c1 [|c2 rest]];
    cbn [String.list_ascii_of_string forallb length]; try discriminate.
  intros H.
  apply andb_prop in H as [H Hlen]. apply andb_prop in H as [H Hdigits].
  apply andb_prop in H as [Hone Hrange]. apply andb_prop in Hrange as [Hlo Hhi].
  apply Nat.eqb_eq in Hlen. rewrite length_list_ascii_of_string in Hlen.
  rewrite length_list_ascii_of_string, Hlen.
  assert (Hc1 : phoneCharacter c1 = true).
  { apply Ascii.eqb_eq in Hone. subst c1. reflexivity. }
  assert (Hc2 : phoneCharacter c2 = true).
  { apply isDigit_phoneCharacter. unfold isDigit. rewrite Hhi.
    apply Nat.leb_le in Hlo. rewrite andb_true_r. apply Nat.leb_le. lia. }
  assert (Hrest : forallb phoneCharacter (String.list_ascii_of_string rest) = true).
  { apply forallb_forall. intros c Hc.
    apply isDigit_phoneCharacter.
    exact (proj1 (forallb_forall _ _) Hdigits c Hc). }
  rewrite Hc1, Hc2, Hrest. repeat split; try reflexivity. discriminate.
Qed.

(** X17 at a mobile number. *)
Lemma X17_witness :
  phoneValidator "13800138000" = true.
Proof.
  exact (proj1 (proj2 (proj2
    (X17_registered_phone_passes_the_profile_rule "13800138000" eq_refl)))).
Defined.

End ProfileFacts.

(** ** The login, register and home views *)

Section LoginFacts.
Import Login Router.

Variable JSON_stringify : AuthStore.json → string.



(** X19: the sign-out button of the home view.  Afterwards the store is
    not authenticated, neither the token nor the profile is in
    [localStorage], and the push to the login page is let through by the
    guard; the same push without the logout before it would have been
    sent back to the home page for a signed-in user. *)
Theorem X19_sign_out_reaches_the_login_page :
  ∀ (st : AuthStore.AuthState) (ls : gmap string string),
    let '(st', ls', fx) := goBackToLogin st ls in
    AuthStore.isAuthenticated st' = false
    ∧ ls' !! "access_token" = None ∧ ls' !! "user_profile" = None
    ∧ lands_on fx ls' = Some login
    ∧ (Js.truthy (ls !! "access_token") = true → lands_on fx ls = Some home).
Proof.
  intros st ls. unfold goBackToLogin, AuthStore.logout,
    AuthStore.USER_KEY, AuthStore.TOKEN_KEY. simpl.
  assert (Hgone : delete "user_profile" (delete "access_token" ls) !! "access_token"
                  = None).
  { rewrite lookup_delete_ne by discriminate. apply lookup_delete_eq. }
  repeat split.
  - exact Hgone.
  - apply lookup_delete_eq.
  - change (navigate 1 login (delete "user_profile" (delete "access_token" ls))
            = Some login).
    apply (navigate_without_token 0 login). rewrite Hgone. reflexivity.
  - intros Ht. change (navigate 1 login ls = Some home).
    exact (navigate_with_token 0 login ls Ht).
Qed.

End LoginFacts.

(** ** The workspace view with six tools *)

Section StudioFacts.
Import Vision Studio.

(** The watcher, one ref at a time. *)
Lemma watch_activeFeature_eq (val : string) (s : State) :
  watch_activeFeature val s
  = {| shared := Workspace.watch_activeFeature val (shared s);
       rotationColorBlind := if String.eqb val "color-blind" then rotationColorBlind s else 0%Q;
       rotationDocument := if String.eqb val "document-scan" then rotationDocument s else 0%Q;
       rotationOnly := if String.eqb val "rotate" then rotationOnly s else 0%Q;
       contrastLevel := if String.eqb val "contrast" then contrastLevel s else 0%Q;
       brightnessLevel := if String.eqb val "brightness" then brightnessLevel s else 0%Q;
       watermarkFile := watermarkFile s;
       watermarkPreview := watermarkPreview s;
       watermarkPoint := if String.eqb val "watermark" then watermarkPoint s else None |}.
Proof.
  unfold watch_activeFeature.
  destruct (String.eqb val "color-blind"), (String.eqb val "document-scan"),
    (String.eqb val "rotate"), (String.eqb val "contrast"),
    (String.eqb val "brightness"), (String.eqb val "watermark"); reflexivity.
Qed.

Lemma workspace_watch_keeps (val : string) (b : Workspace.State) :
  Workspace.activeFeature (Workspace.watch_activeFeature val b) = Workspace.activeFeature b
  ∧ Workspace.uploadFile (Workspace.watch_activeFeature val b) = Workspace.uploadFile b
  ∧ Workspace.originalPreview (Workspace.watch_activeFeature val b)
    = Workspace.originalPreview b.
Proof.
  unfold Workspace.watch_activeFeature.
  destruct (negb (String.eqb val "document-scan")); repeat split; reflexivity.
Qed.

(** Selecting a feature either changes nothing or activates one of the six
    tabs, which was not active, and runs the watcher. *)
Lemma studio_handleFeatureSelect_cases (k : string) (s : State) :
  handleFeatureSelect k s = s
  ∨ (∃ tool, k = tool_key tool)
    ∧ Workspace.activeFeature (shared s) ≠ k
    ∧ handleFeatureSelect k s
      = watch_activeFeature k (on_shared (Workspace.set_activeFeature k) s).
Proof.
  unfold handleFeatureSelect, featureTabs. cbn [List.find Workspace.key].
  destruct (String.eqb_spec (Workspace.activeFeature (shared s)) k) as [Hsame|Hother].
  - left. repeat case_match; reflexivity.
  - destruct (String.eqb_spec "color-blind" k) as [<-|]; cbn [Workspace.disabled].
    { right. split; [exists ColorBlind; reflexivity|]. split; [exact Hother|reflexivity]. }
    destruct (String.eqb_spec "document-scan" k) as [<-|]; cbn [Workspace.disabled].
    { right. split; [exists DocumentScan; reflexivity|]. split; [exact Hother|reflexivity]. }
    destruct (String.eqb_spec "watermark" k) as [<-|]; cbn [Workspace.disabled].
    { right. split; [exists Watermark; reflexivity|]. split; [exact Hother|reflexivity]. }
    destruct (String.eqb_spec "brightness" k) as [<-|]; cbn [Workspace.disabled].
    { right. split; [exists Brightness; reflexivity|]. split; [exact Hother|reflexivity]. }
    destruct (String.eqb_spec "contrast" k) as [<-|]; cbn [Workspace.disabled].
    { right. split; [exists Contrast; reflexivity|]. split; [exact Hother|reflexivity]. }
    destruct (String.eqb_spec "rotate" k) as [<-|]; cbn [Workspace.disabled].
    { right. split; [exists Rotate; reflexivity|]. split; [exact Hother|reflexivity]. }
    left. reflexivity.
Qed.


Lemma zero_within (bound : Q) : (0 <= bound)%Q → (- bound <= 0)%Q ∧ (0 <= bound)%Q.
Proof. intros H. split; lra. Qed.

Lemma parameters_ok_frame (s s' : State) :
  Workspace.activeFeature (shared s') = Workspace.activeFeature (shared s) →
  rotationColorBlind s' = rotationColorBlind s →
  rotationDocument s' = rotationDocument s →
  rotationOnly s' = rotationOnly s →
  contrastLevel s' = contrastLevel s →
  brightnessLevel s' = brightnessLevel s →
  parameters_ok s → parameters_ok s'.
Proof.
  unfold parameters_ok, slider_ok. intros -> -> -> -> -> ->. tauto.
Qed.

Lemma parameters_ok_zero (s' : State) :
  rotationColorBlind s' = 0%Q →
  rotationDocument s' = 0%Q →
  rotationOnly s' = 0%Q →
  contrastLevel s' = 0%Q →
  brightnessLevel s' = 0%Q →
  parameters_ok s'.
Proof.
  unfold parameters_ok, slider_ok. intros -> -> -> -> ->.
  repeat split; try reflexivity; lra.
Qed.

Lemma assignFile_fields (file : option File) (s : State) :
  let s' := (assignFile file s).1 in
  Workspace.activeFeature (shared s') = Workspace.activeFeature (shared s)
  ∧ Workspace.uploadFile (shared s') = file
  ∧ Workspace.preview_tracks_upload (shared s')
  ∧ rotationColorBlind s' = 0%Q ∧ rotationDocument s' = 0%Q ∧ rotationOnly s' = 0%Q
  ∧ contrastLevel s' = 0%Q ∧ brightnessLevel s' = 0%Q
  ∧ watermarkPoint s' = None.
Proof.
  destruct file; repeat split; reflexivity.
Qed.

Lemma assignWatermarkFile_fields (file : option File) (s : State) :
  let s' := (assignWatermarkFile file s).1 in
  shared s' = shared s
  ∧ rotationColorBlind s' = rotationColorBlind s
  ∧ rotationDocument s' = rotationDocument s
  ∧ rotationOnly s' = rotationOnly s
  ∧ contrastLevel s' = contrastLevel s ∧ brightnessLevel s' = brightnessLevel s
  ∧ watermarkFile s' = file
  ∧ watermarkPoint s' = None.
Proof.
  destruct file; repeat split; reflexivity.
Qed.


(** What the three upload handlers do to the refs: nothing, or what
    [assignFile] does. *)
Lemma upload_event_cases (userId : option string) (e : Event) (s : State) :
  match e with FileChange _ | Exceed _ | Remove => True | _ => False end →
  step userId e s = s ∨ ∃ file, step userId e s = (assignFile file s).1.
Proof.
  destruct e; try tauto; intros _; cbn [step].
  - right. exists (file ≫= Workspace.raw). unfold handleFileChange.
    destruct (file ≫= Workspace.raw); reflexivity.
  - destruct files as [|f files]; [left; reflexivity|right]. exists (Some f).
    unfold handleExceed. destruct (assignFile (Some f) s). reflexivity.
  - right. exists None. unfold handleRemove. destruct (assignFile None s). reflexivity.
Qed.

Lemma watermark_upload_event_cases (userId : option string) (e : Event) (s : State) :
  match e with WatermarkChange _ | WatermarkExceed _ | WatermarkRemove => True | _ => False end →
  step userId e s = s ∨ ∃ file, step userId e s = (assignWatermarkFile file s).1.
Proof.
  destruct e; try tauto; intros _; cbn [step].
  - right. exists (file ≫= Workspace.raw). unfold handleWatermarkChange.
    destruct (file ≫= Workspace.raw); reflexivity.
  - destruct files as [|f files]; [left; reflexivity|right]. exists (Some f).
    unfold handleWatermarkExceed. destruct (assignWatermarkFile (Some f) s). reflexivity.
  - right. exists None. unfold handleWatermarkRemove.
    destruct (assignWatermarkFile None s). reflexivity.
Qed.

(** The tool handlers, the point handlers and the switches leave the
    active tab, the upload and its preview, and the five slider values as
    they are. *)
Lemma other_events_keep_parameters (userId : option string) (e : Event) (s : State) :
  match e with
  | Click _ | Settled _ _ | ScanAreaClick _ _ | PointDragStart _ _ _ | PointDragMove _ _
  | PointDragStop | UndoPoint | ResetPoints | WatermarkClick _ _ | ResetWatermarkPoint
  | SwitchSaveOriginal _ | SwitchSaveProcessed _ | SelectMode _ => True
  | _ => False
  end →
  let s' := step userId e s in
  Workspace.activeFeature (shared s') = Workspace.activeFeature (shared s)
  ∧ Workspace.uploadFile (shared s') = Workspace.uploadFile (shared s)
  ∧ Workspace.originalPreview (shared s') = Workspace.originalPreview (shared s)
  ∧ rotationColorBlind s' = rotationColorBlind s
  ∧ rotationDocument s' = rotationDocument s
  ∧ rotationOnly s' = rotationOnly s
  ∧ contrastLevel s' = contrastLevel s
  ∧ brightnessLevel s' = brightnessLevel s.
Proof.
  destruct e; try tauto; intros _; cbn [step].
  - destruct tool;
      unfold handle_call, handleColorBlindTransform_call, handleDocumentScan_call,
        handleWatermarkApply_call, handleBrightnessAdjust_call,
        handleContrastAdjust_call, handleImageRotate_call, sent, warned;
      repeat case_match; repeat split; simpl; congruence.
  - destruct tool, outcome; repeat split; reflexivity.
  - unfold Workspace.handleScanAreaClick, on_shared.
    repeat case_match; repeat split; simpl; congruence.
  - unfold lift, Workspace.startPointDrag. destruct rect; repeat split; reflexivity.
  - unfold Workspace.handlePointDragMove, on_shared.
    repeat case_match; repeat split; simpl; congruence.
  - repeat split; reflexivity.
  - repeat split; reflexivity.
  - repeat split; reflexivity.
  - unfold handleWatermarkClick. repeat case_match; repeat split; simpl; congruence.
  - repeat split; reflexivity.
  - repeat split; reflexivity.
  - repeat split; reflexivity.
  - repeat split; reflexivity.
Qed.


(** A menu entry either leaves the tab and the parameters alone or
    activates a tab that was not active and runs the watcher. *)
Lemma handleTopMenuSelect_cases (k : string) (s : State) :
  let s' := (handleTopMenuSelect k s).1 in
  s' = on_shared (Workspace.set_topNavActive k) s
  ∨ ∃ tool,
      Workspace.activeFeature (shared s) ≠ tool_key tool
      ∧ s' = watch_activeFeature (tool_key tool)
               (on_shared (Workspace.set_activeFeature (tool_key tool))
                  (on_shared (Workspace.set_topNavActive k) s)).
Proof.
  unfold handleTopMenuSelect.
  destruct (String.eqb k "home"); [left; reflexivity|].
  destruct (String.eqb k "gallery"); [left; reflexivity|].
  destruct (String.eqb k "profile"); [left; reflexivity|].
  destruct (String.prefix "workspace-" k); [|left; reflexivity].
  cbn [fst].
  destruct (studio_handleFeatureSelect_cases
              (String.substring 10 (String.length k - 10) k)
              (on_shared (Workspace.set_topNavActive k) s))
    as [Hsame|([tool Hkey] & Hother & Hwatch)].
  - left. exact Hsame.
  - right. exists tool. rewrite Hkey in Hother, Hwatch. rewrite Hkey.
    split; [exact Hother|exact Hwatch].
Qed.

Lemma step_keeps_parameters (userId : option string) (e : Event) (s : State) :
  rendered s e → parameters_ok s → parameters_ok (step userId e s).
Proof.
  intros Hr Hok.
  destruct e as [file|files| |file|files| |tool|tool outcome|k|event rect|index event rect
                |event rect| | | |event rect| |v|v|m|v|v|v];
    match goal with |- parameters_ok (step _ ?e _) => set (ev := e) end;
    try (destruct (upload_event_cases userId ev s I) as [->|[file' ->]];
         [exact Hok|
          destruct (assignFile_fields file' s) as (_ & _ & _ & ? & ? & ? & ? & ? & _);
          apply parameters_ok_zero; assumption]);
    try (destruct (watermark_upload_event_cases userId ev s I) as [->|[file' ->]];
         [exact Hok|
          destruct (assignWatermarkFile_fields file' s) as (Hb & ? & ? & ? & ? & ? & _);
          apply (parameters_ok_frame s); try assumption; rewrite Hb; reflexivity]);
    try (destruct (other_events_keep_parameters userId ev s I)
           as (? & _ & _ & ? & ? & ? & ? & ?);
         apply (parameters_ok_frame s); assumption);
    subst ev.
  - cbn [step].
    destruct (handleTopMenuSelect_cases k s) as [->|(tool & Hother & ->)].
    + apply (parameters_ok_frame s); try reflexivity. exact Hok.
    + rewrite watch_activeFeature_eq.
      destruct Hok as (Hcb & Hdoc & (Hr0 & Hr1) & (Hc0 & Hc1) & (Hb0 & Hb1)).
      unfold parameters_ok, slider_ok.
      cbn [shared rotationColorBlind rotationDocument rotationOnly contrastLevel
           brightnessLevel on_shared set_shared].
      rewrite (proj1 (workspace_watch_keeps _ _)).
      cbn [Workspace.activeFeature Workspace.set_activeFeature].
      rewrite Hcb, Hdoc.
      destruct tool; cbn [tool_key String.eqb Ascii.eqb Bool.eqb andb];
        repeat split; try assumption; try reflexivity; try lra;
        try (intros Hne; contradiction Hne; reflexivity);
        intros _; reflexivity.
  - destruct Hok as (Hcb & Hdoc & (Hr0 & Hr1) & (Hc0 & Hc1) & (Hb0 & Hb1)).
    destruct Hr as (Hactive & Hlo & Hhi).
    cbn [step]. refine (conj Hcb (conj Hdoc (conj _ (conj _ _))));
      first [exact (conj Hr0 Hr1) | exact (conj Hc0 Hc1) | exact (conj Hb0 Hb1)
            | split; [intros Hne; destruct (Hne Hactive) | split; assumption]].
  - destruct Hok as (Hcb & Hdoc & (Hr0 & Hr1) & (Hc0 & Hc1) & (Hb0 & Hb1)).
    destruct Hr as (Hactive & Hlo & Hhi).
    cbn [step]. refine (conj Hcb (conj Hdoc (conj _ (conj _ _))));
      first [exact (conj Hr0 Hr1) | exact (conj Hc0 Hc1) | exact (conj Hb0 Hb1)
            | split; [intros Hne; destruct (Hne Hactive) | split; assumption]].
  - destruct Hok as (Hcb & Hdoc & (Hr0 & Hr1) & (Hc0 & Hc1) & (Hb0 & Hb1)).
    destruct Hr as (Hactive & Hlo & Hhi).
    cbn [step]. refine (conj Hcb (conj Hdoc (conj _ (conj _ _))));
      first [exact (conj Hr0 Hr1) | exact (conj Hc0 Hc1) | exact (conj Hb0 Hb1)
            | split; [intros Hne; destruct (Hne Hactive) | split; assumption]].
Qed.


Lemma other_events_watermarkPoint (userId : option string) (e : Event) (s : State) :
  match e with
  | Click _ | Settled _ _ | ScanAreaClick _ _ | PointDragStart _ _ _ | PointDragMove _ _
  | PointDragStop | UndoPoint | ResetPoints | WatermarkClick _ _ | ResetWatermarkPoint
  | SwitchSaveOriginal _ | SwitchSaveProcessed _ | SelectMode _ => True
  | _ => False
  end →
  let s' := step userId e s in
  watermarkPoint s' = watermarkPoint s
  ∨ watermarkPoint s' = None
  ∨ (match e with WatermarkClick _ _ => True | _ => False end
     ∧ Workspace.originalPreview (shared s) ≠ EmptyString).
Proof.
  destruct e; try tauto; intros _; cbn [step]; try (left; reflexivity).
  - left. destruct tool;
      unfold handle_call, handleColorBlindTransform_call, handleDocumentScan_call,
        handleWatermarkApply_call, handleBrightnessAdjust_call,
        handleContrastAdjust_call, handleImageRotate_call, sent, warned;
      repeat case_match; simpl; congruence.
  - left. destruct tool, outcome; reflexivity.
  - left. unfold lift, Workspace.startPointDrag. destruct rect; reflexivity.
  - unfold handleWatermarkClick.
    destruct (String.eqb_spec (Workspace.originalPreview (shared s)) EmptyString);
      [left; reflexivity|].
    right. right. split; [exact I|assumption].
  - right. left. reflexivity.
Qed.

Lemma preview_of_upload (b : Workspace.State) :
  Workspace.preview_tracks_upload b →
  Workspace.originalPreview b ≠ EmptyString →
  is_Some (Workspace.uploadFile b).
Proof.
  unfold Workspace.preview_tracks_upload. intros Htracks Hshown.
  destruct (Workspace.uploadFile b) as [f|]; [eexists; reflexivity|].
  contradiction.
Qed.

Lemma step_keeps_watermarkPoint (userId : option string) (e : Event) (s : State) :
  rendered s e → watermarkPoint_ok s → watermarkPoint_ok (step userId e s).
Proof.
  intros Hr [Htracks Hpoint]. unfold watermarkPoint_ok.
  destruct e as [file|files| |file|files| |tool|tool outcome|k|event rect|index event rect
                |event rect| | | |event rect| |v|v|m|v|v|v];
    match goal with |- context [step _ ?e _] => set (ev := e) end;
    try (destruct (upload_event_cases userId ev s I) as [->|[file' ->]];
         [exact (conj Htracks Hpoint)|
          destruct (assignFile_fields file' s) as (_ & _ & Ht & _ & _ & _ & _ & _ & Hnone);
          split; [exact Ht|rewrite Hnone; intros [? [=]]]]);
    try (destruct (watermark_upload_event_cases userId ev s I) as [->|[file' ->]];
         [exact (conj Htracks Hpoint)|
          destruct (assignWatermarkFile_fields file' s) as (Hb & _ & _ & _ & _ & _ & _ & Hnone);
          rewrite Hb, Hnone; split; [exact Htracks|intros [? [=]]]]);
    try (destruct (other_events_keep_parameters userId ev s I)
           as (Ha & Hu & Hp & _);
         unfold Workspace.preview_tracks_upload; rewrite Ha, Hu, Hp;
         split; [exact Htracks|];
         destruct (other_events_watermarkPoint userId ev s I) as [->|[->|[Hclick Hshown]]];
         [exact Hpoint
         |intros [? [=]]
         |intros _; subst ev;
          first [split; [exact Hr|exact (preview_of_upload _ Htracks Hshown)]
                |destruct Hclick]]);
    subst ev; cbn [step].
  - destruct (handleTopMenuSelect_cases k s) as [->|(tool & Hother & ->)].
    + split; [exact Htracks|exact Hpoint].
    + rewrite watch_activeFeature_eq.
      cbn [shared watermarkPoint on_shared set_shared].
      destruct (workspace_watch_keeps (tool_key tool)
                  (Workspace.set_activeFeature (tool_key tool)
                     (Workspace.set_topNavActive k (shared s)))) as (Ha & Hu & Hp).
      split.
      * unfold Workspace.preview_tracks_upload. rewrite Hu, Hp. exact Htracks.
      * rewrite Ha, Hu.
        destruct tool; cbn [tool_key String.eqb Ascii.eqb Bool.eqb andb];
          try (intros [? Hx]; discriminate Hx).
        intros Hsome. destruct (Hpoint Hsome) as [Hactive _]. destruct (Hother Hactive).
  - split; [exact Htracks|exact Hpoint].
  - split; [exact Htracks|exact Hpoint].
  - split; [exact Htracks|exact Hpoint].
Qed.

Lemma run_keeps_invariants (userId : option string) (events : list Event) (s : State) :
  rendered_run userId events s →
  parameters_ok s ∧ watermarkPoint_ok s →
  parameters_ok (run userId events s) ∧ watermarkPoint_ok (run userId events s).
Proof.
  revert s. induction events as [|e events IH]; intros s Hrun [Hp Hw].
  - split; assumption.
  - destruct Hrun as [Hr Hrun]. apply (IH (step userId e s) Hrun).
    split; [apply step_keeps_parameters|apply step_keeps_watermarkPoint]; assumption.
Qed.

Lemma initial_invariants : parameters_ok initial ∧ watermarkPoint_ok initial.
Proof.
  split.
  - apply parameters_ok_zero; reflexivity.
  - split; [reflexivity|]. intros [? [=]].
Qed.


(** X20: the parameters of the tools.  In every state that the view
    reaches through events that its template lets through, the rotation
    sent with the colour-blind and the scan request is zero, the values of
    the rotate, contrast and brightness sliders are within the bounds of
    their sliders, and the value of a slider whose tool is not the active
    one is zero: a tool that is entered starts from its default, whatever
    was set in it before. *)
Theorem X20_tool_parameters_reset_and_stay_in_range :
  ∀ (userId : option string) (events : list Event),
    rendered_run userId events initial →
    let s := run userId events initial in
    rotationColorBlind s = 0%Q ∧ rotationDocument s = 0%Q
    ∧ ((Workspace.activeFeature (shared s) ≠ "rotate" → rotationOnly s = 0%Q)
       ∧ (-180 <= rotationOnly s)%Q ∧ (rotationOnly s <= 180)%Q)
    ∧ ((Workspace.activeFeature (shared s) ≠ "contrast" → contrastLevel s = 0%Q)
       ∧ (-100 <= contrastLevel s)%Q ∧ (contrastLevel s <= 100)%Q)
    ∧ ((Workspace.activeFeature (shared s) ≠ "brightness" → brightnessLevel s = 0%Q)
       ∧ (-100 <= brightnessLevel s)%Q ∧ (brightnessLevel s <= 100)%Q).
Proof.
  intros userId events Hrun.
  exact (proj1 (run_keeps_invariants userId events initial Hrun initial_invariants)).
Qed.

(** X20 for a visit of the rotate tab that is left for the contrast tab. *)
Lemma X20_witness :
  let events := [TopMenuSelect "workspace-rotate"; SlideRotation 90;
                 TopMenuSelect "workspace-contrast"; SlideContrast (-40)] in
  rotationOnly (run None events initial) = 0%Q
  ∧ contrastLevel (run None events initial) = (-40)%Q.
Proof.
  intros events.
  assert (Hrun : rendered_run None events initial).
  { vm_compute. repeat split; discriminate. }
  pose proof (X20_tool_parameters_reset_and_stay_in_range None events Hrun)
    as (_ & _ & (Hrotate & _) & _).
  split; [apply Hrotate; vm_compute; discriminate|vm_compute; reflexivity].
Defined.


Lemma contrast_factor (level : Q) :
  (-100 <= level)%Q → (level <= 100)%Q →
  ∃ q, Js.div level 100 = Js.Fin q ∧ (-1 <= q)%Q ∧ (q <= 1)%Q.
Proof.
  intros Hlo Hhi. exists (level / 100)%Q. split; [reflexivity|].
  split.
  - apply Qle_shift_div_l; [reflexivity|]. lra.
  - apply Qle_shift_div_r; [reflexivity|]. lra.
Qed.

Lemma appendUserId_cases (userId : option string) (form : list (string * FormValue)) :
  (Js.truthy userId = false ∧ appendUserId userId form = form)
  ∨ ∃ t, userId = Some t ∧ Js.truthy userId = true
         ∧ appendUserId userId form = form ++ [("user_id", Text t)].
Proof.
  unfold appendUserId. destruct (Js.truthy userId) eqn:Ht.
  - right. destruct userId as [t|]; [|discriminate]. exists t. repeat split.
  - left. split; reflexivity.
Qed.

Ltac user_id_cases :=
  match goal with
  | |- context [appendUserId ?u ?f] =>
      destruct (appendUserId_cases u f) as [[_ ->]|(? & _ & _ & ->)]
  end.

(** X21: what a tool sends.  In every state reached through events that
    the template lets through, a request of a tool is sent only when an
    image is uploaded and carries that image as its [file] part.  The
    colour-blind and the scan request carry the rotation zero; the rotate
    request an angle between -180 and 180; the contrast request a factor
    between -1 and 1, which is the slider value divided by 100; the
    brightness request an offset between -100 and 100; the watermark
    request the uploaded watermark and the point picked in the watermark
    tab. *)
Theorem X21_requests_carry_the_upload_and_bounded_parameters :
  ∀ (userId : option string) (events : list Event) (tool : Tool) (r : Request),
    rendered_run userId events initial →
    (handle_call tool userId (run userId events initial)).2 = Some r →
    let s := run userId events initial in
    ∃ f, Workspace.uploadFile (shared s) = Some f
         ∧ FormData_get "file" (formData r) = Some (Blob f)
         ∧ match tool with
           | ColorBlind | DocumentScan =>
               FormData_get "rotation" (formData r) = Some (OfNumber (Js.Fin 0))
           | Rotate =>
               ∃ q, FormData_get "rotation" (formData r) = Some (OfNumber (Js.Fin q))
                    ∧ (-180 <= q)%Q ∧ (q <= 180)%Q
           | Contrast =>
               ∃ q, FormData_get "contrast" (formData r) = Some (OfNumber (Js.Fin q))
                    ∧ (-1 <= q)%Q ∧ (q <= 1)%Q
                    ∧ Js.div (contrastLevel s) 100 = Js.Fin q
           | Brightness =>
               ∃ q, FormData_get "brightness" (formData r) = Some (OfNumber (Js.Fin q))
                    ∧ (-100 <= q)%Q ∧ (q <= 100)%Q
           | Watermark =>
               ∃ w p, watermarkFile s = Some w ∧ watermarkPoint s = Some p
                      ∧ FormData_get "watermark" (formData r) = Some (Blob w)
                      ∧ FormData_get "position" (formData r) = Some (JsonPoint p)
                      ∧ Workspace.activeFeature (shared s) = "watermark"
           end.
Proof.
  intros userId events tool r Hrun.
  destruct (run_keeps_invariants userId events initial Hrun initial_invariants)
    as [(Hcb & Hdoc & (_ & Hr) & (_ & Hc) & (_ & Hb)) [_ Hpoint]].
  set (s := run userId events initial) in *.
  destruct tool;
    unfold handle_call, handleColorBlindTransform_call, handleDocumentScan_call,
      handleWatermarkApply_call, handleBrightnessAdjust_call,
      handleContrastAdjust_call, handleImageRotate_call, sent, warned;
    destruct (Workspace.uploadFile (shared s)) as [f|] eqn:Hf; try discriminate.
  - intros [= <-]. exists f. split; [reflexivity|]. rewrite Hcb.
    unfold transformColorBlind. cbv zeta. cbn [formData appendOption].
    user_id_cases; split; reflexivity.
  - destruct (negb _); [discriminate|].
    intros [= <-]. exists f. split; [reflexivity|]. rewrite Hdoc.
    unfold scanDocument. cbv zeta. cbn [formData appendOption].
    user_id_cases; split; reflexivity.
  - destruct (watermarkFile s) as [w|] eqn:Hw; [|discriminate].
    destruct (watermarkPoint s) as [p|] eqn:Hp; [|discriminate].
    intros [= <-]. exists f. split; [reflexivity|].
    unfold applyWatermark. cbv zeta. cbn [formData appendOption].
    destruct (Hpoint ltac:(eexists; reflexivity)) as [Hactive _].
    user_id_cases; (split; [reflexivity|]); exists w, p; repeat split; assumption.
  - intros [= <-]. exists f. split; [reflexivity|].
    unfold adjustBrightness. cbv zeta. cbn [formData appendOption].
    user_id_cases; (split; [reflexivity|]); exists (brightnessLevel s);
      (split; [reflexivity|exact Hb]).
  - intros [= <-]. exists f. split; [reflexivity|].
    destruct (contrast_factor (contrastLevel s) (proj1 Hc) (proj2 Hc)) as (q & Hq & Hlo & Hhi).
    unfold adjustContrast. cbv zeta. cbn [formData appendOption ct_contrast].
    rewrite Hq.
    user_id_cases; (split; [reflexivity|]); exists q;
      (split; [reflexivity|]); (split; [exact Hlo|]); (split; [exact Hhi|reflexivity]).
  - intros [= <-]. exists f. split; [reflexivity|].
    unfold rotateImage. cbv zeta. cbn [formData appendOption].
    user_id_cases; (split; [reflexivity|]); exists (rotationOnly s);
      (split; [reflexivity|exact Hr]).
Qed.


(** X21 for a contrast request after the slider was moved to 50. *)
Lemma X21_witness :
  let events := [FileChange (Some {| Workspace.raw := Some {| file_name := "a.png" |} |});
                 TopMenuSelect "workspace-contrast"; SlideContrast 50] in
  ∃ f, Workspace.uploadFile (shared (run None events initial)) = Some f.
Proof.
  intros events.
  assert (Hrun : rendered_run None events initial).
  { vm_compute. repeat split; discriminate. }
  assert (Hsent : ∃ r, (handle_call Contrast None (run None events initial)).2 = Some r).
  { vm_compute. eexists. reflexivity. }
  destruct Hsent as [r Hsent].
  destruct (X21_requests_carry_the_upload_and_bounded_parameters
              None events Contrast r Hrun Hsent) as (f & Hf & _).
  exists f. exact Hf.
Defined.




(** X23: the drop point of the watermark.  In every state reached through
    events that the template lets through, a drop point exists only while
    the watermark tab is active and an image is uploaded; choosing another
    image or another watermark (or removing one) always clears it, so a
    point is never applied to an image or with a watermark it was not
    picked for.  The watermark request is sent exactly when image,
    watermark and point are all present. *)
Theorem X23_drop_point_belongs_to_the_current_image :
  ∀ (userId : option string) (events : list Event),
    rendered_run userId events initial →
    let s := run userId events initial in
    (is_Some (watermarkPoint s) →
     Workspace.activeFeature (shared s) = "watermark"
     ∧ is_Some (Workspace.uploadFile (shared s))
     ∧ Workspace.originalPreview (shared s) ≠ EmptyString)
    ∧ (∀ file, watermarkPoint (assignFile file s).1 = None
               ∧ watermarkPoint (assignWatermarkFile file s).1 = None)
    ∧ (is_Some (handleWatermarkApply_call userId s).2
       ↔ is_Some (Workspace.uploadFile (shared s)) ∧ is_Some (watermarkFile s)
         ∧ is_Some (watermarkPoint s)).
Proof.
  intros userId events Hrun.
  destruct (run_keeps_invariants userId events initial Hrun initial_invariants)
    as [_ [Htracks Hpoint]].
  set (s := run userId events initial) in *. cbv zeta.
  split; [|split].
  - intros Hsome. destruct (Hpoint Hsome) as [Hactive [f Hf]].
    split; [exact Hactive|]. split; [exists f; exact Hf|].
    unfold Workspace.preview_tracks_upload in Htracks. rewrite Htracks, Hf.
    discriminate.
  - intros file. split.
    + exact (proj2 (proj2 (proj2 (proj2 (proj2 (proj2 (proj2 (proj2
               (assignFile_fields file s))))))))).
    + exact (proj2 (proj2 (proj2 (proj2 (proj2 (proj2 (proj2
               (assignWatermarkFile_fields file s)))))))).
  - unfold handleWatermarkApply_call, sent, warned.
    destruct (Workspace.uploadFile (shared s)), (watermarkFile s), (watermarkPoint s);
      cbn [snd]; (split; [intros Hs|intros (H1 & H2 & H3)]);
      first [destruct Hs as [? Hx]; discriminate Hx
            |destruct H1 as [? Hx]; discriminate Hx
            |destruct H2 as [? Hx]; discriminate Hx
            |destruct H3 as [? Hx]; discriminate Hx
            |repeat split; eexists; reflexivity].
Qed.

(** X23 for a click on the image of the watermark tab. *)
Lemma X23_witness :
  let events := [FileChange (Some {| Workspace.raw := Some {| file_name := "a.png" |} |});
                 TopMenuSelect "workspace-watermark";
                 WatermarkClick {| Workspace.clientX := 10; Workspace.clientY := 10;
                                   Workspace.pointerId := 1 |}
                   (Some {| Workspace.rect_left := 0; Workspace.rect_top := 0;
                            Workspace.rect_width := 20; Workspace.rect_height := 40 |})] in
  Workspace.activeFeature (shared (run None events initial)) = "watermark".
Proof.
  intros events.
  assert (Hrun : rendered_run None events initial).
  { vm_compute. repeat split; discriminate. }
  refine (proj1 (proj1 (X23_drop_point_belongs_to_the_current_image None events Hrun) _)).
  vm_compute. eexists. reflexivity.
Defined.

Ltac distinct_names :=
  cbn [fmap list_fmap app fst];
  repeat (apply NoDup_cons_2;
          [intros Hin;
           repeat (apply elem_of_cons in Hin as [Hin|Hin]; [discriminate Hin|]);
           inversion Hin|]);
  apply NoDup_nil_2.

Ltac form_parts :=
  unfold common_parts; cbv zeta; cbn [formData contentType];
  repeat match goal with
         | |- context [appendOption _ _ ?v _] =>
             lazymatch v with
             | Some _ => fail
             | None => fail
             | _ => destruct v
             end
         end;
  cbn [appendOption];
  match goal with
  | |- context [appendUserId ?u ?f] =>
      destruct (appendUserId_cases u f) as [[-> ->]|(? & -> & -> & ->)]
  end;
  (split; [reflexivity|]); (split; [distinct_names|]); repeat split; reflexivity.

(** X24: the requests of the vision client.  Each of the six functions
    builds a multipart form in which no two parts have the same name.  The
    form always has the image as its [file] part; it has the parts
    [save_original] and [save_processed] exactly when the payload defines
    them, and the part [user_id] exactly when the user id of the payload
    is a non-empty text: an empty id is left out like a missing one. *)
Theorem X24_form_data_of_the_vision_requests :
  ∀ (cb : ColorBlindPayload) (ds : DocumentScanPayload) (rt : RotatePayload)
    (ct : ContrastPayload) (br : BrightnessPayload) (wm : WatermarkPayload),
    common_parts (cb_file cb) (cb_saveOriginal cb) (cb_saveProcessed cb) (cb_userId cb)
      (transformColorBlind cb)
    ∧ common_parts (ds_file ds) (ds_saveOriginal ds) (ds_saveProcessed ds) (ds_userId ds)
        (scanDocument ds)
    ∧ common_parts (rt_file rt) (rt_saveOriginal rt) (rt_saveProcessed rt) (rt_userId rt)
        (rotateImage rt)
    ∧ common_parts (ct_file ct) (ct_saveOriginal ct) (ct_saveProcessed ct) (ct_userId ct)
        (adjustContrast ct)
    ∧ common_parts (br_file br) (br_saveOriginal br) (br_saveProcessed br) (br_userId br)
        (adjustBrightness br)
    ∧ common_parts (wm_file wm) (wm_saveOriginal wm) (wm_saveProcessed wm) (wm_userId wm)
        (applyWatermark wm).
Proof.
  intros cb ds rt ct br wm.
  split; [|split; [|split; [|split; [|split]]]].
  - unfold transformColorBlind. form_parts.
  - unfold scanDocument. form_parts.
  - unfold rotateImage. form_parts.
  - unfold adjustContrast. form_parts.
  - unfold adjustBrightness. form_parts.
  - unfold applyWatermark. form_parts.
Qed.

End StudioFacts.

(** ** Deleting from the gallery *)

Section GalleryDeleteFacts.
Import Gallery.

(** X25: deleting a picture of the gallery.  Without a confirmation
    nothing is sent and nothing changes.  With it, one delete request for
    the picture is sent, with the parameter [user_id] exactly when the
    user id is a non-empty text.  When that request fails, the list is
    not reloaded and no success is reported.  When it succeeds for a
    signed-in user, success is reported and the list is requested again
    for the page, page size and dates the view had before: the page
    number is not adjusted to the smaller list. *)
Theorem X25_delete_reloads_the_same_page :
  ∀ (item : GalleryRecord) (userId : option string) (error : Http.AxiosError) (s : State),
    handleDelete_confirmed false item userId s = (s, [], None)
    ∧ (handleDelete_confirmed true item userId s).1.1 = s
    ∧ (handleDelete_confirmed true item userId s).2
      = Some (Delete (String.append "/dashboard/gallery/" (id item))
                (if Js.truthy userId then userId else None))
    ∧ handleDelete_deleted (Js.Rejected error) userId s = (s, [], None)
    ∧ (∀ uid, userId = Some uid → uid ≠ EmptyString →
         let '(s', fx, awaited) := handleDelete_deleted (Js.Fulfilled tt) userId s in
         currentPage s' = currentPage s ∧ pageSize s' = pageSize s
         ∧ dateRange s' = dateRange s ∧ galleryItems s' = galleryItems s
         ∧ loading s' = true
         ∧ awaited
           = Some (Get (String.append "/dashboard/gallery/" uid)
                     {| param_page := Some (currentPage s);
                        param_page_size := Some (pageSize s);
                        param_start_date := or_undefined (resolveDateParam true s);
                        param_end_date := or_undefined (resolveDateParam false s) |})
         ∧ fx = [ElMessage_success "删除成功";
                 send (Get (String.append "/dashboard/gallery/" uid)
                         {| param_page := Some (currentPage s);
                            param_page_size := Some (pageSize s);
                            param_start_date := or_undefined (resolveDateParam true s);
                            param_end_date := or_undefined (resolveDateParam false s) |})]).
Proof.
  intros item userId error s.
  split; [reflexivity|]. split; [reflexivity|]. split; [reflexivity|].
  split; [reflexivity|].
  intros uid -> Hfilled.
  unfold handleDelete_deleted, loadGallery_call.
  assert (Ht : Js.truthy (Some uid) = true).
  { unfold Js.truthy. apply negb_true_iff, String.eqb_neq. exact Hfilled. }
  rewrite Ht. cbn [negb]. repeat split.
Qed.

(** X25 for the user [u1] on the second page. *)
Lemma X25_witness :
  (handleDelete_deleted (Js.Fulfilled tt) (Some "u1") (set_page 2 initial)).2
  = Some (Get "/dashboard/gallery/u1"
            {| param_page := Some 2%Q; param_page_size := Some 8%Q;
               param_start_date := None; param_end_date := None |}).
Proof.
  pose proof (X25_delete_reloads_the_same_page
                {| id := "g1"; user_id := "u1"; file_url := "/media/a.png";
                   file_name := None; stored_at := "2024-01-01T00:00:00";
                   filePreviewUrl := "/media/a.png" |}
                (Some "u1")
                {| Http.response := None; Http.error_message := "Network Error" |}
                (set_page 2 initial)) as (_ & _ & _ & _ & Hreload).
  specialize (Hreload "u1" eq_refl ltac:(discriminate)).
  destruct (handleDelete_deleted (Js.Fulfilled tt) (Some "u1") (set_page 2 initial))
    as [[s' fx] awaited].
  exact (proj1 (proj2 (proj2 (proj2 (proj2 (proj2 Hreload)))))).
Defined.

End GalleryDeleteFacts.
